(** * ESG / stock dashboard: the data-transformation layer

    A shallow embedding of [esgstocks_api.py] (class [ESGStockAPI]) and of
    [sankey.py] ([stack_columns], [code_mapping], [make_sankey]), with the
    properties the specification states about them.

    Conventions of the embedding.
    - A pandas [float64] is a primitive binary64 float; a Python [int] is a [Z].
    - A DataFrame whose columns are chosen by name at run time (the ESG table,
      the frames handed to the Sankey builder) is a [frame]: its column names
      and its rows, each row a finite map from column name to cell.
    - A Python exception is an [Err] of the [result] monad; where a function
      mutates a DataFrame it was handed, the DataFrame lives in a [store] and
      the function receives its location. *)

From Stdlib Require Import ZArith Floats Uint63 Permutation Sorted.
From Stdlib Require OrderedTypeEx.
From stdpp Require Import base option list strings gmap.

Set Warnings "-inexact-float,-clear-no-such-hyp".
Local Open Scope Z_scope.

(** ** Python values *)

(** A number as Python sees it: an [int] or a [float]. *)
Inductive num : Type :=
  | Int (z : Z)
  | Float (f : float).

(** A DataFrame cell: a number or a string. *)
Inductive value : Type :=
  | Num (n : num)
  | Str (s : string).

#[global] Instance float_eq_dec : EqDecision float.
Proof.
  intros x y. destruct (PrimFloat.Leibniz.eqb x y) eqn:E.
  - left. by apply FloatAxioms.Leibniz.eqb_spec.
  - right. intros H. apply FloatAxioms.Leibniz.eqb_spec in H. congruence.
Defined.

#[global] Instance num_eq_dec : EqDecision num.
Proof. solve_decision. Defined.

#[global] Instance value_eq_dec : EqDecision value.
Proof. solve_decision. Defined.

(** The float a small integer literal of the source denotes ([30], [20], [3],
    [6], [100], [1]: all exactly representable).  Python compares an [int]
    with a [float] exactly, which for these literals is the binary64
    comparison with the converted literal. *)
Definition float_of_lit (k : Z) : float := PrimFloat.of_uint63 (Uint63.of_Z k).

(** [x > k], [x >= k], [x <= k] for a number [x] and an integer literal [k].
    Every comparison with NaN is [False]. *)
Definition num_gt (x : num) (k : Z) : bool :=
  match x with
  | Int z => k <? z
  | Float f => (float_of_lit k <? f)%float
  end.

Definition num_ge (x : num) (k : Z) : bool :=
  match x with
  | Int z => k <=? z
  | Float f => (float_of_lit k <=? f)%float
  end.

Definition num_le (x : num) (k : Z) : bool :=
  match x with
  | Int z => z <=? k
  | Float f => (f <=? float_of_lit k)%float
  end.

(** ** Exceptions *)

Inductive error : Type :=
  | KeyError (column : string)
  | ValueError
  | TypeError
  | AttributeError
  | AssertionError.

Inductive result (A : Type) : Type :=
  | Ok (a : A)
  | Err (e : error).
Arguments Ok {A} a.
Arguments Err {A} e.

#[global] Instance result_ret : MRet result := fun A a => Ok a.
#[global] Instance result_bind : MBind result := fun A B f m =>
  match m with
  | Ok a => f a
  | Err e => Err e
  end.
#[global] Instance result_fmap : FMap result := fun A B f m =>
  match m with
  | Ok a => Ok (f a)
  | Err e => Err e
  end.

Definition is_Ok {A} (m : result A) : Prop := exists a, m = Ok a.

(** ** Classification ([ESGStockAPI.classify_esg], [classify_biz_risk]) *)

Definition classify_esg (esg_score : num) : string :=
  if num_gt esg_score 30 then "High ESG"
  else if num_ge esg_score 20 then "Medium ESG"
  else "Low ESG".

Definition classify_biz_risk (biz_risk : num) : string :=
  if num_le biz_risk 3 then "Low Business Risk"
  else if num_le biz_risk 6 then "Medium Business Risk"
  else "High Business Risk".

(** ** DataFrames with columns chosen by name *)

(** A row maps column names to cells; a frame keeps its column names (so that
    a missing column is detected on a frame without rows too) and its rows. *)
Record frame : Type := {
  columns : list string;
  rows : list (gmap string value)
}.

(** Every row carries exactly the frame's columns. *)
Definition wf_frame (df : frame) : Prop :=
  forall r, r ∈ rows df -> forall c, c ∈ columns df <-> is_Some (r !! c).

(** [row[c]] *)
Definition cell (c : string) (r : gmap string value) : result value :=
  match r !! c with
  | Some v => Ok v
  | None => Err (KeyError c)
  end.

(** [df[c]]: the cells of column [c], [KeyError] when [df] has no such column. *)
Definition get_column (c : string) (df : frame) : result (list value) :=
  if decide (c ∈ columns df) then mapM (cell c) (rows df) else Err (KeyError c).

(** [df[c] = vs]: overwrite column [c], or append it as a new last column. *)
Definition set_column (c : string) (vs : list value) (df : frame) : frame :=
  {| columns := if decide (c ∈ columns df) then columns df else columns df ++ [c];
     rows := zip_with (fun r v => <[c := v]> r) (rows df) vs |}.

(** [df[mask]]: the rows whose mask entry is [True]. *)
Definition boolean_index (mask : list bool) (df : frame) : frame :=
  {| columns := columns df;
     rows := fst <$> filter (fun rm => snd rm = true) (zip (rows df) mask) |}.

(** [series.isin(names)] for a list of strings: a cell matches when it is one
    of these strings. *)
Definition isin (names : list string) (v : value) : bool :=
  match v with
  | Str s => bool_decide (s ∈ names)
  | Num _ => false
  end.

(** ** Python dictionaries keyed by cells

    Insertion order is kept and a key that is already present keeps its place
    and takes the new value.  Keys are compared with Leibniz equality, which is
    Python's [==] on strings and on numbers of one type other than NaN. *)
Definition dict : Type := list (value * value).

Fixpoint dict_set (k v : value) (d : dict) : dict :=
  match d with
  | [] => [(k, v)]
  | (k', v') :: d' =>
      if decide (k = k') then (k', v) :: d' else (k', v') :: dict_set k v d'
  end.

Fixpoint dict_get (k : value) (d : dict) : option value :=
  match d with
  | [] => None
  | (k', v') :: d' => if decide (k = k') then Some v' else dict_get k d'
  end.

(** [dict(zip(ks, vs))] *)
Definition dict_of_zip (ks vs : list value) : dict :=
  foldl (fun d kv => dict_set (fst kv) (snd kv) d) [] (zip ks vs).

(** [series.map(d)]: a cell that is no key of [d] becomes NaN. *)
Definition map_dict (d : dict) (v : value) : value :=
  default (Num (Float nan)) (dict_get v d).

(** ** Stable sorting

    [sort_values] on several keys and [groupby] order rows with a stable sort;
    insertion from the right, placing an element before the elements it is not
    greater than, is one. *)
Fixpoint insert_by {A} (le : A -> A -> bool) (x : A) (l : list A) : list A :=
  match l with
  | [] => [x]
  | y :: l' => if le x y then x :: y :: l' else y :: insert_by le x l'
  end.

Fixpoint sort_by {A} (le : A -> A -> bool) (l : list A) : list A :=
  match l with
  | [] => []
  | x :: l' => insert_by le x (sort_by le l')
  end.

(** ** The API state ([ESGStockAPI]) *)

(** A row of [self.stocks], whose four columns [read_data] itself creates.
    [Date] is a timezone-naive timestamp (a count of nanoseconds), [Price] a
    [float64] cell (NaN where the price file has no value), [Full Name] the
    cell of the ESG table the symbol is mapped to. *)
Record stock_row : Type := {
  Date : Z;
  Symbol : string;
  Price : float;
  Full_Name : value
}.

Record api : Type := {
  esg : frame;
  stocks : list stock_row
}.

(** The price file as [pd.read_csv] returns it: the [Date] column if the file
    has one, its cells still text, and one [float64] column per ticker, in
    file order.  Every cell of the [Date] column holds a text: a file with a
    blank [Date] cell, which pandas loads as the missing timestamp NaT, is not
    among these tables, nor is a file with a text in a price column ([read_data]
    looks at no price).  A price column that holds integers only is read as
    [int64]; its cells are taken as the floats they convert to, and the
    return computed from these floats is the one pandas computes from the
    integers as long as the prices stay below 2^53. *)
Record wide_table : Type := {
  date_column : option (list string);
  ticker_columns : list (string * list float)
}.

(** A row of a melted price table: [Date], [Symbol] (the former column name)
    and [Price]. *)
Definition melted_row : Type := Z * string * float.

(** The rows of a melted price table: ticker column after ticker column, each
    paired with the dates row by row. *)
Definition melt_rows (dates : list Z) (tickers : list (string * list float))
  : list melted_row :=
  flat_map (fun col => zip_with (fun d p => (d, fst col, p)) dates (snd col)) tickers.

(** [df.melt(id_vars = ["Date"], var_name = "Symbol", value_name = "Price")];
    pandas refuses with [ValueError] a table that has a column of the name
    given as [value_name]. *)
Definition melt (dates : list Z) (tickers : list (string * list float))
  : result (list melted_row) :=
  if decide ("Price" ∈ fst <$> tickers) then Err ValueError
  else Ok (melt_rows dates tickers).

Section Loading.

(** What [pd.to_numeric] makes of a text cell ([None]: the text is refused
    with [ValueError]). *)
Variable parse_number : string -> option num.

(** [pd.to_datetime(column).dt.tz_localize(None)] on the texts of a column:
    the timezone-naive timestamps, one for each text, or the exception that
    is raised.  pandas converts the column as a whole: the format is taken
    from its first text, and texts that each are a date need not convert
    together (two UTC offsets in one column leave it without a datetime type,
    and the [.dt] accessor then raises [AttributeError]). *)
Variable to_datetime : list string -> result (list Z).

Definition to_numeric (v : value) : result num :=
  match v with
  | Num n => Ok n
  | Str s =>
      match parse_number s with
      | Some n => Ok n
      | None => Err ValueError
      end
  end.

(** [read_data] on the two tables [pd.read_csv] returns; the state it leaves
    in [self.esg] and [self.stocks], or the exception it raises. *)
Definition read_data (esg_csv : frame) (stocks_csv : wide_table) : result api :=
  total ← get_column "totalEsg" esg_csv;
  total ← mapM to_numeric total;
  let esg_df := set_column "totalEsg" (Num <$> total) esg_csv in
  symbols ← get_column "Symbol" esg_df;
  names ← get_column "Full Name" esg_df;
  let ticker_to_name := dict_of_zip symbols names in
  dates ← match date_column stocks_csv with
          | Some ds => Ok ds
          | None => Err (KeyError "Date")
          end;
  dates ← to_datetime dates;
  adjusted ← melt dates (ticker_columns stocks_csv);
  let adjusted :=
    filter (fun r : melted_row =>
              is_Some (dict_get (Str (snd (fst r))) ticker_to_name)) adjusted in
  let adjusted :=
    (fun r : melted_row =>
       {| Date := fst (fst r); Symbol := snd (fst r); Price := snd r;
          Full_Name := map_dict ticker_to_name (Str (snd (fst r))) |}) <$> adjusted in
  Ok {| esg := esg_df; stocks := adjusted |}.

End Loading.

(** ** Price trends ([extract_stock_price_trends]) *)

(** A row of the returned table: columns [Date], [Full Name], [Price]. *)
Record trend_row : Type := {
  trend_date : Z;
  trend_name : string;
  trend_price : float
}.

(** Ascending order on ([Full Name], [Date]): strings by code point (the
    order of their UTF-8 bytes), ties on the name by date. *)
Definition name_date_le (a b : trend_row) : bool :=
  match String.compare (trend_name a) (trend_name b) with
  | Lt => true
  | Eq => trend_date a <=? trend_date b
  | Gt => false
  end.

(** The three columns [["Date", "Full Name", "Price"]] of a stock row.  The
    rows that reach the projection passed [isin] on a list of strings, so their
    name is a string. *)
Definition trend_columns (r : stock_row) : option trend_row :=
  match Full_Name r with
  | Str s => Some {| trend_date := Date r; trend_name := s; trend_price := Price r |}
  | Num _ => None
  end.

(** [if start_date: df = df[df["Date"] >= pd.to_datetime(start_date)]]; a date
    is always true as a condition, [None] never. *)
Definition from_date (start_date : option Z) (l : list stock_row) : list stock_row :=
  match start_date with
  | Some d => filter (fun r => d <= Date r) l
  | None => l
  end.

(** [if end_date: df = df[df["Date"] <= pd.to_datetime(end_date)]] *)
Definition until_date (end_date : option Z) (l : list stock_row) : list stock_row :=
  match end_date with
  | Some d => filter (fun r => Date r <= d) l
  | None => l
  end.

(** The rows of the selected companies within the dates, their three columns,
    sorted by [sort_values(["Full Name", "Date"])]. *)
Definition extract_stock_price_trends (self : api) (company_names : list string)
    (start_date end_date : option Z) : list trend_row :=
  let fltr_stocks_df :=
    filter (fun r => isin company_names (Full_Name r) = true) (stocks self) in
  let fltr_stocks_df := from_date start_date fltr_stocks_df in
  let fltr_stocks_df := until_date end_date fltr_stocks_df in
  sort_by name_date_le (omap trend_columns fltr_stocks_df).

(** ** Return analysis ([analyze_esg_vs_stock_returns]) *)

(** [series.apply(f)] for one of the two classifiers on one cell: comparing a
    string with an integer raises [TypeError]. *)
Definition classify_cell (f : num -> string) (v : value) : result value :=
  match v with
  | Num n => Ok (Str (f n))
  | Str _ => Err TypeError
  end.

(** The string in a cell, if it holds one. *)
Definition as_string (v : value) : option string :=
  match v with
  | Str s => Some s
  | Num _ => None
  end.

Definition valid_prices (prices : list float) : list float :=
  filter (fun p => is_nan p = false) prices.

(** The group aggregations ["first"] and ["last"]: the first and the last
    entry of the group that is not NaN, NaN when the group has none. *)
Definition first_valid (prices : list float) : float :=
  default nan (head (valid_prices prices)).

Definition last_valid (prices : list float) : float :=
  default nan (last (valid_prices prices)).

(** [(end_price - start_price) / start_price * 100] on [float64]. *)
Definition stock_return (start_price end_price : float) : float :=
  ((end_price - start_price) / start_price * float_of_lit 100)%float.

(** A row of [stock_returns_df] after [reset_index]. *)
Record returns_row : Type := {
  returns_name : string;
  start_price : float;
  end_price : float;
  returns_pct : float
}.

(** The prices of one company in a price-trend table, in table order. *)
Definition prices_of (name : string) (df : list trend_row) : list float :=
  trend_price <$> filter (fun r => trend_name r = name) df.

(** [df.groupby("Full Name").agg(start_price = ("Price", "first"),
    end_price = ("Price", "last"))] with the added ["Stock Return"] column:
    one row per name occurring in [df], names ascending. *)
Definition group_returns (df : list trend_row) : list returns_row :=
  (fun name =>
     let first := first_valid (prices_of name df) in
     let last := last_valid (prices_of name df) in
     {| returns_name := name; start_price := first; end_price := last;
        returns_pct := stock_return first last |})
  <$> sort_by String.leb (remove_dups (trend_name <$> df)).

(** A row of the returned table: columns [Full Name], [totalEsg],
    [Stock Return], [Business Risk Level]. *)
Record analysis_row : Type := {
  analysis_name : value;
  analysis_totalEsg : value;
  Stock_Return : float;
  Business_Risk_Level : value
}.

(** The rows an ESG row contributes to the inner merge on ["Full Name"]: one
    per row of [stock_returns_df] with its name, in that table's order. *)
Definition merge_row (stock_returns_df : list returns_row) (r : gmap string value)
  : result (list analysis_row) :=
  name ← cell "Full Name" r;
  total ← cell "totalEsg" r;
  level ← cell "Business Risk Level" r;
  Ok ((fun s => {| analysis_name := name; analysis_totalEsg := total;
                   Stock_Return := returns_pct s; Business_Risk_Level := level |})
      <$> filter (fun s => Str (returns_name s) = name) stock_returns_df).

(** [pd.merge(fltr_esg_df, stock_returns_df, on = "Full Name", how = "inner")]
    followed by the selection of the four columns.  The merge keeps the order
    of the left rows.  A left column named ["Stock Return"] would be renamed
    by the merge, and the selection then finds no such column. *)
Definition merge_and_select (fltr_esg_df : frame) (stock_returns_df : list returns_row)
  : result (list analysis_row) :=
  if decide ("Full Name" ∈ columns fltr_esg_df) then
    if decide ("totalEsg" ∈ columns fltr_esg_df) then
      if decide ("Stock Return" ∈ columns fltr_esg_df) then Err (KeyError "Stock Return")
      else
        merged ← mapM (merge_row stock_returns_df) (rows fltr_esg_df);
        Ok (concat merged)
    else Err (KeyError "totalEsg")
  else Err (KeyError "Full Name").

(** [if biz_risks: df = df[df["Business Risk Level"].isin(biz_risks)]]; the
    empty list stands for [None] too, both being false as a condition. *)
Definition filter_levels (biz_risks : list string) (levels : list value) (df : frame)
  : frame :=
  match biz_risks with
  | [] => df
  | _ :: _ => boolean_index (isin biz_risks <$> levels) df
  end.

(** The analysis reads [self] and works on copies ([.copy()]): it returns a
    table or raises, and leaves the state as it is. *)
Definition analyze_esg_vs_stock_returns (self : api) (company_names : list string)
    (start_date end_date : option Z) (biz_risks : list string)
  : result (list analysis_row) :=
  names ← get_column "Full Name" (esg self);
  let fltr_esg_df := boolean_index (isin company_names <$> names) (esg self) in
  risk ← get_column "overallRisk" fltr_esg_df;
  levels ← mapM (classify_cell classify_biz_risk) risk;
  let fltr_esg_df := set_column "Business Risk Level" levels fltr_esg_df in
  let fltr_esg_df := filter_levels biz_risks levels fltr_esg_df in
  names ← get_column "Full Name" fltr_esg_df;
  let stock_prices_df :=
    extract_stock_price_trends self (omap as_string names) start_date end_date in
  let stock_returns_df := group_returns stock_prices_df in
  merge_and_select fltr_esg_df stock_returns_df.

(** ** Category-flow data ([sankey.py]) *)

(** One row of [df[[col1, col2, "value"]]] with its columns renamed to
    [src], [targ], [value]. *)
Definition pair_row (col1 col2 : string) (r : gmap string value)
  : result (gmap string value) :=
  s ← cell col1 r;
  t ← cell col2 r;
  v ← cell "value" r;
  Ok {[ "src" := s; "targ" := t; "value" := v ]}.

Definition pair_df (df : frame) (col1 col2 : string) : result frame :=
  if decide (col1 ∈ columns df) then
    if decide (col2 ∈ columns df) then
      if decide ("value" ∈ columns df) then
        pair_rows ← mapM (pair_row col1 col2) (rows df);
        Ok {| columns := ["src"; "targ"; "value"]; rows := pair_rows |}
      else Err (KeyError "value")
    else Err (KeyError col2)
  else Err (KeyError col1).

(** [pd.concat] refuses an empty list of frames with [ValueError]. *)
Definition stack_columns (df : frame) (cols : list string) : result frame :=
  stacked_dfs ← mapM (fun p => pair_df df (fst p) (snd p)) (zip cols (tail cols));
  match stacked_dfs with
  | [] => Err ValueError
  | _ :: _ =>
      Ok {| columns := ["src"; "targ"; "value"];
            rows := concat (rows <$> stacked_dfs) |}
  end.

Section Labels.

(** The order in which Python iterates over the set built from a list of
    cells: some list of its distinct elements. *)
Variable set_order : list value -> list value.

(** The frame [code_mapping] turns its argument into, and the label list.
    Labels are told apart by the equality of the model, which is Python's on
    strings and integers.  On float cells it is not (a Python set keeps two
    NaN cells as two labels, and holds 1 and 1.0 as one), so the properties of
    the labels are stated for categorical cells: strings and integers. *)
Definition code_mapping (df : frame) (src targ : string)
  : result (frame * list value) :=
  sources ← get_column src df;
  targets ← get_column targ df;
  let labels := set_order (sources ++ targets) in
  let codes := (fun i : nat => Num (Int (Z.of_nat i))) <$> seq 0 (length labels) in
  let lc_map := dict_of_zip labels codes in
  let df := set_column src (map_dict lc_map <$> sources) df in
  targets ← get_column targ df;
  let df := set_column targ (map_dict lc_map <$> targets) df in
  Ok (df, labels).

End Labels.

(** What [set_order] is known to do: enumerate the elements once each. *)
Definition set_iteration (set_order : list value -> list value) : Prop :=
  forall l, NoDup (set_order l) /\ forall x, x ∈ set_order l <-> x ∈ l.

(** *** DataFrame objects and references

    [make_sankey] assigns to a column of the DataFrame its caller passed, and
    [code_mapping] to columns of the one it is passed: the objects live in a
    store, a reference is an index into it, and an exception leaves the store
    as it was when it was raised. *)
Definition action (A : Type) : Type := list frame -> list frame * result A.

#[global] Instance action_ret : MRet action := fun A a σ => (σ, Ok a).
#[global] Instance action_bind : MBind action := fun A B f m σ =>
  match m σ with
  | (σ', Ok a) => f a σ'
  | (σ', Err e) => (σ', Err e)
  end.

Definition raise {A} (e : error) : action A := fun σ => (σ, Err e).

Definition lift {A} (m : result A) : action A := fun σ => (σ, m).

(** The object a reference designates (a reference always designates one). *)
Definition deref (l : nat) : action frame := fun σ =>
  match σ !! l with
  | Some df => (σ, Ok df)
  | None => (σ, Err TypeError)
  end.

Definition assign (l : nat) (df : frame) : action unit := fun σ =>
  (<[l := df]> σ, Ok tt).

Definition new_object (df : frame) : action nat := fun σ =>
  (σ ++ [df], Ok (length σ)).

(** The data the diagram is built from: the link columns and the node labels. *)
Record sankey_data : Type := {
  link_source : list value;
  link_target : list value;
  link_value : list value;
  node_label : list value
}.

(** The cells [make_sankey] writes into the [value] column: column [vals] when
    [vals] is a non-empty name, else the constant [1]. *)
Definition link_thickness (vals : option string) (df : frame) : result (list value) :=
  match vals with
  | Some v =>
      if decide (v = "") then Ok (replicate (length (rows df)) (Num (Int 1)))
      else get_column v df
  | None => Ok (replicate (length (rows df)) (Num (Int 1)))
  end.

Section Diagram.

Variable set_order : list value -> list value.

(** [code_mapping] on the object behind a reference: the object is changed
    in place. *)
Definition code_mapping_at (l : nat) (src targ : string) : action (list value) :=
  df ← deref l;
  mapped ← lift (code_mapping set_order df src targ);
  assign l (fst mapped);;
  mret (snd mapped).

(** [make_sankey] up to the data it hands to the figure: the colours, sizes
    and fonts computed from [kwargs] and from the number of labels are left
    out. *)
Definition make_sankey (df : nat) (cols : list string) (vals : option string)
  : action sankey_data :=
  (if bool_decide (2 <= length cols)%nat then mret tt else raise AssertionError);;
  caller_df ← deref df;
  thickness ← lift (link_thickness vals caller_df);
  assign df (set_column "value" thickness caller_df);;
  caller_df ← deref df;
  stacked ← lift (stack_columns caller_df cols);
  df ← new_object stacked;
  labels ← code_mapping_at df "src" "targ";
  coded ← deref df;
  source ← lift (get_column "src" coded);
  target ← lift (get_column "targ" coded);
  value ← lift (get_column "value" coded);
  mret {| link_source := source; link_target := target; link_value := value;
          node_label := labels |}.

End Diagram.

(** ** Company names ([get_company_names]) *)

(** The number in a cell, if it holds one. *)
Definition as_number (v : value) : option num :=
  match v with
  | Num n => Some n
  | Str _ => None
  end.

Section Names.

(** What Python's [sorted] makes of a list of numbers (their order when a NaN
    is among them is the sorting algorithm's business). *)
Variable sort_numbers : list num -> list num.

(** [sorted(l)] on a list of cells: strings ascend by code point, numbers as
    [sort_numbers] orders them, and a list that holds a string and a number
    raises [TypeError] when the two are compared. *)
Definition py_sorted (l : list value) : result (list value) :=
  match mapM as_string l with
  | Some names => Ok (Str <$> sort_by String.leb names)
  | None =>
      match mapM as_number l with
      | Some numbers => Ok (Num <$> sort_numbers numbers)
      | None => Err TypeError
      end
  end.

Definition get_company_names (self : api) : result (list value) :=
  names ← get_column "Full Name" (esg self);
  py_sorted names.

End Names.

(** ** ESG breakdown ([build_esg_risk_hierarchy]) *)

(** [zip(["Environmental", "Social", "Governance"],
         ["environmentScore", "socialScore", "governanceScore"])] *)
Definition dimensions : list (string * string) :=
  [ ("Environmental", "environmentScore");
    ("Social", "socialScore");
    ("Governance", "governanceScore") ].

(** The dictionary appended for one row and one dimension; its entries are
    evaluated in the order they are written. *)
Definition breakdown_entry (row : gmap string value) (dim_col : string * string)
  : result (gmap string value) :=
  company ← cell "Full Name" row;
  esg_level ← cell "ESG Level" row;
  risk_level ← cell "Business Risk Level" row;
  score ← cell (snd dim_col) row;
  Ok {[ "Company" := company; "ESG Dimension" := Str (fst dim_col);
        "ESG Level" := esg_level; "Business Risk Level" := risk_level;
        "Score" := score ]}.

(** [pd.DataFrame(records)] for records of these five keys: a frame without
    columns when there is no record. *)
Definition breakdown_frame (records : list (gmap string value)) : frame :=
  {| columns := match records with
                | [] => []
                | _ :: _ => ["Company"; "ESG Dimension"; "ESG Level";
                             "Business Risk Level"; "Score"]
                end;
     rows := records |}.

(** The two level filters are the statement [filter_levels] models, the empty
    list standing for [None] as there. *)
Definition build_esg_risk_hierarchy (self : api) (company_names : list string)
    (esg_levels biz_risks : list string) : result frame :=
  names ← get_column "Full Name" (esg self);
  let fltr_esg_df := boolean_index (isin company_names <$> names) (esg self) in
  total ← get_column "totalEsg" fltr_esg_df;
  esg_level ← mapM (classify_cell classify_esg) total;
  let fltr_esg_df := set_column "ESG Level" esg_level fltr_esg_df in
  let fltr_esg_df := filter_levels esg_levels esg_level fltr_esg_df in
  risk ← get_column "overallRisk" fltr_esg_df;
  risk_level ← mapM (classify_cell classify_biz_risk) risk;
  let fltr_esg_df := set_column "Business Risk Level" risk_level fltr_esg_df in
  let fltr_esg_df := filter_levels biz_risks risk_level fltr_esg_df in
  esg_risk_breakdown ←
    mapM (fun row => mapM (breakdown_entry row) dimensions) (rows fltr_esg_df);
  Ok (breakdown_frame (concat esg_risk_breakdown)).

(** ** The dashboard callbacks ([esgstocks_explore.py]) *)

(** What a callback hands to its tab: the note that nothing can be shown, or
    a figure, kept as the data it is drawn from (widths, heights, titles and
    labels are left out). *)
Inductive view (A : Type) : Type :=
  | NoVisualization
  | Figure (data : A).
Arguments NoVisualization {A}.
Arguments Figure {A} data.

(** [df.empty]: no row or no column. *)
Definition frame_empty (df : frame) : bool :=
  match rows df, columns df with
  | _ :: _, _ :: _ => false
  | _, _ => true
  end.

Section Callbacks.

Variable set_order : list value -> list value.

(** The breakdown is a new object, which [make_sankey] then works on. *)
Definition get_sankey_diagram (self : api) (company_names esg_levels biz_risks : list string)
  : action (view sankey_data) :=
  breakdown ← lift (build_esg_risk_hierarchy self company_names esg_levels biz_risks);
  if frame_empty breakdown then mret NoVisualization
  else
    df ← new_object breakdown;
    fig ← make_sankey set_order df
            ["Company"; "ESG Dimension"; "ESG Level"; "Business Risk Level"]
            (Some "Score");
    mret (Figure fig).

End Callbacks.

(** The date slider always gives both dates. *)
Definition get_line_plot (self : api) (company_names : list string)
    (date_range : Z * Z) : view (list trend_row) :=
  let df := extract_stock_price_trends self company_names
              (Some (fst date_range)) (Some (snd date_range)) in
  match df with
  | [] => NoVisualization
  | _ :: _ => Figure df
  end.

Definition get_scatter_plot (self : api) (company_names : list string)
    (date_range : Z * Z) (biz_risks : list string)
  : result (view (list analysis_row)) :=
  df ← analyze_esg_vs_stock_returns self company_names
         (Some (fst date_range)) (Some (snd date_range)) biz_risks;
  match df with
  | [] => Ok NoVisualization
  | _ :: _ => Ok (Figure df)
  end.

(** * Vocabulary of the properties *)

(** The cell of a row in a column the frame is known to have. *)
Definition cell_or_nan (c : string) (r : gmap string value) : value :=
  default (Num (Float nan)) (r !! c).

(** The stacked row of row [r] for the column pair ([col1], [col2]). *)
Definition triple (col1 col2 : string) (r : gmap string value) : gmap string value :=
  {[ "src" := cell_or_nan col1 r; "targ" := cell_or_nan col2 r;
     "value" := cell_or_nan "value" r ]}.

(** The position of the first occurrence of a cell in a list. *)
Fixpoint index_of (x : value) (l : list value) : nat :=
  match l with
  | [] => 0
  | y :: l' => if decide (x = y) then 0 else S (index_of x l')
  end.

(** A categorical label: a string or an integer (cells on which the equality
    of the model is Python's). *)
Definition categorical (v : value) : Prop :=
  match v with
  | Num (Float _) => False
  | _ => True
  end.

(** The cell [make_sankey] writes into the [value] column of a row. *)
Definition thickness_cell (vals : option string) (r : gmap string value) : value :=
  match vals with
  | Some c => if decide (c = "") then Num (Int 1) else cell_or_nan c r
  | None => Num (Int 1)
  end.

(** [vals], when it is a non-empty name, names a column of the frame. *)
Definition vals_in_frame (vals : option string) (df : frame) : Prop :=
  forall c, vals = Some c -> c <> "" -> c ∈ columns df.

(** A cell [pd.to_numeric] accepts: a number, or a text [parse] reads. *)
Definition numeric_cell (parse : string -> option num) (v : value) : Prop :=
  match v with
  | Num _ => True
  | Str s => is_Some (parse s)
  end.

(** What [read_data] requires of its two inputs. *)
Definition load_checks (parse_number : string -> option num)
    (to_datetime : list string -> result (list Z)) (esg_csv : frame)
    (stocks_csv : wide_table)
  : Prop :=
  "totalEsg" ∈ columns esg_csv
  /\ (forall r v, r ∈ rows esg_csv -> r !! "totalEsg" = Some v ->
                  numeric_cell parse_number v)
  /\ "Symbol" ∈ columns esg_csv
  /\ "Full Name" ∈ columns esg_csv
  /\ (exists ds, date_column stocks_csv = Some ds /\ is_Ok (to_datetime ds))
  /\ "Price" ∉ fst <$> ticker_columns stocks_csv.

(** Ascending dates. *)
Definition date_le (a b : trend_row) : bool := trend_date a <=? trend_date b.

(** A date within the inclusive range; a missing bound restricts nothing. *)
Definition in_range (start_date end_date : option Z) (d : Z) : Prop :=
  match start_date with Some s => s <= d | None => True end
  /\ match end_date with Some e => d <= e | None => True end.

#[global] Instance in_range_dec start_date end_date d :
  Decision (in_range start_date end_date d).
Proof. unfold in_range. destruct start_date, end_date; apply _. Defined.

(** The stock rows a call selects. *)
Definition selected (company_names : list string) (start_date end_date : option Z)
    (r : stock_row) : Prop :=
  isin company_names (Full_Name r) = true /\ in_range start_date end_date (Date r).

(** The name and the business-risk level of an ESG row. *)
Definition name_cell (e : gmap string value) : value := cell_or_nan "Full Name" e.

Definition level_cell (e : gmap string value) : value :=
  match cell_or_nan "overallRisk" e with
  | Num n => Str (classify_biz_risk n)
  | Str s => Str s
  end.

(** The ESG rows a call keeps: a selected company whose level passes the
    filter, when there is one. *)
Definition kept (company_names biz_risks : list string) (e : gmap string value)
  : Prop :=
  isin company_names (name_cell e) = true
  /\ match biz_risks with
     | [] => True
     | _ :: _ => isin biz_risks (level_cell e) = true
     end.

#[global] Instance kept_dec company_names biz_risks e :
  Decision (kept company_names biz_risks e).
Proof. unfold kept. destruct biz_risks; apply _. Defined.

(** A state the return analysis runs on without an exception: the ESG table
    has the three columns the analysis reads and no [Stock Return] column, and
    the risk score of every selected company is a number. *)
Definition analysable (self : api) (company_names : list string) : Prop :=
  wf_frame (esg self)
  /\ "Full Name" ∈ columns (esg self)
  /\ "overallRisk" ∈ columns (esg self)
  /\ "totalEsg" ∈ columns (esg self)
  /\ ("Stock Return" ∉ columns (esg self))
  /\ forall e, e ∈ rows (esg self) -> isin company_names (name_cell e) = true ->
               exists n, e !! "overallRisk" = Some (Num n).

(** The kept rows with their level column. *)
Definition with_level (e : gmap string value) : gmap string value :=
  <["Business Risk Level" := level_cell e]> e.

Definition kept_frame (self : api) (company_names biz_risks : list string) : frame :=
  {| columns := if decide ("Business Risk Level" ∈ columns (esg self))
                then columns (esg self)
                else columns (esg self) ++ ["Business Risk Level"];
     rows := with_level <$> filter (kept company_names biz_risks) (rows (esg self)) |}.

(** The price rows of one company within the inclusive date range, and its
    price series: these rows in chronological order (rows of one date in
    table order). *)
Definition price_rows (self : api) (name : string)
    (start_date end_date : option Z) : list stock_row :=
  filter (fun r => Full_Name r = Str name /\ in_range start_date end_date (Date r))
         (stocks self).

Definition company_series (self : api) (name : string)
    (start_date end_date : option Z) : list trend_row :=
  sort_by date_le (omap trend_columns (price_rows self name start_date end_date)).

(** The prices of a company's series, and the return the analysis reports. *)
Definition series_prices (self : api) (name : string)
    (start_date end_date : option Z) : list float :=
  trend_price <$> company_series self name start_date end_date.

Definition reported_return (self : api) (name : string)
    (start_date end_date : option Z) : float :=
  stock_return (first_valid (series_prices self name start_date end_date))
               (last_valid (series_prices self name start_date end_date)).

(** The rows of the result an ESG row accounts for. *)
Definition analysis_rows_of (self : api) (start_date end_date : option Z)
    (e : gmap string value) : list analysis_row :=
  match name_cell e with
  | Str name =>
      if decide (company_series self name start_date end_date = []) then []
      else [ {| analysis_name := Str name;
                analysis_totalEsg := cell_or_nan "totalEsg" e;
                Stock_Return := reported_return self name start_date end_date;
                Business_Risk_Level := level_cell e |} ]
  | Num _ => []
  end.

(** The return from the price of the first row to the price of the last row
    of a series. *)
Definition first_to_last_return (prices : list float) : float :=
  stock_return (default nan (head prices)) (default nan (last prices)).

(** The price rows of one ticker within the inclusive date range. *)
Definition symbol_rows (self : api) (sym : string)
    (start_date end_date : option Z) : list stock_row :=
  filter (fun r => Symbol r = sym /\ in_range start_date end_date (Date r))
         (stocks self).

(** A company is a symbol of the ESG table with its name.  The price rows are
    joined to the ESG records by name, so the two tell one company only when
    every ESG record of the name has the symbol, and every ESG record of the
    symbol has the name. *)
Definition name_of_one_symbol (self : api) (sym name : string) : Prop :=
  forall e, e ∈ rows (esg self) -> e !! "Full Name" = Some (Str name) ->
            e !! "Symbol" = Some (Str sym).

Definition symbol_of_one_name (self : api) (sym name : string) : Prop :=
  forall e, e ∈ rows (esg self) -> e !! "Symbol" = Some (Str sym) ->
            e !! "Full Name" = Some (Str name).

(** The frames and the figure data of a run on a frame that has the listed
    columns. *)
Definition sankey_written (vals : option string) (caller_df : frame) : frame :=
  set_column "value" (thickness_cell vals <$> rows caller_df) caller_df.

Definition sankey_stacked_rows (vals : option string) (caller_df : frame)
    (cols : list string) : list (gmap string value) :=
  concat ((fun p => triple (fst p) (snd p) <$> rows (sankey_written vals caller_df))
          <$> zip cols (tail cols)).

Definition sankey_labels (set_order : list value -> list value)
    (vals : option string) (caller_df : frame) (cols : list string) : list value :=
  set_order ((cell_or_nan "src" <$> sankey_stacked_rows vals caller_df cols)
             ++ (cell_or_nan "targ" <$> sankey_stacked_rows vals caller_df cols)).

Definition sankey_code (set_order : list value -> list value)
    (vals : option string) (caller_df : frame) (cols : list string) (l : value) : value :=
  Num (Int (Z.of_nat (index_of l (sankey_labels set_order vals caller_df cols)))).

Definition sankey_coded (set_order : list value -> list value)
    (vals : option string) (caller_df : frame) (cols : list string) : frame :=
  {| columns := ["src"; "targ"; "value"];
     rows := (fun r => <["targ" := sankey_code set_order vals caller_df cols
                                     (cell_or_nan "targ" r)]>
                         (<["src" := sankey_code set_order vals caller_df cols
                                       (cell_or_nan "src" r)]> r))
             <$> sankey_stacked_rows vals caller_df cols |}.

(** A level passes a level filter: the empty filter lets every level pass. *)
Definition passes (levels : list string) (v : value) : Prop :=
  match levels with
  | [] => True
  | _ :: _ => isin levels v = true
  end.

#[global] Instance passes_dec levels v : Decision (passes levels v).
Proof. unfold passes. destruct levels; apply _. Defined.

(** The ESG level of an ESG row. *)
Definition esg_level_cell (e : gmap string value) : value :=
  match cell_or_nan "totalEsg" e with
  | Num n => Str (classify_esg n)
  | Str s => Str s
  end.

(** The ESG rows the breakdown keeps: a selected company whose two levels
    pass their filters. *)
Definition kept_hierarchy (company_names esg_levels biz_risks : list string)
    (e : gmap string value) : Prop :=
  isin company_names (name_cell e) = true
  /\ passes esg_levels (esg_level_cell e)
  /\ passes biz_risks (level_cell e).

#[global] Instance kept_hierarchy_dec company_names esg_levels biz_risks e :
  Decision (kept_hierarchy company_names esg_levels biz_risks e).
Proof. unfold kept_hierarchy. apply _. Defined.

(** A state the breakdown is computed on without an exception up to the loop:
    the ESG table has the three columns the filters read, the ESG score of
    every selected company is a number, and so is the risk score of every
    selected company whose ESG level passes. *)
Definition breakdown_ready (self : api) (company_names esg_levels : list string)
  : Prop :=
  wf_frame (esg self)
  /\ "Full Name" ∈ columns (esg self)
  /\ "totalEsg" ∈ columns (esg self)
  /\ "overallRisk" ∈ columns (esg self)
  /\ (forall e, e ∈ rows (esg self) -> isin company_names (name_cell e) = true ->
                exists n, e !! "totalEsg" = Some (Num n))
  /\ (forall e, e ∈ rows (esg self) -> isin company_names (name_cell e) = true ->
                passes esg_levels (esg_level_cell e) ->
                exists n, e !! "overallRisk" = Some (Num n)).

(** An ESG row with its two level columns. *)
Definition with_levels (e : gmap string value) : gmap string value :=
  <["Business Risk Level" := level_cell e]> (<["ESG Level" := esg_level_cell e]> e).

(** The record of an ESG row for one dimension, and its three records. *)
Definition breakdown_record (e : gmap string value) (dim_col : string * string)
  : gmap string value :=
  {[ "Company" := name_cell e; "ESG Dimension" := Str (fst dim_col);
     "ESG Level" := esg_level_cell e; "Business Risk Level" := level_cell e;
     "Score" := cell_or_nan (snd dim_col) e ]}.

Definition breakdown_rows (e : gmap string value) : list (gmap string value) :=
  breakdown_record e <$> dimensions.

(** * Sample data *)

(** A flow table of two rows over three categorical columns. *)
Definition sample_flows : frame :=
  {| columns := ["a"; "b"; "c"; "value"];
     rows := [ {[ "a" := Str "X"; "b" := Str "Y"; "c" := Str "Z";
                  "value" := Num (Float 2) ]};
               {[ "a" := Str "X"; "b" := Str "Z"; "c" := Str "Y";
                  "value" := Num (Float 3) ]} ] |}.

(** A stacked table over the labels X, Y and Z. *)
Definition sample_links : frame :=
  {| columns := ["src"; "targ"; "value"];
     rows := [ {[ "src" := Str "X"; "targ" := Str "Y"; "value" := Num (Float 2) ]};
               {[ "src" := Str "Y"; "targ" := Str "Z"; "value" := Num (Float 3) ]};
               {[ "src" := Str "X"; "targ" := Str "Z"; "value" := Num (Float 1) ]} ] |}.

(** A table of categories without a [value] column. *)
Definition sample_categories : frame :=
  {| columns := ["a"; "b"];
     rows := [ {[ "a" := Str "X"; "b" := Str "Y" ]};
               {[ "a" := Str "X"; "b" := Str "Z" ]} ] |}.

(** Timestamps of three trading days (nanoseconds since the epoch). *)
Definition day (n : Z) : Z := n * 86400000000000.

Definition sample_parse_date (s : string) : option Z :=
  if decide (s = "2023-01-03") then Some (day 19360)
  else if decide (s = "2023-01-04") then Some (day 19361)
  else if decide (s = "2023-01-05") then Some (day 19362)
  else None.

(** The conversion of a column of these date texts; a column with another
    text is refused. *)
Definition sample_to_datetime (ds : list string) : result (list Z) :=
  mapM (fun s => match sample_parse_date s with
                 | Some t => Ok t
                 | None => Err ValueError
                 end) ds.

Definition sample_parse_number (s : string) : option num :=
  if decide (s = "25") then Some (Int 25) else None.

(** Two companies; the price file also has a ticker the ESG file lacks, and
    no price for the second company on the first day. *)
Definition sample_esg : frame :=
  {| columns := ["Symbol"; "Full Name"; "totalEsg"; "overallRisk"];
     rows := [ {[ "Symbol" := Str "A"; "Full Name" := Str "Alpha";
                  "totalEsg" := Num (Float 25); "overallRisk" := Num (Int 3) ]};
               {[ "Symbol" := Str "B"; "Full Name" := Str "Beta";
                  "totalEsg" := Num (Float 31); "overallRisk" := Num (Int 7) ]} ] |}.

Definition sample_prices : wide_table :=
  {| date_column := Some ["2023-01-03"; "2023-01-04"; "2023-01-05"];
     ticker_columns := [ ("A", [100; 110; 121]%float);
                         ("B", [nan; 100; 110]%float);
                         ("C", [1; 2; 3]%float) ] |}.

(** The same ESG table without its [overallRisk] column. *)
Definition sample_esg_without_risk : frame :=
  {| columns := ["Symbol"; "Full Name"; "totalEsg"];
     rows := [ {[ "Symbol" := Str "A"; "Full Name" := Str "Alpha";
                  "totalEsg" := Num (Float 25) ]};
               {[ "Symbol" := Str "B"; "Full Name" := Str "Beta";
                  "totalEsg" := Num (Float 31) ]} ] |}.

Definition empty_api : api := {| esg := {| columns := []; rows := [] |}; stocks := [] |}.

(** The state [read_data] leaves for the sample files. *)
Definition sample_api : api :=
  match read_data sample_parse_number sample_to_datetime sample_esg sample_prices with
  | Ok a => a
  | Err _ => empty_api
  end.

(** The ESG table of the sample with the three score columns. *)
Definition sample_scored_esg : frame :=
  {| columns := ["Symbol"; "Full Name"; "totalEsg"; "overallRisk";
                 "environmentScore"; "socialScore"; "governanceScore"];
     rows := [ {[ "Symbol" := Str "A"; "Full Name" := Str "Alpha";
                  "totalEsg" := Num (Float 25); "overallRisk" := Num (Int 3);
                  "environmentScore" := Num (Float 10);
                  "socialScore" := Num (Float 8);
                  "governanceScore" := Num (Float 7) ]};
               {[ "Symbol" := Str "B"; "Full Name" := Str "Beta";
                  "totalEsg" := Num (Float 31); "overallRisk" := Num (Int 7);
                  "environmentScore" := Num (Float 12);
                  "socialScore" := Num (Float 11);
                  "governanceScore" := Num (Float 8) ]} ] |}.

Definition sample_scored_api : api :=
  {| esg := sample_scored_esg; stocks := stocks sample_api |}.

(** The sample ESG table with a third company that has no name. *)
Definition sample_esg_unnamed : frame :=
  {| columns := columns sample_esg;
     rows := rows sample_esg
             ++ [ {[ "Symbol" := Str "C"; "Full Name" := Num (Float nan);
                     "totalEsg" := Num (Float 18); "overallRisk" := Num (Int 5) ]} ] |}.

(** The sample ESG table with the risk score of the second company as text. *)
Definition sample_esg_text_risk : frame :=
  {| columns := ["Symbol"; "Full Name"; "totalEsg"; "overallRisk"];
     rows := [ {[ "Symbol" := Str "A"; "Full Name" := Str "Alpha";
                  "totalEsg" := Num (Float 25); "overallRisk" := Num (Int 3) ]};
               {[ "Symbol" := Str "B"; "Full Name" := Str "Beta";
                  "totalEsg" := Num (Float 31); "overallRisk" := Str "high" ]} ] |}.

(** The loaded sample with the prices of the first company all missing. *)
Definition sample_api_no_prices : api :=
  {| esg := esg sample_api;
     stocks := (fun r => {| Date := Date r; Symbol := Symbol r;
                            Price := if decide (Symbol r = "A") then nan else Price r;
                            Full_Name := Full_Name r |}) <$> stocks sample_api |}.

(** Two ESG records of one name under two symbols; the price file has no
    column for the second symbol. *)
Definition sample_esg_shared_name : frame :=
  {| columns := ["Symbol"; "Full Name"; "totalEsg"; "overallRisk"];
     rows := [ {[ "Symbol" := Str "A"; "Full Name" := Str "Alpha";
                  "totalEsg" := Num (Float 25); "overallRisk" := Num (Int 3) ]};
               {[ "Symbol" := Str "D"; "Full Name" := Str "Alpha";
                  "totalEsg" := Num (Float 18); "overallRisk" := Num (Int 5) ]} ] |}.

Definition sample_api_shared_name : api :=
  match read_data sample_parse_number sample_to_datetime
          sample_esg_shared_name sample_prices with
  | Ok a => a
  | Err _ => empty_api
  end.

(** The sample ESG table with a third company, for which the price file has
    no column. *)
Definition sample_esg_unpriced : frame :=
  {| columns := columns sample_esg;
     rows := rows sample_esg
             ++ [ {[ "Symbol" := Str "E"; "Full Name" := Str "Epsilon";
                     "totalEsg" := Num (Float 18); "overallRisk" := Num (Int 5) ]} ] |}.

Definition sample_api_unpriced : api :=
  match read_data sample_parse_number sample_to_datetime
          sample_esg_unpriced sample_prices with
  | Ok a => a
  | Err _ => empty_api
  end.

(** * Tactics *)

(** A name that differs from every name of an explicit list is not in it. *)
Ltac not_in_list :=
  let H := fresh in
  intros H;
  repeat (apply elem_of_cons in H as [H|H]; [discriminate|]);
  by apply elem_of_nil in H.

(** * Properties *)

(** ** Classification *)

(** In binary64 a score that is not at least 20.0 is not above 30.0. *)
Lemma float_below_20_not_above_30 (f : float) :
  (20 <=? f)%float = false -> (30 <? f)%float = false.
Proof.
  rewrite FloatAxioms.ltb_spec, FloatAxioms.leb_spec. unfold SFltb, SFleb.
  change (Prim2SF 30) with (S754_finite false 8444249301319680 (-48)).
  change (Prim2SF 20) with (S754_finite false 5629499534213120 (-48)).
  destruct (Prim2SF f) as [sg|sg| |sg m e]; cbv beta iota delta [SFcompare].
  - reflexivity.
  - destruct sg; [reflexivity | discriminate].
  - reflexivity.
  - destruct sg; [reflexivity|].
    destruct (Z.compare_spec (-48) e) as [He|He|He]; cbv beta iota.
    + rewrite !Pos.compare_cont_spec. unfold Pos.switch_Eq.
      destruct (Pos.compare_spec 5629499534213120 m) as [Hm|Hm|Hm];
        cbv beta iota; try discriminate.
      intros _.
      destruct (Pos.compare_spec 8444249301319680 m) as [Hm'|Hm'|Hm'];
        cbv beta iota; try reflexivity; exfalso.
      pose proof (Pos.lt_trans _ _ _ Hm' Hm) as H. vm_compute in H. discriminate.
    + discriminate.
    + reflexivity.
Qed.

(** C3. [classify_esg] is total on numbers and returns exactly one of the three
    labels, decided by the thresholds 30 and 20: "High ESG" exactly above 30,
    "Medium ESG" exactly from 20 to 30, "Low ESG" otherwise, for an integer
    score in the order of the integers and for a float score in the binary64
    comparison with 30.0 and 20.0, in which NaN is neither above 30 nor at
    least 20; 31 is high, 20 is medium and 19.9 is low. *)
Theorem classify_esg_thresholds (s : num) :
  (classify_esg s = "High ESG" \/ classify_esg s = "Medium ESG"
   \/ classify_esg s = "Low ESG")
  /\ (forall z, classify_esg (Int z) = "High ESG" <-> 30 < z)
  /\ (forall z, classify_esg (Int z) = "Medium ESG" <-> 20 <= z <= 30)
  /\ (forall z, classify_esg (Int z) = "Low ESG" <-> z < 20)
  /\ (forall f, classify_esg (Float f) = "High ESG" <-> (30 <? f)%float = true)
  /\ (forall f, classify_esg (Float f) = "Medium ESG"
                <-> (30 <? f)%float = false /\ (20 <=? f)%float = true)
  /\ (forall f, classify_esg (Float f) = "Low ESG"
                <-> (30 <? f)%float = false /\ (20 <=? f)%float = false)
  /\ (forall f, classify_esg (Float f) = "High ESG"
                <-> SFcompare (Prim2SF 30) (Prim2SF f) = Some Lt)
  /\ (forall f, classify_esg (Float f) = "Low ESG"
                <-> SFcompare (Prim2SF 20) (Prim2SF f) = Some Gt
                    \/ SFcompare (Prim2SF 20) (Prim2SF f) = None)
  /\ classify_esg (Int 31) = "High ESG" /\ classify_esg (Float 31) = "High ESG"
  /\ classify_esg (Int 20) = "Medium ESG" /\ classify_esg (Float 20) = "Medium ESG"
  /\ classify_esg (Float 19.9) = "Low ESG"
  /\ classify_esg (Float 45) = "High ESG" /\ classify_esg (Float 30.5) = "High ESG"
  /\ classify_esg (Float 30) = "Medium ESG" /\ classify_esg (Float 25) = "Medium ESG"
  /\ classify_esg (Float 19.99) = "Low ESG" /\ classify_esg (Float 0) = "Low ESG"
  /\ classify_esg (Float nan) = "Low ESG"
  /\ classify_esg (Float infinity) = "High ESG"
  /\ classify_esg (Float neg_infinity) = "Low ESG".
Proof.
  assert (Hint : forall z,
    (classify_esg (Int z) = "High ESG" <-> 30 < z)
    /\ (classify_esg (Int z) = "Medium ESG" <-> 20 <= z <= 30)
    /\ (classify_esg (Int z) = "Low ESG" <-> z < 20)).
  { intros z. unfold classify_esg, num_gt, num_ge.
    destruct (Z.ltb_spec 30 z), (Z.leb_spec 20 z);
      repeat split; intros; try discriminate; try lia; reflexivity. }
  assert (H30 : float_of_lit 30 = 30%float) by reflexivity.
  assert (H20 : float_of_lit 20 = 20%float) by reflexivity.
  assert (Hfloat : forall f,
    (classify_esg (Float f) = "High ESG" <-> (30 <? f)%float = true)
    /\ (classify_esg (Float f) = "Medium ESG"
        <-> (30 <? f)%float = false /\ (20 <=? f)%float = true)
    /\ (classify_esg (Float f) = "Low ESG"
        <-> (30 <? f)%float = false /\ (20 <=? f)%float = false)).
  { intros f. unfold classify_esg, num_gt, num_ge. rewrite H30, H20.
    destruct (30 <? f)%float, (20 <=? f)%float;
      repeat split; intros;
      repeat match goal with
             | H : _ /\ _ |- _ => destruct H
             end; try discriminate; reflexivity. }
  pose proof float_below_20_not_above_30 as Hbelow.
  split.
  { unfold classify_esg. destruct (num_gt s 30), (num_ge s 20); auto. }
  split; [apply Hint|]. split; [apply Hint|]. split; [apply Hint|].
  split; [apply Hfloat|]. split; [apply Hfloat|]. split; [apply Hfloat|].
  split.
  { intros f. destruct (Hfloat f) as (-> & _ & _).
    rewrite FloatAxioms.ltb_spec. unfold SFltb.
    destruct (SFcompare (Prim2SF 30) (Prim2SF f)) as [[]|]; split; congruence. }
  split.
  { intros f. destruct (Hfloat f) as (_ & _ & ->).
    split.
    - intros [_ H]. rewrite FloatAxioms.leb_spec in H. unfold SFleb in H.
      destruct (SFcompare (Prim2SF 20) (Prim2SF f)) as [[]|]; auto; discriminate.
    - intros H. assert (H' : (20 <=? f)%float = false).
      { rewrite FloatAxioms.leb_spec. unfold SFleb. by destruct H as [-> | ->]. }
      split; [by apply Hbelow | done]. }
  repeat split; reflexivity.
Qed.

(** C4, as stated, fails: the level of score 3 is not the string "Low". *)
Lemma classify_biz_risk_not_short_label : classify_biz_risk (Int 3) <> "Low".
Proof. discriminate. Qed.

(** C4, amended. [classify_biz_risk] maps every integer score to one of three
    levels, named "Low Business Risk" (scores up to 3), "Medium Business Risk"
    (scores 4 to 6) and "High Business Risk" (scores above 6); 3 is low, 4 is
    medium and 7 is high. *)
Theorem classify_biz_risk_levels (z : Z) :
  (classify_biz_risk (Int z) = "Low Business Risk" <-> z <= 3)
  /\ (classify_biz_risk (Int z) = "Medium Business Risk" <-> 3 < z <= 6)
  /\ (classify_biz_risk (Int z) = "High Business Risk" <-> 6 < z)
  /\ classify_biz_risk (Int 3) = "Low Business Risk"
  /\ classify_biz_risk (Int 4) = "Medium Business Risk"
  /\ classify_biz_risk (Int 7) = "High Business Risk".
Proof.
  unfold classify_biz_risk, num_le.
  destruct (Z.leb_spec z 3), (Z.leb_spec z 6);
    repeat split; intros; try discriminate; try lia; reflexivity.
Qed.

(** ** The [result] monad over lists *)

Lemma bind_Ok {A B} (f : A -> result B) (m : result A) (b : B) :
  m ≫= f = Ok b <-> exists a, m = Ok a /\ f a = Ok b.
Proof.
  destruct m as [a|e]; simpl; split.
  - intros H. by exists a.
  - by intros (a' & [= <-] & H).
  - discriminate.
  - by intros (a' & [=] & _).
Qed.

Lemma mapM_Ok_fmap {A B} (f : A -> result B) (g : A -> B) (l : list A) :
  Forall (fun x => f x = Ok (g x)) l -> mapM f l = Ok (g <$> l).
Proof.
  induction 1 as [|x l Hx _ IH]; simpl; [done|].
  by rewrite Hx, IH.
Qed.

Lemma mapM_Ok_Forall2 {A B} (f : A -> result B) (l : list A) (k : list B) :
  mapM f l = Ok k <-> Forall2 (fun x y => f x = Ok y) l k.
Proof.
  revert k. induction l as [|x l IH]; intros k; simpl.
  - split; [intros [= <-]; constructor | by inversion 1].
  - split.
    + intros (y & Hy & H)%bind_Ok. apply bind_Ok in H as (k' & Hk' & [= <-]).
      constructor; [done | by apply IH].
    + inversion 1 as [|? y ? k' Hy Hk']; subst.
      apply IH in Hk'. by rewrite Hy, Hk'.
Qed.

Lemma mapM_Ok_length {A B} (f : A -> result B) (l : list A) (k : list B) :
  mapM f l = Ok k -> length k = length l.
Proof. intros H%mapM_Ok_Forall2. symmetry. by eapply Forall2_length. Qed.

Lemma mapM_Err_exists {A B} (f : A -> result B) (l : list A) (e : error) :
  mapM f l = Err e -> exists x, x ∈ l /\ f x = Err e.
Proof.
  induction l as [|x l IH]; simpl; [discriminate|].
  destruct (f x) as [y|e'] eqn:Hx; simpl.
  - destruct (mapM f l) as [k|e'']; simpl; [discriminate|].
    intros [= <-]. destruct IH as (x' & ? & ?); [done|].
    exists x'. split; [by right | done].
  - intros [= <-]. exists x. split; [by left | done].
Qed.

(** ** Frames *)

Lemma cell_Ok (c : string) (r : gmap string value) (v : value) :
  cell c r = Ok v <-> r !! c = Some v.
Proof. unfold cell. destruct (r !! c); split; congruence. Qed.

Lemma wf_frame_cell (df : frame) (c : string) (r : gmap string value) :
  wf_frame df -> r ∈ rows df -> c ∈ columns df -> exists v, r !! c = Some v.
Proof. intros Hwf Hr Hc. by apply (Hwf r Hr c). Qed.

Lemma get_column_wf (df : frame) (c : string) :
  wf_frame df -> c ∈ columns df ->
  get_column c df = Ok (cell_or_nan c <$> rows df).
Proof.
  intros Hwf Hc. unfold get_column. rewrite decide_True by done.
  apply mapM_Ok_fmap, Forall_forall. intros r Hr.
  destruct (wf_frame_cell df c r Hwf Hr Hc) as [v Hv].
  unfold cell, cell_or_nan. by rewrite Hv.
Qed.

Lemma get_column_Ok (df : frame) (c : string) (vs : list value) :
  get_column c df = Ok vs ->
  c ∈ columns df /\ Forall2 (fun r v => r !! c = Some v) (rows df) vs.
Proof.
  unfold get_column. destruct (decide (c ∈ columns df)) as [Hc|]; [|discriminate].
  intros Hm%mapM_Ok_Forall2. split; [done|].
  eapply Forall2_impl; [done|]. intros r v. apply cell_Ok.
Qed.

(** ** [stack_columns] *)

Lemma pair_df_wf (df : frame) (col1 col2 : string) :
  wf_frame df -> col1 ∈ columns df -> col2 ∈ columns df -> "value" ∈ columns df ->
  pair_df df col1 col2
  = Ok {| columns := ["src"; "targ"; "value"]; rows := triple col1 col2 <$> rows df |}.
Proof.
  intros Hwf H1 H2 Hv. unfold pair_df. rewrite !decide_True by done.
  rewrite (mapM_Ok_fmap _ (triple col1 col2)); [done|].
  apply Forall_forall. intros r Hr.
  destruct (wf_frame_cell df col1 r Hwf Hr H1) as [s Hs].
  destruct (wf_frame_cell df col2 r Hwf Hr H2) as [t Ht].
  destruct (wf_frame_cell df "value" r Hwf Hr Hv) as [v Hv'].
  unfold pair_row, triple, cell, cell_or_nan. rewrite Hs, Ht, Hv'. reflexivity.
Qed.

Lemma elem_of_zip_tail {A} (l : list A) (p : A * A) :
  p ∈ zip l (tail l) -> fst p ∈ l /\ snd p ∈ l.
Proof.
  destruct p as [a b]. intros H. split; simpl.
  - by apply elem_of_zip_l in H.
  - apply elem_of_zip_r in H. destruct l; [done|]. by right.
Qed.

Lemma lookup_zip_tail {A} (l : list A) (j : nat) (a b : A) :
  l !! j = Some a -> l !! S j = Some b -> zip l (tail l) !! j = Some (a, b).
Proof.
  intros Ha Hb. destruct l as [|x l]; [done|]. simpl tail. simpl in Hb.
  apply lookup_zip_with_Some. by exists a, b.
Qed.

Lemma length_zip_tail {A} (l : list A) :
  length (zip l (tail l)) = (length l - 1)%nat.
Proof. rewrite length_zip_with. destruct l; cbn [tail length]; lia. Qed.

(** Blocks of equal length laid end to end: entry [i] of block [j]. *)
Lemma lookup_concat_blocks {A} (blocks : list (list A)) (n j i : nat) (b : list A) :
  Forall (fun b => length b = n) blocks ->
  blocks !! j = Some b -> (i < n)%nat ->
  concat blocks !! (j * n + i)%nat = b !! i.
Proof.
  intros Hlen. revert j. induction Hlen as [|b0 blocks Hb0 _ IH]; intros j Hj Hi.
  - done.
  - destruct j as [|j]; simpl in *.
    + injection Hj as <-. apply lookup_app_l. lia.
    + rewrite lookup_app_r by lia.
      replace (n + j * n + i - length b0)%nat with (j * n + i)%nat by lia.
      by apply IH.
Qed.

Lemma length_concat_blocks {A} (blocks : list (list A)) (n : nat) :
  Forall (fun b => length b = n) blocks ->
  length (concat blocks) = (n * length blocks)%nat.
Proof.
  induction 1 as [|b blocks Hb _ IH]; simpl; [lia|].
  rewrite length_app, IH, Hb. lia.
Qed.

Lemma triple_cells (df : frame) (col1 col2 : string) (r : gmap string value) :
  wf_frame df -> r ∈ rows df ->
  col1 ∈ columns df -> col2 ∈ columns df -> "value" ∈ columns df ->
  exists s t v, r !! col1 = Some s /\ r !! col2 = Some t /\ r !! "value" = Some v
    /\ triple col1 col2 r = {[ "src" := s; "targ" := t; "value" := v ]}.
Proof.
  intros Hwf Hr H1 H2 Hv.
  destruct (wf_frame_cell df col1 r Hwf Hr H1) as [s Hs].
  destruct (wf_frame_cell df col2 r Hwf Hr H2) as [t Ht].
  destruct (wf_frame_cell df "value" r Hwf Hr Hv) as [v Hv'].
  exists s, t, v. unfold triple, cell_or_nan. by rewrite Hs, Ht, Hv'.
Qed.

Lemma stack_columns_wf (df : frame) (cols : list string) :
  wf_frame df -> (2 <= length cols)%nat ->
  (forall c, c ∈ cols -> c ∈ columns df) -> "value" ∈ columns df ->
  stack_columns df cols
  = Ok {| columns := ["src"; "targ"; "value"];
          rows := concat ((fun p => triple (fst p) (snd p) <$> rows df)
                          <$> zip cols (tail cols)) |}.
Proof.
  intros Hwf Hk Hcols Hv. unfold stack_columns.
  rewrite (mapM_Ok_fmap _ (fun p =>
    {| columns := ["src"; "targ"; "value"];
       rows := triple (fst p) (snd p) <$> rows df |})).
  - simpl. pose proof (length_zip_tail cols) as Hlen.
    destruct (zip cols (tail cols)) as [|p pairs] eqn:Hz; simpl in Hlen; [lia|].
    rewrite <- list_fmap_compose. reflexivity.
  - apply Forall_forall. intros p [H1 H2]%elem_of_zip_tail.
    apply pair_df_wf; auto.
Qed.

(** C5. For a frame of [n] rows that has a [value] column and a list of
    [k >= 2] of its columns, [stack_columns] returns [n * (k - 1)] rows: row
    [j * n + i] is the triple (source, target, value) of input row [i] for the
    [j]-th adjacent column pair, and every returned row is such a triple. *)
Theorem stack_columns_adjacent_triples (df : frame) (cols : list string) :
  wf_frame df -> (2 <= length cols)%nat ->
  (forall c, c ∈ cols -> c ∈ columns df) -> "value" ∈ columns df ->
  exists out,
    stack_columns df cols = Ok out
    /\ length (rows out) = (length (rows df) * (length cols - 1))%nat
    /\ (forall j i c1 c2 r,
          cols !! j = Some c1 -> cols !! S j = Some c2 -> rows df !! i = Some r ->
          exists s t v,
            r !! c1 = Some s /\ r !! c2 = Some t /\ r !! "value" = Some v
            /\ rows out !! (j * length (rows df) + i)%nat
               = Some {[ "src" := s; "targ" := t; "value" := v ]})
    /\ (forall row, row ∈ rows out ->
          exists j c1 c2 r s t v,
            cols !! j = Some c1 /\ cols !! S j = Some c2 /\ r ∈ rows df
            /\ r !! c1 = Some s /\ r !! c2 = Some t /\ r !! "value" = Some v
            /\ row = {[ "src" := s; "targ" := t; "value" := v ]}).
Proof.
  intros Hwf Hk Hcols Hv. eexists. split; [by apply stack_columns_wf|]. simpl.
  set (blocks := (fun p => triple (fst p) (snd p) <$> rows df) <$> zip cols (tail cols)).
  assert (Hblocks : Forall (fun b => length b = length (rows df)) blocks).
  { apply Forall_fmap, Forall_forall. intros p _. simpl. by rewrite length_fmap. }
  split; [|split].
  - rewrite (length_concat_blocks _ _ Hblocks). unfold blocks.
    by rewrite length_fmap, length_zip_tail.
  - intros j i c1 c2 r Hc1 Hc2 Hr.
    assert (Hc1' : c1 ∈ columns df) by (eapply Hcols, list_elem_of_lookup_2; eauto).
    assert (Hc2' : c2 ∈ columns df) by (eapply Hcols, list_elem_of_lookup_2; eauto).
    assert (Hr' : r ∈ rows df) by (eapply list_elem_of_lookup_2; eauto).
    destruct (triple_cells df c1 c2 r Hwf Hr' Hc1' Hc2' Hv)
      as (s & t & v & Hs & Ht & Hv' & Heq).
    exists s, t, v. repeat split; try done.
    rewrite (lookup_concat_blocks blocks _ j i (triple c1 c2 <$> rows df)); try done.
    + rewrite list_lookup_fmap, Hr. simpl. by rewrite Heq.
    + unfold blocks. rewrite list_lookup_fmap.
      by rewrite (lookup_zip_tail cols j c1 c2).
    + by eapply lookup_lt_Some.
  - intros row Hrow. apply list_elem_of_In, in_concat in Hrow as (b & Hb%list_elem_of_In & Hrow%list_elem_of_In).
    unfold blocks in Hb. apply list_elem_of_fmap in Hb as (p & -> & Hp).
    apply list_elem_of_fmap in Hrow as (r & -> & Hr).
    apply list_elem_of_lookup in Hp as [j Hj].
    destruct p as [c1 c2]. apply lookup_zip_with_Some in Hj
      as (c1' & c2' & [= <- <-] & Hc1 & Hc2).
    assert (Hc2s : cols !! S j = Some c2).
    { destruct cols; [done|]. exact Hc2. }
    assert (Hc1' : c1 ∈ columns df) by (eapply Hcols, list_elem_of_lookup_2; eauto).
    assert (Hc2' : c2 ∈ columns df) by (eapply Hcols, list_elem_of_lookup_2; eauto).
    destruct (triple_cells df c1 c2 r Hwf Hr Hc1' Hc2' Hv)
      as (s & t & v & Hs & Ht & Hv' & Heq).
    exists j, c1, c2, r, s, t, v. by repeat split.
Qed.

(** Well-formedness is a decidable check on the rows' domains. *)
Lemma wf_frame_dom (df : frame) :
  Forall (fun r : gmap string value => dom r = list_to_set (columns df)) (rows df) ->
  wf_frame df.
Proof.
  intros H r Hr c. rewrite Forall_forall in H. specialize (H r Hr).
  rewrite <- elem_of_dom, H. by rewrite elem_of_list_to_set.
Qed.

Lemma sample_flows_wf : wf_frame sample_flows.
Proof. apply wf_frame_dom. repeat constructor; by vm_compute. Qed.

Lemma stack_columns_adjacent_triples_witness :
  exists out,
    stack_columns sample_flows ["a"; "b"; "c"] = Ok out
    /\ length (rows out) = (length (rows sample_flows) * (3 - 1))%nat.
Proof.
  destruct (stack_columns_adjacent_triples sample_flows ["a"; "b"; "c"])
    as (out & Hout & Hlen & _).
  - exact sample_flows_wf.
  - simpl. lia.
  - intros c Hc. simpl.
    repeat (apply elem_of_cons in Hc as [->|Hc]; [set_solver|]).
    by apply elem_of_nil in Hc.
  - simpl. set_solver.
  - exists out. split; assumption.
Defined.

(** ** Dictionaries *)

Lemma dict_set_fresh (k v : value) (d : dict) :
  k ∉ d.*1 -> dict_set k v d = d ++ [(k, v)].
Proof.
  induction d as [|[k' v'] d IH]; simpl; intros Hk; [done|].
  apply not_elem_of_cons in Hk as [Hne Hk].
  rewrite decide_False by done. by rewrite IH.
Qed.

Lemma dict_of_zip_acc (ks vs : list value) (d : dict) :
  NoDup ks -> (forall k, k ∈ ks -> k ∉ d.*1) ->
  foldl (fun d kv => dict_set (fst kv) (snd kv) d) d (zip ks vs) = d ++ zip ks vs.
Proof.
  revert vs d. induction ks as [|k ks IH]; intros vs d Hnd Hfresh; simpl.
  { by rewrite app_nil_r. }
  destruct vs as [|v vs]; simpl; [by rewrite app_nil_r|].
  apply NoDup_cons in Hnd as [Hk Hnd].
  rewrite dict_set_fresh by (apply Hfresh; by left).
  rewrite IH; [by rewrite <- app_assoc | done |].
  intros k' Hk'. rewrite fmap_app. simpl. intros [Hin|Hin]%elem_of_app.
  - revert Hin. apply Hfresh. by right.
  - apply list_elem_of_singleton in Hin as ->. done.
Qed.

Lemma dict_of_zip_NoDup (ks vs : list value) :
  NoDup ks -> dict_of_zip ks vs = zip ks vs.
Proof.
  intros Hnd. unfold dict_of_zip. rewrite dict_of_zip_acc; [done..|].
  intros k _. simpl. apply not_elem_of_nil.
Qed.

Lemma index_of_lookup (x : value) (l : list value) :
  x ∈ l -> l !! index_of x l = Some x.
Proof.
  induction l as [|y l IH]; simpl; intros Hx; [by apply elem_of_nil in Hx|].
  destruct (decide (x = y)) as [->|Hne]; [done|].
  apply elem_of_cons in Hx as [?|Hx]; [done|]. by apply IH.
Qed.

Lemma index_of_lt (x : value) (l : list value) :
  x ∈ l -> (index_of x l < length l)%nat.
Proof. intros Hx. eapply lookup_lt_Some, index_of_lookup, Hx. Qed.

Lemma index_of_NoDup (l : list value) (i : nat) (x : value) :
  NoDup l -> l !! i = Some x -> index_of x l = i.
Proof.
  intros Hnd Hi. eapply NoDup_lookup; [done| |done].
  apply index_of_lookup. by eapply list_elem_of_lookup_2.
Qed.

Lemma dict_get_zip_seq (g : nat -> value) (labels : list value) (x : value) (k : nat) :
  x ∈ labels ->
  dict_get x (zip labels (g <$> seq k (length labels)))
  = Some (g (k + index_of x labels)%nat).
Proof.
  revert k. induction labels as [|y labels IH]; intros k Hx; simpl.
  { by apply elem_of_nil in Hx. }
  destruct (decide (x = y)) as [->|Hne].
  - by rewrite Nat.add_0_r.
  - apply elem_of_cons in Hx as [?|Hx]; [done|].
    rewrite IH by done. f_equal. f_equal. lia.
Qed.

(** ** Column assignment *)

Lemma zip_with_fmap_same {A B C} (h : A -> B -> C) (k : A -> B) (l : list A) :
  zip_with h l (k <$> l) = (fun x => h x (k x)) <$> l.
Proof. induction l; simpl; [done|]. by f_equal. Qed.

Lemma set_column_fmap (c : string) (k : gmap string value -> value) (df : frame) :
  c ∈ columns df ->
  set_column c (k <$> rows df) df
  = {| columns := columns df; rows := (fun r => <[c := k r]> r) <$> rows df |}.
Proof.
  intros Hc. unfold set_column. rewrite decide_True by done.
  by rewrite zip_with_fmap_same.
Qed.

Lemma wf_frame_insert (c : string) (k : gmap string value -> value) (df : frame) :
  wf_frame df -> c ∈ columns df ->
  wf_frame {| columns := columns df; rows := (fun r => <[c := k r]> r) <$> rows df |}.
Proof.
  intros Hwf Hc r' Hr' c'. simpl in *.
  apply list_elem_of_fmap in Hr' as (r & -> & Hr).
  rewrite (Hwf r Hr c'). destruct (decide (c = c')) as [<-|Hne].
  - rewrite lookup_insert_eq. split; [by eauto | intros _].
    by apply (Hwf r Hr c).
  - by rewrite lookup_insert_ne.
Qed.

(** ** [code_mapping] *)

Lemma code_mapping_wf (set_order : list value -> list value) (df : frame)
    (src targ : string) :
  set_iteration set_order -> wf_frame df ->
  src ∈ columns df -> targ ∈ columns df -> src <> targ ->
  let labels :=
    set_order ((cell_or_nan src <$> rows df) ++ (cell_or_nan targ <$> rows df)) in
  let code := fun l => Num (Int (Z.of_nat (index_of l labels))) in
  code_mapping set_order df src targ
  = Ok ({| columns := columns df;
           rows := (fun r => <[targ := code (cell_or_nan targ r)]>
                               (<[src := code (cell_or_nan src r)]> r))
                   <$> rows df |}, labels).
Proof.
  intros Hset Hwf Hsrc Htarg Hne labels code. unfold code_mapping.
  rewrite (get_column_wf df src), (get_column_wf df targ) by done. simpl.
  fold labels. destruct (Hset ((cell_or_nan src <$> rows df)
                               ++ (cell_or_nan targ <$> rows df))) as [Hnd Hin].
  fold labels in Hnd, Hin.
  rewrite dict_of_zip_NoDup by done.
  set (lc_map := zip labels _).
  assert (Hcode : forall l, l ∈ labels -> map_dict lc_map l = code l).
  { intros l Hl. unfold map_dict, lc_map.
    rewrite (dict_get_zip_seq (fun i => Num (Int (Z.of_nat i)))) by done. done. }
  rewrite <- list_fmap_compose.
  rewrite (set_column_fmap src (map_dict lc_map ∘ cell_or_nan src)) by done.
  rewrite get_column_wf; [|by apply wf_frame_insert|done]. simpl.
  rewrite <- !list_fmap_compose.
  unfold set_column. simpl. rewrite decide_True by done.
  do 3 f_equal.
  rewrite zip_with_fmap_l, zip_with_fmap_same.
  apply list_fmap_ext. intros i r Hr%list_elem_of_lookup_2. simpl.
  unfold cell_or_nan at 1. rewrite lookup_insert_ne by done.
  fold (cell_or_nan targ r).
  rewrite !Hcode; [done| |].
  - apply Hin, elem_of_app. left. by apply list_elem_of_fmap_2.
  - apply Hin, elem_of_app. right. by apply list_elem_of_fmap_2.
Qed.

(** C2. On a frame whose source and target columns hold categorical labels,
    [code_mapping] returns a list of the [N] distinct labels of the two
    columns, each once, and replaces every label [l] in both columns by one
    integer [code l]: the codes are exactly [0 .. N-1], distinct labels have
    distinct codes, and [labels[code l] = l].  The other columns are kept. *)
Theorem code_mapping_dense_codes (set_order : list value -> list value)
    (df : frame) (src targ : string) :
  set_iteration set_order -> wf_frame df ->
  src ∈ columns df -> targ ∈ columns df -> src <> targ ->
  (forall r v, r ∈ rows df -> r !! src = Some v \/ r !! targ = Some v ->
               categorical v) ->
  exists (df' : frame) (labels : list value) (code : value -> nat),
    code_mapping set_order df src targ = Ok (df', labels)
    /\ NoDup labels
    /\ (forall l, l ∈ labels <->
                  exists r, r ∈ rows df /\ (r !! src = Some l \/ r !! targ = Some l))
    /\ (forall l, l ∈ labels ->
                  (code l < length labels)%nat /\ labels !! code l = Some l)
    /\ (forall n, (n < length labels)%nat -> exists l, l ∈ labels /\ code l = n)
    /\ (forall l l', l ∈ labels -> l' ∈ labels -> code l = code l' -> l = l')
    /\ length (rows df') = length (rows df)
    /\ (forall i r, rows df !! i = Some r ->
          exists r' s t,
            rows df' !! i = Some r'
            /\ r !! src = Some s /\ r !! targ = Some t
            /\ r' !! src = Some (Num (Int (Z.of_nat (code s))))
            /\ r' !! targ = Some (Num (Int (Z.of_nat (code t))))
            /\ forall c, c <> src -> c <> targ -> r' !! c = r !! c).
Proof.
  intros Hset Hwf Hsrc Htarg Hne _.
  pose proof (code_mapping_wf set_order df src targ Hset Hwf Hsrc Htarg Hne) as Hcm.
  simpl in Hcm.
  set (labels := set_order ((cell_or_nan src <$> rows df)
                            ++ (cell_or_nan targ <$> rows df))) in *.
  destruct (Hset ((cell_or_nan src <$> rows df)
                  ++ (cell_or_nan targ <$> rows df))) as [Hnd Hin].
  fold labels in Hnd, Hin.
  eexists _, labels, (fun l => index_of l labels).
  split; [exact Hcm|]. split; [exact Hnd|]. simpl.
  split; [|split; [|split; [|split; [|split]]]].
  - intros l. rewrite Hin, elem_of_app, !list_elem_of_fmap. split.
    + intros [(r & -> & Hr)|(r & -> & Hr)]; exists r; (split; [done|]).
      * left. destruct (wf_frame_cell df src r Hwf Hr Hsrc) as [v Hv].
        unfold cell_or_nan. by rewrite Hv.
      * right. destruct (wf_frame_cell df targ r Hwf Hr Htarg) as [v Hv].
        unfold cell_or_nan. by rewrite Hv.
    + intros (r & Hr & [Hl|Hl]); [left|right]; exists r;
        unfold cell_or_nan; by rewrite Hl.
  - intros l Hl. split; [by apply index_of_lt | by apply index_of_lookup].
  - intros n Hn. destruct (lookup_lt_is_Some_2 labels n Hn) as [l Hl].
    exists l. split; [by eapply list_elem_of_lookup_2 | by apply index_of_NoDup].
  - intros l l' Hl Hl' Heq.
    apply index_of_lookup in Hl, Hl'. rewrite Heq in Hl. congruence.
  - by rewrite length_fmap.
  - intros i r Hr.
    assert (Hr' : r ∈ rows df) by (by eapply list_elem_of_lookup_2).
    destruct (wf_frame_cell df src r Hwf Hr' Hsrc) as [s Hs].
    destruct (wf_frame_cell df targ r Hwf Hr' Htarg) as [t Ht].
    eexists _, s, t. rewrite list_lookup_fmap, Hr. simpl.
    split; [done|]. split; [done|]. split; [done|].
    unfold cell_or_nan. rewrite Hs, Ht. simpl.
    split; [|split].
    + rewrite lookup_insert_ne by done. by rewrite lookup_insert_eq.
    + by rewrite lookup_insert_eq.
    + intros c Hc1 Hc2. by rewrite !lookup_insert_ne.
Qed.

(** Keeping the first occurrence of every element is one iteration order. *)
Lemma remove_dups_set_iteration : set_iteration remove_dups.
Proof.
  intros l. split; [apply NoDup_remove_dups | intros x; apply elem_of_remove_dups].
Qed.

Lemma sample_links_wf : wf_frame sample_links.
Proof. apply wf_frame_dom. repeat constructor; by vm_compute. Qed.

Lemma code_mapping_dense_codes_witness :
  exists (df' : frame) (labels : list value) (code : value -> nat),
    code_mapping remove_dups sample_links "src" "targ" = Ok (df', labels)
    /\ NoDup labels
    /\ (forall l, l ∈ labels ->
                  (code l < length labels)%nat /\ labels !! code l = Some l).
Proof.
  destruct (code_mapping_dense_codes remove_dups sample_links "src" "targ")
    as (df' & labels & code & Hcm & Hnd & _ & Hcode & _).
  - exact remove_dups_set_iteration.
  - exact sample_links_wf.
  - simpl. set_solver.
  - simpl. set_solver.
  - discriminate.
  - intros r v Hr Hv. simpl in Hr.
    repeat (apply elem_of_cons in Hr as [->|Hr];
            [destruct Hv as [Hv|Hv]; vm_compute in Hv; injection Hv as <-; exact I|]).
    by apply elem_of_nil in Hr.
  - exists df', labels, code. repeat split; try assumption; by apply Hcode.
Defined.

(** The labels X, Y, Z of the sample table get the codes 0, 1, 2. *)
Example code_mapping_sample :
  match code_mapping remove_dups sample_links "src" "targ" with
  | Ok (df', labels) =>
      Some (labels, (fun r => [cell_or_nan "src" r; cell_or_nan "targ" r]) <$> rows df')
  | Err _ => None
  end
  = Some ([Str "X"; Str "Y"; Str "Z"],
          [[Num (Int 0); Num (Int 1)]; [Num (Int 1); Num (Int 2)];
           [Num (Int 0); Num (Int 2)]]).
Proof. reflexivity. Qed.

(** ** [make_sankey] *)

Lemma link_thickness_wf (vals : option string) (df : frame) :
  wf_frame df -> vals_in_frame vals df ->
  link_thickness vals df = Ok (thickness_cell vals <$> rows df).
Proof.
  intros Hwf Hvals. unfold link_thickness, thickness_cell.
  assert (Hone : replicate (length (rows df)) (Num (Int 1))
                 = (fun _ : gmap string value => Num (Int 1)) <$> rows df).
  { induction (rows df); simpl; [done|]. by f_equal. }
  destruct vals as [c|]; [|by rewrite Hone].
  destruct (decide (c = "")); [by rewrite Hone|].
  apply get_column_wf; [done|]. by apply Hvals.
Qed.

(** The later steps of [make_sankey] work on an object of their own. *)
Lemma code_mapping_at_frame (set_order : list value -> list value)
    (l l' : nat) (src targ : string) (σ : list frame) (df : frame) :
  l <> l' -> σ !! l = Some df ->
  (code_mapping_at set_order l' src targ σ).1 !! l = Some df.
Proof.
  intros Hne Hl. unfold code_mapping_at, mbind, action_bind, deref, lift, assign.
  destruct (σ !! l') as [df'|]; simpl; [|done].
  destruct (code_mapping set_order df' src targ) as [[df'' labels]|e]; simpl; [|done].
  by rewrite list_lookup_insert_ne.
Qed.

Lemma make_sankey_store (set_order : list value -> list value) (σ : list frame)
    (df : nat) (caller_df : frame) (cols : list string) (vals : option string) :
  σ !! df = Some caller_df -> wf_frame caller_df ->
  (2 <= length cols)%nat -> vals_in_frame vals caller_df ->
  (make_sankey set_order df cols vals σ).1 !! df
  = Some (set_column "value" (thickness_cell vals <$> rows caller_df) caller_df).
Proof.
  intros Hdf Hwf Hk Hvals.
  set (written := set_column "value" (thickness_cell vals <$> rows caller_df) caller_df).
  assert (Hlt : (df < length σ)%nat) by (by eapply lookup_lt_Some).
  unfold make_sankey.
  unfold mbind at 1. unfold action_bind.
  rewrite bool_decide_true by done. simpl.
  unfold mbind at 1. unfold action_bind, deref at 1. rewrite Hdf.
  unfold mbind at 1. unfold action_bind, lift at 1.
  rewrite link_thickness_wf by done.
  unfold mbind at 1. unfold action_bind, assign at 1. fold written.
  assert (Hw : <[df := written]> σ !! df = Some written)
    by (by apply list_lookup_insert_eq).
  unfold mbind at 1. unfold action_bind, deref at 1. rewrite Hw.
  unfold mbind at 1. unfold action_bind, lift at 1.
  destruct (stack_columns written cols) as [stacked|e]; [|exact Hw].
  unfold mbind at 1. unfold action_bind, new_object at 1.
  set (σ1 := <[df := written]> σ ++ [stacked]).
  assert (Hw1 : σ1 !! df = Some written).
  { unfold σ1. rewrite lookup_app_l; [done|]. by rewrite length_insert. }
  assert (Hne : df <> length (<[df := written]> σ)) by (rewrite length_insert; lia).
  unfold mbind at 1. unfold action_bind.
  pose proof (code_mapping_at_frame set_order df _ "src" "targ" σ1 written Hne Hw1)
    as Hcm.
  destruct (code_mapping_at set_order (length (<[df := written]> σ)) "src" "targ" σ1)
    as [σ2 [labels|e]]; simpl in Hcm; [|exact Hcm].
  unfold mbind at 1. unfold action_bind, deref at 1.
  destruct (σ2 !! length (<[df := written]> σ)) as [coded|]; [|exact Hcm].
  unfold mbind, action_bind, lift, mret, action_ret.
  destruct (get_column "src" coded); [|exact Hcm].
  destruct (get_column "targ" coded); [|exact Hcm].
  destruct (get_column "value" coded); exact Hcm.
Qed.

(** A call that fails the column-count assertion leaves every object as it
    was. *)
Lemma make_sankey_assertion (set_order : list value -> list value) (σ : list frame)
    (df : nat) (cols : list string) (vals : option string) :
  (length cols < 2)%nat ->
  make_sankey set_order df cols vals σ = (σ, Err AssertionError).
Proof.
  intros Hk. unfold make_sankey, mbind, action_bind.
  rewrite bool_decide_false by lia. reflexivity.
Qed.

Lemma sample_categories_wf : wf_frame sample_categories.
Proof. apply wf_frame_dom. repeat constructor; by vm_compute. Qed.

(** C10, as stated, fails: a call with a single column raises
    [AssertionError] before the assignment, and the caller's frame has no
    [value] column afterwards. *)
Lemma make_sankey_rejected_call_writes_nothing :
  snd (make_sankey remove_dups 0 ["a"] None [sample_categories]) = Err AssertionError
  /\ fst (make_sankey remove_dups 0 ["a"] None [sample_categories]) !! 0%nat
     = Some sample_categories
  /\ "value" ∉ columns sample_categories.
Proof.
  rewrite make_sankey_assertion by (simpl; lia).
  split; [done|]. split; [done|]. simpl. not_in_list.
Qed.

(** C10, amended. A call of [make_sankey] with at least two columns whose
    [vals], when it is a non-empty name, names a column of the caller's frame
    leaves that frame with a [value] column, whether the later steps return or
    raise: every row keeps its other cells and gets as [value] its cell of
    column [vals], or the constant 1 when no [vals] is given; a frame that had
    no [value] column is changed. *)
Theorem make_sankey_writes_value (set_order : list value -> list value)
    (σ : list frame) (df : nat) (caller_df : frame) (cols : list string)
    (vals : option string) :
  σ !! df = Some caller_df -> wf_frame caller_df ->
  (2 <= length cols)%nat -> vals_in_frame vals caller_df ->
  exists written,
    fst (make_sankey set_order df cols vals σ) !! df = Some written
    /\ (forall c, c ∈ columns written <-> c ∈ columns caller_df \/ c = "value")
    /\ length (rows written) = length (rows caller_df)
    /\ (forall i r, rows caller_df !! i = Some r ->
          exists v,
            rows written !! i = Some (<["value" := v]> r)
            /\ match vals with
               | Some c => if decide (c = "") then v = Num (Int 1) else r !! c = Some v
               | None => v = Num (Int 1)
               end)
    /\ ("value" ∉ columns caller_df -> written <> caller_df).
Proof.
  intros Hdf Hwf Hk Hvals. eexists. split; [by apply make_sankey_store|].
  split; [|split; [|split]].
  - intros c. simpl. destruct (decide ("value" ∈ columns caller_df)) as [Hv|Hv].
    + split; [by left | intros [?| ->]; done].
    + rewrite elem_of_app, list_elem_of_singleton. done.
  - simpl. by rewrite zip_with_fmap_same, length_fmap.
  - intros i r Hr. simpl. rewrite zip_with_fmap_same, list_lookup_fmap, Hr. simpl.
    exists (thickness_cell vals r). split; [done|].
    unfold thickness_cell. destruct vals as [c|]; [|done].
    destruct (decide (c = "")) as [|Hc]; [done|].
    assert (Hr' : r ∈ rows caller_df) by (by eapply list_elem_of_lookup_2).
    destruct (wf_frame_cell caller_df c r Hwf Hr' (Hvals c eq_refl Hc)) as [v Hv].
    unfold cell_or_nan. by rewrite Hv.
  - intros Hv Heq. apply Hv. rewrite <- Heq. simpl.
    rewrite decide_False by done. apply elem_of_app. right. by left.
Qed.

Lemma make_sankey_writes_value_witness :
  exists written,
    fst (make_sankey remove_dups 0 ["a"; "b"] None [sample_categories]) !! 0%nat
    = Some written
    /\ written <> sample_categories.
Proof.
  destruct (make_sankey_writes_value remove_dups [sample_categories] 0
              sample_categories ["a"; "b"] None)
    as (written & Hw & _ & _ & _ & Hne).
  - reflexivity.
  - exact sample_categories_wf.
  - simpl. lia.
  - intros c Hc. discriminate.
  - exists written. split; [exact Hw|]. apply Hne. simpl. not_in_list.
Defined.

(** ** Loading ([read_data]) *)

Lemma mapM_is_Ok {A B} (f : A -> result B) (l : list A) :
  is_Ok (mapM f l) <-> Forall (fun x => is_Ok (f x)) l.
Proof.
  induction l as [|x l IH]; simpl.
  - split; [constructor | by exists []].
  - split.
    + intros [k Hk]. apply bind_Ok in Hk as (y & Hy & Hk).
      apply bind_Ok in Hk as (k' & Hk' & _).
      constructor; [by exists y | apply IH; by exists k'].
    + inversion 1 as [|? ? [y Hy] Hl]; subst. apply IH in Hl as [k Hk].
      exists (y :: k). by rewrite Hy, Hk.
Qed.

Lemma wf_frame_set_column (c : string) (vs : list value) (df : frame) :
  wf_frame df -> c ∈ columns df -> length vs = length (rows df) ->
  wf_frame (set_column c vs df).
Proof.
  intros Hwf Hc Hlen r' Hr' c'. unfold set_column in *. simpl in *.
  rewrite decide_True by done.
  apply list_elem_of_lookup in Hr' as [i Hi].
  apply lookup_zip_with_Some in Hi as (r & v & -> & Hr & Hv).
  apply list_elem_of_lookup_2 in Hr.
  rewrite (Hwf r Hr c'). destruct (decide (c = c')) as [<-|Hne].
  - rewrite lookup_insert_eq. split; [by eauto | intros _; by apply (Hwf r Hr c)].
  - by rewrite lookup_insert_ne.
Qed.

Lemma set_column_other (c c' : string) (vs : list value) (df : frame)
    (i : nat) (r' : gmap string value) :
  c <> c' -> rows (set_column c vs df) !! i = Some r' ->
  exists r, rows df !! i = Some r /\ r' !! c' = r !! c'.
Proof.
  intros Hne Hi. simpl in Hi.
  apply lookup_zip_with_Some in Hi as (r & v & -> & Hr & Hv).
  exists r. split; [done|]. by rewrite lookup_insert_ne.
Qed.

Lemma dict_set_keys (k v k' : value) (d : dict) :
  k' ∈ (dict_set k v d).*1 <-> k' = k \/ k' ∈ d.*1.
Proof.
  induction d as [|[k0 v0] d IH]; simpl.
  - rewrite list_elem_of_singleton. split; [by left | intros [?|H]; [done|]].
    by apply elem_of_nil in H.
  - destruct (decide (k = k0)) as [->|Hne]; simpl.
    + rewrite elem_of_cons. naive_solver.
    + rewrite !elem_of_cons, IH. naive_solver.
Qed.

Lemma dict_of_zip_keys (ks vs : list value) (k : value) :
  k ∈ (dict_of_zip ks vs).*1 -> k ∈ ks.
Proof.
  unfold dict_of_zip.
  assert (H : forall d, k ∈ (foldl (fun d kv => dict_set (fst kv) (snd kv) d) d
                               (zip ks vs)).*1 -> k ∈ d.*1 \/ k ∈ ks).
  { revert vs. induction ks as [|k0 ks IH]; intros vs d; simpl; [by left|].
    destruct vs as [|v vs]; simpl; [by left|].
    intros [Hk|Hk]%IH.
    - apply dict_set_keys in Hk as [->|Hk]; [right; by left | by left].
    - right. by right. }
  intros [Hk|Hk]%H; [by apply elem_of_nil in Hk | done].
Qed.

Lemma dict_get_key (k : value) (d : dict) :
  is_Some (dict_get k d) -> k ∈ d.*1.
Proof.
  induction d as [|[k0 v0] d IH]; simpl; [by intros [? ?]|].
  destruct (decide (k = k0)) as [->|Hne]; [by left|].
  intros H. right. by apply IH.
Qed.

Section LoadingProperties.

Variable parse_number : string -> option num.
Variable to_datetime : list string -> result (list Z).

Lemma to_numeric_is_Ok (v : value) :
  is_Ok (to_numeric parse_number v) <-> numeric_cell parse_number v.
Proof.
  destruct v as [n|s]; simpl.
  - split; [done | by exists n].
  - destruct (parse_number s) as [n|]; split.
    + by eauto.
    + by exists n.
    + by intros [? ?].
    + by intros [? ?].
Qed.

(** The steps of a successful load. *)
Lemma read_data_Ok (esg_csv : frame) (stocks_csv : wide_table) (a : api) :
  read_data parse_number to_datetime esg_csv stocks_csv = Ok a ->
  exists cells total symbols names ds dates,
    get_column "totalEsg" esg_csv = Ok cells
    /\ mapM (to_numeric parse_number) cells = Ok total
    /\ esg a = set_column "totalEsg" (Num <$> total) esg_csv
    /\ get_column "Symbol" (esg a) = Ok symbols
    /\ get_column "Full Name" (esg a) = Ok names
    /\ date_column stocks_csv = Some ds
    /\ to_datetime ds = Ok dates
    /\ ("Price" ∉ fst <$> ticker_columns stocks_csv)
    /\ stocks a
       = (fun r : melted_row =>
            {| Date := fst (fst r); Symbol := snd (fst r); Price := snd r;
               Full_Name := map_dict (dict_of_zip symbols names) (Str (snd (fst r))) |})
         <$> filter (fun r : melted_row =>
                       is_Some (dict_get (Str (snd (fst r))) (dict_of_zip symbols names)))
                    (melt_rows dates (ticker_columns stocks_csv)).
Proof.
  unfold read_data. intros H.
  apply bind_Ok in H as (cells & Hcells & H).
  apply bind_Ok in H as (total & Htotal & H).
  apply bind_Ok in H as (symbols & Hsymbols & H).
  apply bind_Ok in H as (names & Hnames & H).
  apply bind_Ok in H as (ds & Hds & H).
  apply bind_Ok in H as (dates & Hdates & H).
  apply bind_Ok in H as (adjusted & Hmelt & H).
  injection H as <-. simpl.
  destruct (date_column stocks_csv) as [ds'|]; [|discriminate].
  injection Hds as ->.
  unfold melt in Hmelt.
  destruct (decide ("Price" ∈ fst <$> ticker_columns stocks_csv)); [discriminate|].
  injection Hmelt as <-.
  by exists cells, total, symbols, names, ds, dates.
Qed.

Lemma read_data_is_Ok (esg_csv : frame) (stocks_csv : wide_table) :
  wf_frame esg_csv ->
  is_Ok (read_data parse_number to_datetime esg_csv stocks_csv)
  <-> load_checks parse_number to_datetime esg_csv stocks_csv.
Proof.
  intros Hwf. split.
  - intros [a Ha]. apply read_data_Ok in Ha
      as (cells & total & symbols & names & ds & dates
          & Hcells & Htotal & Hesg & Hsymbols & Hnames & Hds & Hdates & Hprice & _).
    apply get_column_Ok in Hcells as [Htot Hcells].
    apply get_column_Ok in Hsymbols as [Hsym _].
    apply get_column_Ok in Hnames as [Hname _].
    rewrite Hesg in Hsym, Hname. simpl in Hsym, Hname.
    rewrite decide_True in Hsym, Hname by done.
    split; [done|]. split; [|split; [done|split; [done|]]].
    + intros r v Hr Hv. apply to_numeric_is_Ok.
      assert (Hall : Forall (fun x => is_Ok (to_numeric parse_number x)) cells)
        by (apply mapM_is_Ok; by exists total).
      apply list_elem_of_lookup in Hr as [i Hi].
      destruct (Forall2_lookup_l _ _ _ _ _ Hcells Hi) as (v' & Hv' & Hrv).
      assert (v' = v) as -> by congruence.
      rewrite Forall_lookup in Hall. by apply (Hall i v).
    + split; [|done]. exists ds. split; [done|]. by exists dates.
  - intros (Htot & Hnum & Hsym & Hname & (ds & Hds & dates & Hd) & Hprice).
    unfold read_data. rewrite (get_column_wf esg_csv "totalEsg") by done. simpl.
    destruct (proj2 (mapM_is_Ok (to_numeric parse_number)
                       (cell_or_nan "totalEsg" <$> rows esg_csv))) as [total Htotal].
    { apply Forall_fmap, Forall_forall. intros r Hr. simpl.
      apply to_numeric_is_Ok.
      destruct (wf_frame_cell esg_csv "totalEsg" r Hwf Hr Htot) as [v Hv].
      unfold cell_or_nan. rewrite Hv. simpl. by eapply Hnum. }
    rewrite Htotal. simpl.
    assert (Hwf' : wf_frame (set_column "totalEsg" (Num <$> total) esg_csv)).
    { apply wf_frame_set_column; [done..|].
      rewrite length_fmap, (mapM_Ok_length _ _ _ Htotal). by rewrite length_fmap. }
    assert (Hcols : columns (set_column "totalEsg" (Num <$> total) esg_csv)
                    = columns esg_csv).
    { simpl. by rewrite decide_True. }
    rewrite (get_column_wf _ "Symbol") by (by rewrite ?Hcols). simpl.
    rewrite (get_column_wf _ "Full Name") by (by rewrite ?Hcols). simpl.
    rewrite Hds. simpl.
    rewrite Hd. simpl. unfold melt. rewrite decide_False by done. simpl.
    by eexists.
Qed.

End LoadingProperties.

(** ** Sorting *)

Section Sorting.

Context {A : Type} (le : A -> A -> bool).

Lemma insert_by_Permutation (x : A) (l : list A) : insert_by le x l ≡ₚ x :: l.
Proof.
  induction l as [|y l IH]; simpl; [done|].
  destruct (le x y); [done|]. rewrite IH. apply perm_swap.
Qed.

Lemma sort_by_Permutation (l : list A) : sort_by le l ≡ₚ l.
Proof.
  induction l as [|x l IH]; simpl; [done|].
  by rewrite insert_by_Permutation, IH.
Qed.

Lemma elem_of_sort_by (x : A) (l : list A) : x ∈ sort_by le l <-> x ∈ l.
Proof. by rewrite sort_by_Permutation. Qed.

Hypothesis le_total : forall a b, le a b = true \/ le b a = true.
Hypothesis le_trans : forall a b c, le a b = true -> le b c = true -> le a c = true.

Lemma insert_by_sorted (x : A) (l : list A) :
  StronglySorted (fun a b => le a b = true) l ->
  StronglySorted (fun a b => le a b = true) (insert_by le x l).
Proof.
  induction 1 as [|y l Hl IH Hy]; simpl.
  - repeat constructor.
  - destruct (le x y) eqn:Hxy.
    + constructor; [by constructor|]. constructor; [done|].
      eapply Forall_impl; [exact Hy|]. intros z Hz. by eapply le_trans.
    + constructor; [done|].
      rewrite insert_by_Permutation. constructor; [|done].
      destruct (le_total x y); congruence.
Qed.

Lemma sort_by_sorted (l : list A) :
  StronglySorted (fun a b => le a b = true) (sort_by le l).
Proof.
  induction l as [|x l IH]; simpl; [constructor|]. by apply insert_by_sorted.
Qed.

(** The sort is stable: among the elements that satisfy [P], on which the
    order [le] is the order [le'], it is the sort by [le']. *)
Lemma filter_insert_by_out (P : A -> Prop) `{!forall x, Decision (P x)}
    (x : A) (l : list A) :
  ~ P x -> filter P (insert_by le x l) = filter P l.
Proof.
  intros Hx. induction l as [|y l IH]; simpl.
  - by rewrite filter_cons_False.
  - destruct (le x y).
    + by rewrite (filter_cons_False _ x).
    + rewrite !(filter_cons _ y), IH. done.
Qed.

Lemma filter_insert_by_in (P : A -> Prop) `{!forall x, Decision (P x)}
    (le' : A -> A -> bool) (x : A) (l : list A) :
  (forall a b, P a -> P b -> le a b = le' a b) ->
  P x -> StronglySorted (fun a b => le a b = true) l ->
  filter P (insert_by le x l) = insert_by le' x (filter P l).
Proof.
  intros Hle Hx. induction 1 as [|y l Hl IH Hy]; simpl.
  - by rewrite filter_cons_True.
  - destruct (le x y) eqn:Hxy.
    + rewrite (filter_cons_True _ x) by done.
      destruct (decide (P y)) as [HPy|HPy].
      * rewrite (filter_cons_True _ y) by done. simpl.
        by rewrite <- Hle, Hxy.
      * rewrite (filter_cons_False _ y) by done.
        assert (Hall : Forall (fun z => le' x z = true) (filter P l)).
        { apply Forall_forall. intros z [HPz Hz]%list_elem_of_filter.
          rewrite <- Hle by done. eapply le_trans; [exact Hxy|].
          rewrite Forall_forall in Hy. by apply Hy. }
        destruct (filter P l) as [|z k]; simpl; [done|].
        apply Forall_cons in Hall as [-> _]. done.
    + destruct (decide (P y)) as [HPy|HPy].
      * rewrite !(filter_cons_True _ y) by done. simpl.
        rewrite <- Hle, Hxy by done. by rewrite IH.
      * rewrite !(filter_cons_False _ y) by done. by rewrite IH.
Qed.

Lemma filter_sort_by (P : A -> Prop) `{!forall x, Decision (P x)}
    (le' : A -> A -> bool) (l : list A) :
  (forall a b, P a -> P b -> le a b = le' a b) ->
  filter P (sort_by le l) = sort_by le' (filter P l).
Proof.
  intros Hle. induction l as [|x l IH]; simpl; [done|].
  destruct (decide (P x)) as [Hx|Hx].
  - rewrite (filter_cons_True _ x) by done. simpl.
    rewrite (filter_insert_by_in P le') by (auto using sort_by_sorted).
    by rewrite IH.
  - rewrite (filter_cons_False _ x) by done.
    by rewrite filter_insert_by_out.
Qed.

End Sorting.

(** ** The order on (name, date) *)

Lemma string_compare_refl (s : string) : String.compare s s = Eq.
Proof. by apply OrderedTypeEx.String_as_OT.cmp_eq. Qed.

Lemma string_compare_Lt_trans (a b c : string) :
  String.compare a b = Lt -> String.compare b c = Lt -> String.compare a c = Lt.
Proof.
  intros Hab Hbc. apply OrderedTypeEx.String_as_OT.cmp_lt.
  apply OrderedTypeEx.String_as_OT.cmp_lt in Hab, Hbc.
  by eapply OrderedTypeEx.String_as_OT.lt_trans.
Qed.

Lemma name_date_le_total (a b : trend_row) :
  name_date_le a b = true \/ name_date_le b a = true.
Proof.
  unfold name_date_le. rewrite (String.compare_antisym (trend_name b)).
  destruct (String.compare (trend_name a) (trend_name b)); simpl; auto.
  destruct (Z.leb_spec (trend_date a) (trend_date b)); [by left|].
  right. apply Z.leb_le. lia.
Qed.

Lemma name_date_le_trans (a b c : trend_row) :
  name_date_le a b = true -> name_date_le b c = true -> name_date_le a c = true.
Proof.
  unfold name_date_le.
  destruct (String.compare (trend_name a) (trend_name b)) eqn:Hab; [| |done].
  - apply String.compare_eq_iff in Hab. rewrite Hab.
    destruct (String.compare (trend_name b) (trend_name c)); [|done..].
    rewrite !Z.leb_le. lia.
  - intros _.
    destruct (String.compare (trend_name b) (trend_name c)) eqn:Hbc; [| |done].
    + apply String.compare_eq_iff in Hbc. rewrite <- Hbc, Hab. done.
    + by rewrite (string_compare_Lt_trans _ _ _ Hab Hbc).
Qed.

Lemma name_date_le_same_name (name : string) (a b : trend_row) :
  trend_name a = name -> trend_name b = name -> name_date_le a b = date_le a b.
Proof.
  intros Ha Hb. unfold name_date_le. by rewrite Ha, Hb, string_compare_refl.
Qed.

(** ** [extract_stock_price_trends] *)

Lemma date_filters_selected (l : list stock_row) (company_names : list string)
    (start_date end_date : option Z) :
  until_date end_date
    (from_date start_date (filter (fun r => isin company_names (Full_Name r) = true) l))
  = filter (selected company_names start_date end_date) l.
Proof.
  unfold until_date, from_date, selected, in_range.
  destruct start_date as [s|], end_date as [e|]; rewrite ?list_filter_filter;
    apply list_filter_iff; intros r; tauto.
Qed.

Lemma extract_stock_price_trends_sorted_selection (self : api)
    (company_names : list string) (start_date end_date : option Z) :
  extract_stock_price_trends self company_names start_date end_date
  = sort_by name_date_le
      (omap trend_columns
         (filter (selected company_names start_date end_date) (stocks self))).
Proof. unfold extract_stock_price_trends. by rewrite date_filters_selected. Qed.

Lemma StronglySorted_lookup {A} (R : A -> A -> Prop) (l : list A) (i j : nat) (a b : A) :
  StronglySorted R l -> (i < j)%nat -> l !! i = Some a -> l !! j = Some b -> R a b.
Proof.
  intros Hs. revert i j. induction Hs as [|x l Hl IH Hx]; intros i j Hij Hi Hj.
  - done.
  - destruct j as [|j]; [lia|]. simpl in Hj. destruct i as [|i]; simpl in Hi.
    + injection Hi as <-. rewrite Forall_forall in Hx.
      apply Hx. by eapply list_elem_of_lookup_2.
    + apply (IH i j); [lia|done..].
Qed.

(** C8. [extract_stock_price_trends] returns exactly the price rows (each as
    often as it occurs) whose company name is one of the given names and
    whose date lies in the inclusive range, a missing bound restricting
    nothing, as ([Date], [Full Name], [Price]) rows ordered by company name
    and, within a company, by date. *)
Theorem extract_stock_price_trends_selects_and_sorts (self : api)
    (company_names : list string) (start_date end_date : option Z) :
  extract_stock_price_trends self company_names start_date end_date
    ≡ₚ omap trend_columns
         (filter (selected company_names start_date end_date) (stocks self))
  /\ (forall t,
        t ∈ extract_stock_price_trends self company_names start_date end_date
        <-> exists r, r ∈ stocks self
                      /\ Full_Name r = Str (trend_name t)
                      /\ trend_name t ∈ company_names
                      /\ in_range start_date end_date (Date r)
                      /\ trend_date t = Date r /\ trend_price t = Price r)
  /\ (forall i j a b, (i < j)%nat ->
        extract_stock_price_trends self company_names start_date end_date !! i = Some a ->
        extract_stock_price_trends self company_names start_date end_date !! j = Some b ->
        String.compare (trend_name a) (trend_name b) = Lt
        \/ (trend_name a = trend_name b /\ trend_date a <= trend_date b)).
Proof.
  rewrite extract_stock_price_trends_sorted_selection.
  split; [apply sort_by_Permutation|]. split.
  - intros t. rewrite elem_of_sort_by, list_elem_of_omap. split.
    + intros (r & [[Hin Hrange] Hr]%list_elem_of_filter & Ht). exists r.
      unfold trend_columns in Ht. unfold isin in Hin.
      destruct (Full_Name r) as [n|s] eqn:Hname; [discriminate|].
      injection Ht as <-. simpl. apply bool_decide_eq_true in Hin. done.
    + intros (r & Hr & Hname & Hin & Hrange & Hd & Hp). exists r. split.
      * apply list_elem_of_filter. split; [|done]. split; [|done].
        rewrite Hname. simpl. by apply bool_decide_eq_true.
      * unfold trend_columns. rewrite Hname. f_equal.
        destruct t. simpl in *. by subst.
  - intros i j a b Hij Ha Hb.
    pose proof (StronglySorted_lookup _ _ i j a b
                  (sort_by_sorted name_date_le name_date_le_total name_date_le_trans _)
                  Hij Ha Hb) as Hle.
    simpl in Hle. unfold name_date_le in Hle.
    destruct (String.compare (trend_name a) (trend_name b)) eqn:Hc; [|by left|done].
    right. apply String.compare_eq_iff in Hc. split; [done|]. by apply Z.leb_le.
Qed.

(** ** What a successful load guarantees *)

Section LoadingClaims.

Variable parse_number : string -> option num.
Variable to_datetime : list string -> result (list Z).

Lemma read_data_symbol_rows (esg_csv : frame) (stocks_csv : wide_table) (a : api)
    (r : stock_row) :
  read_data parse_number to_datetime esg_csv stocks_csv = Ok a -> r ∈ stocks a ->
  exists i e e0,
    rows (esg a) !! i = Some e /\ rows esg_csv !! i = Some e0
    /\ e !! "Symbol" = Some (Str (Symbol r))
    /\ e0 !! "Symbol" = Some (Str (Symbol r)).
Proof.
  intros Ha Hr. apply read_data_Ok in Ha
    as (cells & total & symbols & names & ds & dates
        & _ & _ & Hesg & Hsymbols & _ & _ & _ & _ & Hstocks).
  rewrite Hstocks in Hr. apply list_elem_of_fmap in Hr as (m & -> & Hm).
  apply list_elem_of_filter in Hm as [Hkey _]. simpl.
  apply dict_get_key, dict_of_zip_keys in Hkey.
  apply get_column_Ok in Hsymbols as [_ Hsymbols].
  apply list_elem_of_lookup in Hkey as [i Hi].
  destruct (Forall2_lookup_r _ _ _ _ _ Hsymbols Hi) as (e & He & Hsym).
  pose proof He as He'. rewrite Hesg in He'.
  apply (set_column_other "totalEsg" "Symbol") in He' as (e0 & He0 & Heq); [|done].
  exists i, e, e0. rewrite <- Heq. done.
Qed.

(** C6. After a successful [read_data], every symbol in the long-format stock
    table is a symbol of the ESG table, the loaded one and the file's; a
    symbol of the price file that the ESG file does not have is in no row of
    the stock table; and every row a price-trend view returns is the
    projection of such a stock row. *)
Theorem read_data_symbols_in_esg (esg_csv : frame) (stocks_csv : wide_table)
    (a : api) :
  read_data parse_number to_datetime esg_csv stocks_csv = Ok a ->
  (forall r, r ∈ stocks a ->
     (exists e, e ∈ rows (esg a) /\ e !! "Symbol" = Some (Str (Symbol r)))
     /\ (exists e, e ∈ rows esg_csv /\ e !! "Symbol" = Some (Str (Symbol r))))
  /\ (forall sym,
        (forall e, e ∈ rows esg_csv -> e !! "Symbol" <> Some (Str sym)) ->
        forall r, r ∈ stocks a -> Symbol r <> sym)
  /\ (forall company_names start_date end_date t,
        t ∈ extract_stock_price_trends a company_names start_date end_date ->
        exists r e,
          r ∈ stocks a /\ trend_columns r = Some t
          /\ e ∈ rows (esg a) /\ e !! "Symbol" = Some (Str (Symbol r))).
Proof.
  intros Ha. split; [|split].
  - intros r Hr.
    destruct (read_data_symbol_rows _ _ _ r Ha Hr) as (i & e & e0 & He & He0 & Hs & Hs0).
    split; [exists e | exists e0]; (split; [by eapply list_elem_of_lookup_2 | done]).
  - intros sym Hno r Hr <-.
    destruct (read_data_symbol_rows _ _ _ r Ha Hr) as (i & e & e0 & He & He0 & Hs & Hs0).
    apply (Hno e0); [by eapply list_elem_of_lookup_2 | done].
  - intros company_names start_date end_date t Ht.
    rewrite extract_stock_price_trends_sorted_selection in Ht.
    apply elem_of_sort_by, list_elem_of_omap in Ht as (r & Hr & Ht).
    apply list_elem_of_filter in Hr as [_ Hr].
    destruct (read_data_symbol_rows _ _ _ r Ha Hr) as (i & e & e0 & He & He0 & Hs & Hs0).
    exists r, e. repeat split; try done. by eapply list_elem_of_lookup_2.
Qed.

(** C9, amended. On a parsed ESG table and a price table whose [Date] cells
    all hold a text, [read_data] raises exactly when the ESG table lacks the
    column [totalEsg], [Symbol] or [Full Name], a [totalEsg] cell is a text
    that is no number, the price table lacks the column [Date], the
    conversion of the [Date] column as a whole raises, or the price table has
    a column named [Price], which the reshaping refuses; no other column is
    examined at load time. *)
Theorem read_data_fails_exactly (esg_csv : frame) (stocks_csv : wide_table) :
  wf_frame esg_csv ->
  (is_Ok (read_data parse_number to_datetime esg_csv stocks_csv)
   <-> load_checks parse_number to_datetime esg_csv stocks_csv)
  /\ ((exists e, read_data parse_number to_datetime esg_csv stocks_csv = Err e)
      <-> ~ load_checks parse_number to_datetime esg_csv stocks_csv).
Proof.
  intros Hwf. pose proof (read_data_is_Ok parse_number to_datetime esg_csv stocks_csv Hwf)
    as Hok.
  split; [done|]. split.
  - intros [e He] Hchecks. apply Hok in Hchecks as [a Ha]. congruence.
  - intros Hno. destruct (read_data parse_number to_datetime esg_csv stocks_csv)
      as [a|e] eqn:Hr; [|by exists e].
    exfalso. apply Hno, Hok. by exists a.
Qed.

End LoadingClaims.

(** ** The loaded sample *)

Lemma sample_esg_wf : wf_frame sample_esg.
Proof. apply wf_frame_dom. repeat constructor; by vm_compute. Qed.

Lemma sample_api_loaded :
  read_data sample_parse_number sample_to_datetime sample_esg sample_prices
  = Ok sample_api.
Proof. by vm_compute. Qed.

Lemma read_data_symbols_in_esg_witness :
  read_data sample_parse_number sample_to_datetime sample_esg sample_prices
  = Ok sample_api
  /\ forall r, r ∈ stocks sample_api ->
       (exists e, e ∈ rows (esg sample_api) /\ e !! "Symbol" = Some (Str (Symbol r)))
       /\ (exists e, e ∈ rows sample_esg /\ e !! "Symbol" = Some (Str (Symbol r))).
Proof.
  split; [exact sample_api_loaded|].
  exact (proj1 (read_data_symbols_in_esg sample_parse_number sample_to_datetime
                  sample_esg sample_prices sample_api sample_api_loaded)).
Defined.

(** The ticker C of the price file is in no row of the loaded stock table. *)
Example sample_api_symbols :
  Symbol <$> stocks sample_api = ["A"; "A"; "A"; "B"; "B"; "B"].
Proof. reflexivity. Qed.

(** C9, as stated, fails: the ESG file without its [overallRisk] column is
    loaded without an error, and the error is raised later, by the return
    analysis. *)
Lemma read_data_accepts_missing_risk_column :
  ("overallRisk" ∉ columns sample_esg_without_risk)
  /\ (match read_data sample_parse_number sample_to_datetime
              sample_esg_without_risk sample_prices with
      | Ok a =>
          analyze_esg_vs_stock_returns a ["Alpha"] None None []
          = Err (KeyError "overallRisk")
      | Err _ => False
      end).
Proof. split; [simpl; not_in_list | by vm_compute]. Qed.

Lemma read_data_fails_exactly_witness :
  (is_Ok (read_data sample_parse_number sample_to_datetime sample_esg sample_prices)
   <-> load_checks sample_parse_number sample_to_datetime sample_esg sample_prices)
  /\ ((exists e, read_data sample_parse_number sample_to_datetime
                   sample_esg sample_prices = Err e)
      <-> ~ load_checks sample_parse_number sample_to_datetime sample_esg sample_prices).
Proof.
  exact (read_data_fails_exactly sample_parse_number sample_to_datetime
           sample_esg sample_prices sample_esg_wf).
Defined.

(** ** Row selection and column assignment on well-formed frames *)

Lemma zip_fmap_filter {A B} (g : A -> B) (p : A -> bool) (l : list A) :
  fst <$> filter (fun rm : B * bool => snd rm = true) (zip (g <$> l) (p <$> l))
  = g <$> filter (fun x => p x = true) l.
Proof.
  induction l as [|x l IH]; [done|].
  rewrite !fmap_cons. cbn [zip_with].
  rewrite (filter_cons _ (g x, p x)), (filter_cons _ x). simpl.
  destruct (p x); simpl; [f_equal|]; exact IH.
Qed.

Lemma boolean_index_rows (p : gmap string value -> bool) (df : frame) :
  boolean_index (p <$> rows df) df
  = {| columns := columns df; rows := filter (fun r => p r = true) (rows df) |}.
Proof.
  unfold boolean_index. f_equal.
  rewrite <- (list_fmap_id (rows df)) at 1.
  by rewrite zip_fmap_filter, list_fmap_id.
Qed.

Lemma wf_frame_filter (P : gmap string value -> Prop) `{!forall r, Decision (P r)}
    (df : frame) :
  wf_frame df -> wf_frame {| columns := columns df; rows := filter P (rows df) |}.
Proof.
  intros Hwf r Hr c. simpl in *. apply list_elem_of_filter in Hr as [_ Hr].
  by apply Hwf.
Qed.

Lemma wf_frame_new_column (c : string) (k : gmap string value -> value) (df : frame) :
  wf_frame df ->
  wf_frame (set_column c (k <$> rows df) df)
  /\ rows (set_column c (k <$> rows df) df) = (fun r => <[c := k r]> r) <$> rows df
  /\ forall c', c' ∈ columns (set_column c (k <$> rows df) df)
                <-> c' ∈ columns df \/ c' = c.
Proof.
  intros Hwf.
  assert (Hcols : forall c', c' ∈ columns (set_column c (k <$> rows df) df)
                             <-> c' ∈ columns df \/ c' = c).
  { intros c'. simpl. destruct (decide (c ∈ columns df)) as [Hc|Hc].
    - split; [by left | intros [?| ->]; done].
    - by rewrite elem_of_app, list_elem_of_singleton. }
  assert (Hrows : rows (set_column c (k <$> rows df) df)
                  = (fun r => <[c := k r]> r) <$> rows df).
  { simpl. by rewrite zip_with_fmap_same. }
  split; [|done].
  intros r' Hr' c'. rewrite Hrows in Hr'. rewrite Hcols.
  apply list_elem_of_fmap in Hr' as (r & -> & Hr).
  rewrite (Hwf r Hr c'). destruct (decide (c = c')) as [<-|Hne].
  - rewrite lookup_insert_eq. split; [by eauto | by right].
  - rewrite lookup_insert_ne by done. split; [intros [?| ->]; done | by left].
Qed.

(** ** [analyze_esg_vs_stock_returns] *)

Lemma mapM_Ok_fmap_compose {A B C} (f : B -> result C) (g : A -> B) (h : A -> C)
    (l : list A) :
  Forall (fun x => f (g x) = Ok (h x)) l -> mapM f (g <$> l) = Ok (h <$> l).
Proof.
  induction l as [|x l IH]; intros H; [done|].
  apply Forall_cons in H as [Hx H].
  rewrite !fmap_cons.
  change (mapM f (g x :: (g <$> l)))
    with (f (g x) ≫= fun y => mapM f (g <$> l) ≫= fun k => mret (y :: k)).
  rewrite Hx. simpl. by rewrite (IH H).
Qed.

Lemma analyze_merge (self : api) (company_names : list string)
    (start_date end_date : option Z) (biz_risks : list string) :
  analysable self company_names ->
  analyze_esg_vs_stock_returns self company_names start_date end_date biz_risks
  = merge_and_select (kept_frame self company_names biz_risks)
      (group_returns
         (extract_stock_price_trends self
            (omap as_string
               (name_cell <$> filter (kept company_names biz_risks) (rows (esg self))))
            start_date end_date)).
Proof.
  intros (Hwf & Hname & Hrisk & Htot & Hret & Hnum).
  unfold analyze_esg_vs_stock_returns.
  rewrite (get_column_wf _ "Full Name") by done. simpl.
  rewrite <- list_fmap_compose.
  rewrite (boolean_index_rows (isin company_names ∘ cell_or_nan "Full Name")).
  set (selected_rows := filter _ (rows (esg self))).
  set (fltr1 := {| columns := columns (esg self); rows := selected_rows |}).
  assert (Hwf1 : wf_frame fltr1) by (by apply wf_frame_filter).
  rewrite (get_column_wf fltr1 "overallRisk") by done. simpl.
  rewrite (mapM_Ok_fmap_compose _ _ level_cell).
  2:{ apply Forall_forall. intros e [Hsel He]%list_elem_of_filter.
      destruct (Hnum e He Hsel) as [n Hn].
      unfold level_cell, cell_or_nan. by rewrite Hn. }
  simpl.
  destruct (wf_frame_new_column "Business Risk Level" level_cell fltr1 Hwf1)
    as (Hwf2 & Hrows2 & Hcols2).
  set (fltr2 := set_column "Business Risk Level" (level_cell <$> rows fltr1) fltr1) in *.
  change (set_column "Business Risk Level" (level_cell <$> selected_rows) fltr1)
    with fltr2.
  assert (Hfltr3 : filter_levels biz_risks (level_cell <$> selected_rows) fltr2
                   = kept_frame self company_names biz_risks).
  { unfold kept_frame, filter_levels, kept. destruct biz_risks as [|b bs].
    - destruct fltr2 as [cols2 rows2] eqn:Hf2. simpl in Hrows2.
      unfold fltr2, set_column in Hf2. injection Hf2 as <- <-.
      f_equal. simpl. rewrite zip_with_fmap_same. f_equal.
      unfold selected_rows. apply list_filter_iff. intros e. simpl. tauto.
    - unfold boolean_index. rewrite Hrows2. simpl.
      rewrite <- list_fmap_compose, zip_fmap_filter. f_equal. f_equal.
      unfold selected_rows. rewrite list_filter_filter.
      apply list_filter_iff. intros e. simpl. tauto. }
  rewrite Hfltr3.
  assert (Hwf3 : wf_frame (kept_frame self company_names biz_risks)).
  { intros r' Hr' c'. unfold kept_frame in *. simpl in *.
    apply list_elem_of_fmap in Hr' as (e & -> & [_ He]%list_elem_of_filter).
    unfold with_level. destruct (decide ("Business Risk Level" = c')) as [<-|Hne].
    - rewrite lookup_insert_eq. split; [by eauto | intros _].
      destruct (decide (_ ∈ columns (esg self))); [done|].
      apply elem_of_app. right. by left.
    - rewrite lookup_insert_ne by done. rewrite <- (Hwf e He c').
      destruct (decide (_ ∈ columns (esg self))); [done|].
      rewrite elem_of_app, list_elem_of_singleton. naive_solver. }
  assert (Hname3 : "Full Name" ∈ columns (kept_frame self company_names biz_risks)).
  { simpl. destruct (decide (_ ∈ columns (esg self))); [done|].
    apply elem_of_app. by left. }
  rewrite (get_column_wf _ "Full Name") by done. simpl.
  do 4 f_equal. rewrite <- list_fmap_compose. apply list_fmap_ext.
  intros i e _. simpl. unfold name_cell, cell_or_nan, with_level.
  by rewrite lookup_insert_ne.
Qed.

Lemma company_series_nil (self : api) (name : string)
    (start_date end_date : option Z) :
  company_series self name start_date end_date = []
  <-> price_rows self name start_date end_date = [].
Proof.
  unfold company_series. split.
  - intros Hnil.
    destruct (price_rows self name start_date end_date) as [|r l] eqn:Hrows; [done|].
    assert (Hr : r ∈ price_rows self name start_date end_date)
      by (rewrite Hrows; by left).
    apply list_elem_of_filter in Hr as [[Hname _] _].
    assert (Hin : {| trend_date := Date r; trend_name := name; trend_price := Price r |}
                  ∈ sort_by date_le (omap trend_columns (r :: l))).
    { apply elem_of_sort_by, list_elem_of_omap. exists r. split; [by left|].
      unfold trend_columns. by rewrite Hname. }
    rewrite Hnil in Hin. by apply elem_of_nil in Hin.
  - by intros ->.
Qed.

Lemma filter_name_trend_columns (name : string) (l : list stock_row) :
  filter (fun t => trend_name t = name) (omap trend_columns l)
  = omap trend_columns (filter (fun r => Full_Name r = Str name) l).
Proof.
  induction l as [|r l IH]; [done|].
  rewrite (filter_cons _ r). cbn [omap list_omap]. unfold trend_columns at 1 3.
  destruct (Full_Name r) as [n|s] eqn:Hname.
  - rewrite decide_False by done. exact IH.
  - rewrite (filter_cons _ {| trend_name := s |}). simpl.
    destruct (decide (s = name)) as [->|Hne].
    + rewrite decide_True by done. cbn [omap list_omap].
      unfold trend_columns at 2. rewrite Hname. by rewrite <- IH.
    + rewrite decide_False by congruence. exact IH.
Qed.

Lemma extract_stock_price_trends_company (self : api) (company_names : list string)
    (start_date end_date : option Z) (name : string) :
  name ∈ company_names ->
  filter (fun t => trend_name t = name)
         (extract_stock_price_trends self company_names start_date end_date)
  = company_series self name start_date end_date.
Proof.
  intros Hin. rewrite extract_stock_price_trends_sorted_selection.
  rewrite (filter_sort_by name_date_le name_date_le_total name_date_le_trans
             (fun t => trend_name t = name) date_le).
  2:{ intros a b Ha Hb. by apply (name_date_le_same_name name). }
  unfold company_series, price_rows. f_equal.
  rewrite filter_name_trend_columns. f_equal.
  rewrite list_filter_filter. apply list_filter_iff. intros r.
  unfold selected. split.
  - intros [Hn [_ Hr]]. done.
  - intros [Hn Hr]. split; [done|]. split; [|done].
    rewrite Hn. simpl. by apply bool_decide_eq_true.
Qed.

Lemma filter_eq_NoDup {A} `{EqDecision A} (x : A) (l : list A) :
  NoDup l -> filter (fun y => y = x) l = if decide (x ∈ l) then [x] else [].
Proof.
  induction 1 as [|y l Hy Hl IH]; [done|].
  rewrite (filter_cons _ y), IH. destruct (decide (y = x)) as [->|Hne].
  - rewrite decide_False by done. rewrite decide_True by (by left). done.
  - destruct (decide (x ∈ l)) as [Hin|Hin].
    + rewrite decide_True by (by right). done.
    + rewrite decide_False; [done|]. intros [?|?]%elem_of_cons; congruence.
Qed.

Lemma filter_fmap_list {A B} (f : A -> B) (P : B -> Prop) `{!forall y, Decision (P y)}
    (l : list A) :
  filter P (f <$> l) = f <$> filter (fun x => P (f x)) l.
Proof.
  induction l as [|x l IH]; [done|].
  rewrite fmap_cons, (filter_cons _ (f x)), (filter_cons _ x), IH.
  by destruct (decide (P (f x))).
Qed.

Lemma group_returns_company (df : list trend_row) (name : string) :
  filter (fun s => Str (returns_name s) = Str name) (group_returns df)
  = if decide (name ∈ trend_name <$> df)
    then [ {| returns_name := name;
              start_price := first_valid (prices_of name df);
              end_price := last_valid (prices_of name df);
              returns_pct := stock_return (first_valid (prices_of name df))
                                          (last_valid (prices_of name df)) |} ]
    else [].
Proof.
  unfold group_returns. rewrite filter_fmap_list.
  rewrite (list_filter_iff _ (fun y => y = name)).
  2:{ intros y. simpl. split; congruence. }
  rewrite filter_eq_NoDup.
  2:{ rewrite sort_by_Permutation. apply NoDup_remove_dups. }
  destruct (decide (name ∈ trend_name <$> df)) as [Hin|Hin].
  - rewrite decide_True; [done|]. by rewrite elem_of_sort_by, elem_of_remove_dups.
  - rewrite decide_False; [done|]. by rewrite elem_of_sort_by, elem_of_remove_dups.
Qed.

Lemma filter_nil_not_elem_of {A B} `{EqDecision B} (f : A -> B) (y : B) (l : list A) :
  filter (fun x => f x = y) l = [] <-> y ∉ f <$> l.
Proof.
  induction l as [|x l IH]; [split; [intros _; apply not_elem_of_nil | done]|].
  rewrite (filter_cons _ x), fmap_cons, not_elem_of_cons.
  destruct (decide (f x = y)) as [Heq|Hne].
  - split; [done | intros [Hne _]; congruence].
  - rewrite IH. split; [intros ?; split; [congruence|done] | by intros [_ ?]].
Qed.

Lemma analyze_output (self : api) (company_names : list string)
    (start_date end_date : option Z) (biz_risks : list string) :
  analysable self company_names ->
  analyze_esg_vs_stock_returns self company_names start_date end_date biz_risks
  = Ok (concat (analysis_rows_of self start_date end_date
                <$> filter (kept company_names biz_risks) (rows (esg self)))).
Proof.
  intros Han. rewrite analyze_merge by done.
  destruct Han as (Hwf & Hname & Hrisk & Htot & Hret & Hnum).
  set (K := filter (kept company_names biz_risks) (rows (esg self))).
  set (knames := omap as_string (name_cell <$> K)).
  set (df := extract_stock_price_trends self knames start_date end_date).
  unfold merge_and_select.
  assert (Hcols : forall c, c ∈ columns (kept_frame self company_names biz_risks)
                            <-> c ∈ columns (esg self) \/ c = "Business Risk Level").
  { intros c. simpl. destruct (decide (_ ∈ columns (esg self))) as [Hb|Hb].
    - split; [by left | intros [?| ->]; done].
    - by rewrite elem_of_app, list_elem_of_singleton. }
  rewrite decide_True by (apply Hcols; by left).
  rewrite decide_True by (apply Hcols; by left).
  rewrite decide_False by (intros [?|?]%Hcols; [done | discriminate]).
  cbn [rows kept_frame]. fold K.
  rewrite (mapM_Ok_fmap_compose _ _ (analysis_rows_of self start_date end_date));
    [done|].
  apply Forall_forall. intros e He.
  pose proof He as [[Hsel _] HeE]%list_elem_of_filter.
  destruct (wf_frame_cell _ "Full Name" e Hwf HeE Hname) as [nv Hnv].
  destruct (wf_frame_cell _ "totalEsg" e Hwf HeE Htot) as [tv Htv].
  unfold merge_row, cell, with_level.
  rewrite (lookup_insert_ne _ "Business Risk Level" "Full Name") by done.
  rewrite Hnv. simpl.
  rewrite (lookup_insert_ne _ "Business Risk Level" "totalEsg") by done.
  rewrite Htv. simpl. rewrite lookup_insert_eq. simpl.
  unfold analysis_rows_of, name_cell, cell_or_nan. rewrite Hnv, Htv. simpl.
  unfold name_cell, cell_or_nan in Hsel. rewrite Hnv in Hsel. simpl in Hsel.
  destruct nv as [n|name]; [discriminate|].
  assert (Hk : name ∈ knames).
  { unfold knames. apply list_elem_of_omap. exists (Str name). split; [|done].
    apply list_elem_of_fmap. exists e. split; [|done].
    unfold name_cell, cell_or_nan. by rewrite Hnv. }
  rewrite group_returns_company.
  pose proof (extract_stock_price_trends_company self knames start_date end_date
                name Hk) as Hseries.
  fold df in Hseries.
  assert (Hprices : prices_of name df = series_prices self name start_date end_date).
  { unfold prices_of, series_prices. by rewrite Hseries. }
  destruct (decide (company_series self name start_date end_date = [])) as [Hnil|Hnil].
  - rewrite decide_False; [done|].
    rewrite <- Hseries in Hnil. by apply filter_nil_not_elem_of in Hnil.
  - rewrite decide_True.
    + simpl. unfold reported_return. by rewrite Hprices.
    + destruct (decide (name ∈ trend_name <$> df)) as [|Hno]; [done|].
      apply filter_nil_not_elem_of in Hno. rewrite Hseries in Hno. done.
Qed.

Lemma valid_prices_no_nan (prices : list float) :
  Forall (fun p => is_nan p = false) prices -> valid_prices prices = prices.
Proof.
  unfold valid_prices. induction 1 as [|p l Hp _ IH]; [done|].
  rewrite filter_cons_True by done. by rewrite IH.
Qed.

(** A row of the result comes from a kept ESG row of that name whose series is
    not empty, and carries the return of the series. *)
Lemma elem_of_analysis_rows (self : api) (start_date end_date : option Z)
    (l : list (gmap string value)) (row : analysis_row) :
  row ∈ concat (analysis_rows_of self start_date end_date <$> l) ->
  exists e name,
    e ∈ l /\ name_cell e = Str name
    /\ company_series self name start_date end_date <> []
    /\ row = {| analysis_name := Str name;
                analysis_totalEsg := cell_or_nan "totalEsg" e;
                Stock_Return := reported_return self name start_date end_date;
                Business_Risk_Level := level_cell e |}.
Proof.
  intros Hrow. apply list_elem_of_In, in_concat in Hrow as (rows & Hrows & Hrow).
  apply list_elem_of_In, list_elem_of_fmap in Hrows as (e & -> & He).
  unfold analysis_rows_of in Hrow. destruct (name_cell e) as [n|name] eqn:Hname;
    [by destruct Hrow|].
  destruct (decide (company_series self name start_date end_date = []));
    [by destruct Hrow|].
  destruct Hrow as [<-|[]]. by exists e, name.
Qed.

(** C1, as stated, fails: the second company of the sample has no price on
    the first day of the range, so the first row of its series holds NaN and
    the formula on the first and last row gives NaN, while the reported return
    is 10 percent, from the first price there is. *)
Lemma stock_return_skips_missing_first_price :
  price_rows sample_api "Beta" None None <> []
  /\ analyze_esg_vs_stock_returns sample_api ["Beta"] None None []
     = Ok [ {| analysis_name := Str "Beta"; analysis_totalEsg := Num (Float 31);
               Stock_Return := 10; Business_Risk_Level := Str "High Business Risk" |} ]
  /\ first_to_last_return (series_prices sample_api "Beta" None None) = nan
  /\ (10 <> first_to_last_return (series_prices sample_api "Beta" None None))%float.
Proof.
  split; [by vm_compute|]. split; [by vm_compute|]. split; [by vm_compute|].
  intros H. apply (f_equal is_nan) in H. vm_compute in H. discriminate.
Qed.

(** The rows of the result under one name: there is one when the name has a
    price row in range, and each carries the return of the name's series. *)
Lemma analyze_rows_of_name (self : api) (company_names : list string)
    (start_date end_date : option Z) (biz_risks : list string)
    (entry : gmap string value) (name : string) :
  entry ∈ rows (esg self) -> entry !! "Full Name" = Some (Str name) ->
  kept company_names biz_risks entry ->
  price_rows self name start_date end_date <> [] ->
  (exists row,
     row ∈ concat (analysis_rows_of self start_date end_date
                   <$> filter (kept company_names biz_risks) (rows (esg self)))
     /\ analysis_name row = Str name)
  /\ (forall row,
        row ∈ concat (analysis_rows_of self start_date end_date
                      <$> filter (kept company_names biz_risks) (rows (esg self))) ->
        analysis_name row = Str name ->
        Stock_Return row = reported_return self name start_date end_date).
Proof.
  intros He Hname Hkept Hrows.
  assert (Hseries : company_series self name start_date end_date <> [])
    by (by rewrite company_series_nil).
  split.
  - exists {| analysis_name := Str name;
               analysis_totalEsg := cell_or_nan "totalEsg" entry;
               Stock_Return := reported_return self name start_date end_date;
               Business_Risk_Level := level_cell entry |}.
    split; [|reflexivity].
    apply list_elem_of_In, in_concat. eexists. split.
    + apply list_elem_of_In, list_elem_of_fmap_2, list_elem_of_filter. by split.
    + unfold analysis_rows_of, name_cell, cell_or_nan. rewrite Hname. simpl.
      rewrite decide_False by done. by left.
  - intros row (e' & name' & _ & _ & _ & ->)%elem_of_analysis_rows [= ->]. done.
Qed.


Lemma sample_api_esg : esg sample_api = sample_esg.
Proof. by vm_compute. Qed.

Lemma sample_api_analysable (company_names : list string) :
  analysable sample_api company_names.
Proof.
  unfold analysable. rewrite sample_api_esg.
  split; [exact sample_esg_wf|].
  split; [simpl; set_solver|]. split; [simpl; set_solver|].
  split; [simpl; set_solver|]. split; [simpl; not_in_list|].
  intros e He _. simpl in He.
  repeat (apply elem_of_cons in He as [->|He]; [eexists; by vm_compute|]).
  by apply elem_of_nil in He.
Qed.

(** The returns of the two sample companies over the whole range. *)
Example sample_returns :
  analyze_esg_vs_stock_returns sample_api ["Alpha"; "Beta"] None None []
  = Ok [ {| analysis_name := Str "Alpha"; analysis_totalEsg := Num (Float 25);
            Stock_Return := 21; Business_Risk_Level := Str "Low Business Risk" |};
         {| analysis_name := Str "Beta"; analysis_totalEsg := Num (Float 31);
            Stock_Return := 10; Business_Risk_Level := Str "High Business Risk" |} ].
Proof. by vm_compute. Qed.

(** * Further properties *)

(** ** The classifiers are monotone *)

(** X1. A higher integer score never gets a lower level: once a score is high
    every higher score is, and below a low score every score is low. *)
Theorem classify_monotone (z z' : Z) :
  z <= z' ->
  (classify_esg (Int z) = "High ESG" -> classify_esg (Int z') = "High ESG")
  /\ (classify_esg (Int z') = "Low ESG" -> classify_esg (Int z) = "Low ESG")
  /\ (classify_biz_risk (Int z) = "High Business Risk" ->
      classify_biz_risk (Int z') = "High Business Risk")
  /\ (classify_biz_risk (Int z') = "Low Business Risk" ->
      classify_biz_risk (Int z) = "Low Business Risk").
Proof.
  intros Hle. unfold classify_esg, classify_biz_risk, num_gt, num_ge, num_le.
  destruct (Z.ltb_spec 30 z), (Z.ltb_spec 30 z'), (Z.leb_spec 20 z),
    (Z.leb_spec 20 z'), (Z.leb_spec z 3), (Z.leb_spec z' 3), (Z.leb_spec z 6),
    (Z.leb_spec z' 6);
    repeat split; intros; try discriminate; try lia; reflexivity.
Qed.

Lemma classify_monotone_witness :
  (classify_esg (Int 31) = "High ESG" -> classify_esg (Int 40) = "High ESG")
  /\ (classify_esg (Int 40) = "Low ESG" -> classify_esg (Int 31) = "Low ESG")
  /\ (classify_biz_risk (Int 31) = "High Business Risk" ->
      classify_biz_risk (Int 40) = "High Business Risk")
  /\ (classify_biz_risk (Int 40) = "Low Business Risk" ->
      classify_biz_risk (Int 31) = "Low Business Risk").
Proof. apply (classify_monotone 31 40). lia. Defined.

(** ** [stack_columns]: what it refuses *)

(** X2. With fewer than two columns there is no column pair, and the
    concatenation of no frame raises [ValueError], whatever the frame. *)
Theorem stack_columns_too_few_columns (df : frame) (cols : list string) :
  (length cols < 2)%nat -> stack_columns df cols = Err ValueError.
Proof.
  intros Hk. destruct cols as [|c [|c' cols]]; [done..|]. simpl in Hk. lia.
Qed.

Lemma stack_columns_too_few_columns_witness :
  stack_columns sample_flows ["a"] = Err ValueError.
Proof. apply stack_columns_too_few_columns. simpl. lia. Defined.

Lemma elem_of_zip_tail_cover {A} (l : list A) (x : A) :
  (2 <= length l)%nat -> x ∈ l ->
  exists p, p ∈ zip l (tail l) /\ (fst p = x \/ snd p = x).
Proof.
  intros Hk Hx. apply list_elem_of_lookup in Hx as [i Hi].
  destruct i as [|i].
  - destruct l as [|a [|b l]]; simpl in *; [lia..|].
    injection Hi as <-. exists (a, b). split; [by left | by left].
  - destruct (l !! i) as [y|] eqn:Hy.
    + exists (y, x). split; [|by right].
      eapply list_elem_of_lookup_2. by apply lookup_zip_tail.
    + apply lookup_ge_None in Hy. apply lookup_lt_Some in Hi. lia.
Qed.

Lemma pair_df_Err (df : frame) (col1 col2 : string) (e : error) :
  wf_frame df -> pair_df df col1 col2 = Err e ->
  exists c, e = KeyError c /\ (c ∉ columns df) /\ (c = col1 \/ c = col2 \/ c = "value").
Proof.
  intros Hwf. unfold pair_df.
  destruct (decide (col1 ∈ columns df)) as [H1|H1]; [|intros [= <-]; eauto 6].
  destruct (decide (col2 ∈ columns df)) as [H2|H2]; [|intros [= <-]; eauto 6].
  destruct (decide ("value" ∈ columns df)) as [Hv|Hv]; [|intros [= <-]; eauto 6].
  intros He. pose proof (pair_df_wf df col1 col2 Hwf H1 H2 Hv) as Hok.
  unfold pair_df in Hok. rewrite !decide_True in Hok by done. congruence.
Qed.

Lemma stack_columns_KeyError (df : frame) (cols : list string) :
  wf_frame df -> (2 <= length cols)%nat ->
  (exists c, (c ∈ cols \/ c = "value") /\ c ∉ columns df) ->
  exists c, stack_columns df cols = Err (KeyError c)
            /\ (c ∉ columns df) /\ (c ∈ cols \/ c = "value").
Proof.
  intros Hwf Hk (c0 & Hc0 & Hmiss). unfold stack_columns.
  destruct (mapM (fun p => pair_df df (fst p) (snd p)) (zip cols (tail cols)))
    as [stacked|e] eqn:Hm.
  - exfalso. apply mapM_Ok_Forall2 in Hm.
    assert (Hp : exists p, p ∈ zip cols (tail cols)).
    { pose proof (length_zip_tail cols) as Hlen.
      destruct (zip cols (tail cols)) as [|p ?]; simpl in Hlen; [lia|].
      exists p. by left. }
    assert (Hall : forall p, p ∈ zip cols (tail cols) ->
                     fst p ∈ columns df /\ snd p ∈ columns df /\ "value" ∈ columns df).
    { intros p Hin. apply list_elem_of_lookup in Hin as [i Hi].
      destruct (Forall2_lookup_l _ _ _ _ _ Hm Hi) as (f & _ & Hf).
      unfold pair_df in Hf.
      destruct (decide (fst p ∈ columns df)); [|discriminate].
      destruct (decide (snd p ∈ columns df)); [|discriminate].
      destruct (decide ("value" ∈ columns df)); [done|discriminate]. }
    destruct Hc0 as [Hc0| ->].
    + destruct (elem_of_zip_tail_cover cols c0 Hk Hc0) as (p & Hin & [<-|<-]);
        apply Hmiss; by destruct (Hall p Hin) as (? & ? & ?).
    + destruct Hp as [p Hin]. apply Hmiss. by destruct (Hall p Hin) as (? & ? & ?).
  - simpl. apply mapM_Err_exists in Hm as (p & Hin & Hp).
    apply pair_df_Err in Hp as (c & -> & Hc & Hwhich); [|done].
    exists c. split; [done|]. split; [done|].
    apply elem_of_zip_tail in Hin as [H1 H2].
    destruct Hwhich as [-> | [-> | ->]]; auto.
Qed.

(** X3. With two columns or more, a listed column or the [value] column that the
    frame lacks makes [stack_columns] raise [KeyError] for a lacking column. *)
Theorem stack_columns_missing_column (df : frame) (cols : list string) :
  wf_frame df -> (2 <= length cols)%nat ->
  (exists c, (c ∈ cols \/ c = "value") /\ c ∉ columns df) ->
  exists c, stack_columns df cols = Err (KeyError c)
            /\ (c ∉ columns df) /\ (c ∈ cols \/ c = "value").
Proof. exact (stack_columns_KeyError df cols). Qed.

Lemma stack_columns_missing_column_witness :
  exists c, stack_columns sample_categories ["a"; "b"] = Err (KeyError c)
            /\ (c ∉ columns sample_categories) /\ (c ∈ ["a"; "b"] \/ c = "value").
Proof.
  apply stack_columns_missing_column.
  - exact sample_categories_wf.
  - simpl. lia.
  - exists "value". split; [by right|]. simpl. not_in_list.
Defined.

(** ** [make_sankey]: the whole run *)

Lemma wf_frame_triples (rows_in : list (gmap string value))
    (pairs : list (string * string)) :
  wf_frame {| columns := ["src"; "targ"; "value"];
              rows := concat ((fun p => triple (fst p) (snd p) <$> rows_in) <$> pairs) |}.
Proof.
  apply wf_frame_dom. simpl. apply Forall_forall. intros row Hrow.
  apply list_elem_of_In, in_concat in Hrow as (b & Hb%list_elem_of_In & Hrow%list_elem_of_In).
  apply list_elem_of_fmap in Hb as (p & -> & _).
  apply list_elem_of_fmap in Hrow as (r & -> & _).
  unfold triple. rewrite !dom_insert_L, dom_singleton_L. set_solver.
Qed.

Lemma make_sankey_run (set_order : list value -> list value) (σ : list frame)
    (df : nat) (caller_df : frame) (cols : list string) (vals : option string) :
  set_iteration set_order ->
  σ !! df = Some caller_df -> wf_frame caller_df -> (2 <= length cols)%nat ->
  (forall c, c ∈ cols -> c ∈ columns caller_df) -> vals_in_frame vals caller_df ->
  make_sankey set_order df cols vals σ
  = (<[df := sankey_written vals caller_df]> σ
       ++ [sankey_coded set_order vals caller_df cols],
     Ok {| link_source :=
             (fun r => sankey_code set_order vals caller_df cols (cell_or_nan "src" r))
             <$> sankey_stacked_rows vals caller_df cols;
           link_target :=
             (fun r => sankey_code set_order vals caller_df cols (cell_or_nan "targ" r))
             <$> sankey_stacked_rows vals caller_df cols;
           link_value := cell_or_nan "value" <$> sankey_stacked_rows vals caller_df cols;
           node_label := sankey_labels set_order vals caller_df cols |}).
Proof.
  intros Hset Hdf Hwf Hk Hcols Hvals.
  set (written := sankey_written vals caller_df).
  destruct (wf_frame_new_column "value" (thickness_cell vals) caller_df Hwf)
    as (Hwfw & Hrowsw & Hcolsw). fold (sankey_written vals caller_df) in Hwfw, Hrowsw, Hcolsw.
  fold written in Hwfw, Hrowsw, Hcolsw.
  assert (Hlt : (df < length σ)%nat) by (by eapply lookup_lt_Some).
  unfold make_sankey.
  unfold mbind at 1. unfold action_bind.
  rewrite bool_decide_true by done. simpl.
  unfold mbind at 1. unfold action_bind, deref at 1. rewrite Hdf.
  unfold mbind at 1. unfold action_bind, lift at 1.
  rewrite link_thickness_wf by done.
  unfold mbind at 1. unfold action_bind, assign at 1.
  fold (sankey_written vals caller_df). fold written.
  assert (Hw : <[df := written]> σ !! df = Some written)
    by (by apply list_lookup_insert_eq).
  unfold mbind at 1. unfold action_bind, deref at 1. rewrite Hw.
  unfold mbind at 1. unfold action_bind, lift at 1.
  rewrite (stack_columns_wf written cols Hwfw Hk).
  2:{ intros c Hc. apply Hcolsw. left. by apply Hcols. }
  2:{ apply Hcolsw. by right. }
  change (concat ((fun p : string * string => triple p.1 p.2 <$> rows written)
                  <$> zip cols (tail cols)))
    with (sankey_stacked_rows vals caller_df cols).
  set (stacked := {| columns := ["src"; "targ"; "value"];
                     rows := sankey_stacked_rows vals caller_df cols |}).
  assert (Hwfs : wf_frame stacked) by apply wf_frame_triples.
  unfold mbind at 1. unfold action_bind, new_object at 1.
  set (σ1 := <[df := written]> σ).
  assert (Hnew : forall x : frame, (σ1 ++ [x]) !! length σ1 = Some x).
  { intros x. rewrite lookup_app_r by done. by rewrite Nat.sub_diag. }
  unfold mbind at 1. unfold action_bind.
  unfold code_mapping_at.
  unfold mbind at 1. unfold action_bind, deref at 1.
  rewrite Hnew.
  unfold mbind at 1. unfold action_bind, lift at 1.
  rewrite (code_mapping_wf set_order stacked "src" "targ" Hset Hwfs);
    [|simpl; set_solver|simpl; set_solver|done].
  change (rows stacked) with (sankey_stacked_rows vals caller_df cols).
  fold (sankey_labels set_order vals caller_df cols).
  unfold mbind at 1. unfold action_bind, assign at 1. simpl fst. simpl snd.
  unfold mret at 1. unfold action_ret.
  assert (Hstore : forall x : frame,
             <[length σ1 := x]> (σ1 ++ [stacked]) = σ1 ++ [x]).
  { intros x. rewrite insert_app_r_alt by done. by rewrite Nat.sub_diag. }
  rewrite Hstore.
  unfold mbind at 1. unfold action_bind, deref at 1.
  rewrite Hnew.
  assert (Hwfc : wf_frame (sankey_coded set_order vals caller_df cols)).
  { intros r' Hr' c'. simpl in Hr'. simpl columns.
    apply list_elem_of_fmap in Hr' as (r & -> & Hr).
    pose proof (Hwfs r Hr) as Hdom. simpl columns in Hdom. rewrite (Hdom c').
    destruct (decide (c' = "targ")) as [->|Htarg].
    { rewrite lookup_insert_eq. split; [by eauto | intros _].
      apply Hdom. set_solver. }
    rewrite lookup_insert_ne by done.
    destruct (decide (c' = "src")) as [->|Hsrc].
    { rewrite lookup_insert_eq. split; [by eauto | intros _].
      apply Hdom. set_solver. }
    by rewrite lookup_insert_ne. }
  unfold sankey_coded, sankey_code in Hwfc |- *.
  unfold mbind at 1. unfold action_bind, lift at 1.
  rewrite get_column_wf by (done || (simpl; set_solver)).
  unfold mbind at 1. unfold action_bind, lift at 1.
  rewrite get_column_wf by (done || (simpl; set_solver)).
  unfold mbind at 1. unfold action_bind, lift at 1.
  rewrite get_column_wf by (done || (simpl; set_solver)).
  unfold mret, action_ret. f_equal. f_equal.
  simpl rows. rewrite <- !list_fmap_compose.
  f_equal; apply list_fmap_ext; intros i r _; simpl; unfold cell_or_nan.
  - rewrite lookup_insert_ne by done. by rewrite lookup_insert_eq.
  - by rewrite lookup_insert_eq.
  - by rewrite !lookup_insert_ne.
Qed.

(** ** [make_sankey]: the links and their labels *)

Lemma sample_flows_categorical (c : string) (r : gmap string value) (v : value) :
  c ∈ ["a"; "b"; "c"] -> r ∈ rows sample_flows -> r !! c = Some v -> categorical v.
Proof.
  intros Hc Hr Hv. simpl in Hr.
  repeat (apply elem_of_cons in Hr as [->|Hr];
          [repeat (apply elem_of_cons in Hc as [->|Hc];
                   [vm_compute in Hv; injection Hv as <-; exact I|]);
           by apply elem_of_nil in Hc|]).
  by apply elem_of_nil in Hr.
Qed.

Lemma sankey_written_rows (vals : option string) (caller_df : frame) :
  rows (sankey_written vals caller_df)
  = (fun r => <["value" := thickness_cell vals r]> r) <$> rows caller_df.
Proof. simpl. by rewrite zip_with_fmap_same. Qed.

Lemma length_sankey_stacked_rows (vals : option string) (caller_df : frame)
    (cols : list string) :
  length (sankey_stacked_rows vals caller_df cols)
  = ((length cols - 1) * length (rows caller_df))%nat.
Proof.
  unfold sankey_stacked_rows.
  rewrite (length_concat_blocks _ (length (rows caller_df))).
  - rewrite length_fmap, length_zip_tail. lia.
  - apply Forall_fmap, Forall_forall. intros p _. cbv [compose].
    by rewrite length_fmap, sankey_written_rows, length_fmap.
Qed.

Lemma lookup_sankey_stacked_rows (vals : option string) (caller_df : frame)
    (cols : list string) (j i : nat) (c1 c2 : string) (r : gmap string value) :
  cols !! j = Some c1 -> cols !! S j = Some c2 -> rows caller_df !! i = Some r ->
  sankey_stacked_rows vals caller_df cols !! (j * length (rows caller_df) + i)%nat
  = Some (triple c1 c2 (<["value" := thickness_cell vals r]> r)).
Proof.
  intros Hc1 Hc2 Hr. unfold sankey_stacked_rows.
  rewrite (lookup_concat_blocks _ (length (rows caller_df)) j i
             (triple c1 c2 <$> rows (sankey_written vals caller_df))).
  - by rewrite sankey_written_rows, !list_lookup_fmap, Hr.
  - apply Forall_fmap, Forall_forall. intros p _. cbv [compose].
    by rewrite length_fmap, sankey_written_rows, length_fmap.
  - by rewrite list_lookup_fmap, (lookup_zip_tail cols j c1 c2).
  - by eapply lookup_lt_Some.
Qed.

Lemma sankey_labels_lookup (set_order : list value -> list value)
    (vals : option string) (caller_df : frame) (cols : list string)
    (row : gmap string value) (c : string) :
  set_iteration set_order ->
  row ∈ sankey_stacked_rows vals caller_df cols -> c = "src" \/ c = "targ" ->
  sankey_labels set_order vals caller_df cols
    !! index_of (cell_or_nan c row) (sankey_labels set_order vals caller_df cols)
  = Some (cell_or_nan c row).
Proof.
  intros Hset Hrow Hc. apply index_of_lookup. unfold sankey_labels.
  apply Hset, elem_of_app.
  destruct Hc as [-> | ->]; [left|right]; by apply list_elem_of_fmap_2.
Qed.

(** X4. A run of [make_sankey] on a frame that has the listed columns, none of
    them [value], with categorical cells, gives one link per row and adjacent
    column pair, pair after pair: the source and target of the link are
    positions in the label list, at which the list holds the row's cells of the
    two columns, and the thickness is the cell written into the row's [value]
    column. No label is listed twice. *)
Theorem make_sankey_links_decode (set_order : list value -> list value)
    (σ : list frame) (df : nat) (caller_df : frame) (cols : list string)
    (vals : option string) :
  set_iteration set_order ->
  σ !! df = Some caller_df -> wf_frame caller_df -> (2 <= length cols)%nat ->
  (forall c, c ∈ cols -> c ∈ columns caller_df) -> ("value" ∉ cols) ->
  (forall c r v, c ∈ cols -> r ∈ rows caller_df -> r !! c = Some v -> categorical v) ->
  vals_in_frame vals caller_df ->
  exists fig,
    snd (make_sankey set_order df cols vals σ) = Ok fig
    /\ NoDup (node_label fig)
    /\ length (link_source fig) = ((length cols - 1) * length (rows caller_df))%nat
    /\ length (link_target fig) = length (link_source fig)
    /\ length (link_value fig) = length (link_source fig)
    /\ forall j i c1 c2 r,
         cols !! j = Some c1 -> cols !! S j = Some c2 -> rows caller_df !! i = Some r ->
         exists (s t : nat) (l1 l2 : value),
           r !! c1 = Some l1 /\ r !! c2 = Some l2
           /\ link_source fig !! (j * length (rows caller_df) + i)%nat
              = Some (Num (Int (Z.of_nat s)))
           /\ link_target fig !! (j * length (rows caller_df) + i)%nat
              = Some (Num (Int (Z.of_nat t)))
           /\ node_label fig !! s = Some l1
           /\ node_label fig !! t = Some l2
           /\ link_value fig !! (j * length (rows caller_df) + i)%nat
              = Some (thickness_cell vals r).
Proof.
  intros Hset Hdf Hwf Hk Hcols Hval _ Hvals.
  rewrite (make_sankey_run set_order σ df caller_df cols vals) by done.
  eexists. split; [reflexivity|]. cbn [link_source link_target link_value node_label].
  split; [apply Hset|].
  rewrite !length_fmap, length_sankey_stacked_rows.
  split; [done|]. split; [done|]. split; [done|].
  intros j i c1 c2 r Hc1 Hc2 Hr.
  assert (Hr' : r ∈ rows caller_df) by (by eapply list_elem_of_lookup_2).
  assert (Hin1 : c1 ∈ cols) by (by eapply list_elem_of_lookup_2).
  assert (Hin2 : c2 ∈ cols) by (by eapply list_elem_of_lookup_2).
  destruct (wf_frame_cell caller_df c1 r Hwf Hr' (Hcols c1 Hin1)) as [l1 Hl1].
  destruct (wf_frame_cell caller_df c2 r Hwf Hr' (Hcols c2 Hin2)) as [l2 Hl2].
  pose proof (lookup_sankey_stacked_rows vals caller_df cols j i c1 c2 r Hc1 Hc2 Hr)
    as Hrow.
  set (row := triple c1 c2 (<["value" := thickness_cell vals r]> r)) in *.
  assert (Hsrc : cell_or_nan "src" row = l1).
  { unfold row, triple, cell_or_nan. rewrite lookup_insert_eq. simpl.
    rewrite lookup_insert_ne by (intros <-; done). by rewrite Hl1. }
  assert (Htarg : cell_or_nan "targ" row = l2).
  { unfold row, triple, cell_or_nan. rewrite lookup_insert_ne by done.
    rewrite lookup_insert_eq. simpl.
    rewrite lookup_insert_ne by (intros <-; done). by rewrite Hl2. }
  assert (Hvalue : cell_or_nan "value" row = thickness_cell vals r).
  { unfold row, triple, cell_or_nan. rewrite !(lookup_insert_ne _ _ "value") by done.
    rewrite lookup_singleton_eq. simpl. by rewrite lookup_insert_eq. }
  assert (Hmem : row ∈ sankey_stacked_rows vals caller_df cols)
    by (by eapply list_elem_of_lookup_2).
  exists (index_of l1 (sankey_labels set_order vals caller_df cols)),
         (index_of l2 (sankey_labels set_order vals caller_df cols)), l1, l2.
  rewrite !list_lookup_fmap, Hrow. simpl. unfold sankey_code.
  rewrite Hsrc, Htarg, Hvalue. repeat split; try done.
  - rewrite <- Hsrc. apply sankey_labels_lookup; auto.
  - rewrite <- Htarg. apply sankey_labels_lookup; auto.
Qed.

Lemma make_sankey_links_decode_witness :
  exists fig,
    snd (make_sankey remove_dups 0 ["a"; "b"; "c"] (Some "value") [sample_flows]) = Ok fig
    /\ NoDup (node_label fig)
    /\ length (link_source fig) = 4%nat.
Proof.
  destruct (make_sankey_links_decode remove_dups [sample_flows] 0 sample_flows
              ["a"; "b"; "c"] (Some "value"))
    as (fig & Hfig & Hnd & Hlen & _).
  - exact remove_dups_set_iteration.
  - reflexivity.
  - exact sample_flows_wf.
  - simpl. lia.
  - intros c Hc. simpl.
    repeat (apply elem_of_cons in Hc as [->|Hc]; [set_solver|]).
    by apply elem_of_nil in Hc.
  - not_in_list.
  - exact sample_flows_categorical.
  - intros c [= <-] _. simpl. set_solver.
  - exists fig. split; [exact Hfig|]. split; [exact Hnd|]. exact Hlen.
Defined.
(** ** [make_sankey]: the other objects, and the calls that raise *)

(** X5. Whatever the call does, it leaves every DataFrame other than the one it
    is given as it was. *)
Theorem make_sankey_other_objects (set_order : list value -> list value)
    (σ : list frame) (df l : nat) (other : frame) (cols : list string)
    (vals : option string) :
  l <> df -> σ !! l = Some other ->
  fst (make_sankey set_order df cols vals σ) !! l = Some other.
Proof.
  intros Hne Hl.
  assert (Hlt : (l < length σ)%nat) by (by eapply lookup_lt_Some).
  unfold make_sankey.
  unfold mbind at 1. unfold action_bind.
  destruct (bool_decide (2 <= length cols)%nat); [|exact Hl]. simpl.
  unfold mbind at 1. unfold action_bind, deref at 1.
  destruct (σ !! df) as [caller_df|]; [|exact Hl].
  unfold mbind at 1. unfold action_bind, lift at 1.
  destruct (link_thickness vals caller_df) as [thickness|e]; [|exact Hl].
  unfold mbind at 1. unfold action_bind, assign at 1.
  set (σ0 := <[df := set_column "value" thickness caller_df]> σ).
  assert (Hl0 : σ0 !! l = Some other).
  { unfold σ0. by rewrite list_lookup_insert_ne. }
  assert (Hlen0 : length σ0 = length σ) by apply length_insert.
  unfold mbind at 1. unfold action_bind, deref at 1.
  destruct (σ0 !! df) as [written|]; [|exact Hl0].
  unfold mbind at 1. unfold action_bind, lift at 1.
  destruct (stack_columns written cols) as [stacked|e]; [|exact Hl0].
  unfold mbind at 1. unfold action_bind, new_object at 1.
  assert (Hl1 : (σ0 ++ [stacked]) !! l = Some other).
  { rewrite lookup_app_l by lia. exact Hl0. }
  assert (Hne1 : l <> length σ0) by lia.
  unfold mbind at 1. unfold action_bind.
  pose proof (code_mapping_at_frame set_order l _ "src" "targ" _ other Hne1 Hl1) as Hcm.
  destruct (code_mapping_at set_order (length σ0) "src" "targ" (σ0 ++ [stacked]))
    as [σ2 [labels|e]]; simpl in Hcm; [|exact Hcm].
  unfold mbind at 1. unfold action_bind, deref at 1.
  destruct (σ2 !! length σ0) as [coded|]; [|exact Hcm].
  unfold mbind, action_bind, lift, mret, action_ret.
  destruct (get_column "src" coded); [|exact Hcm].
  destruct (get_column "targ" coded); [|exact Hcm].
  destruct (get_column "value" coded); exact Hcm.
Qed.

Lemma make_sankey_other_objects_witness :
  fst (make_sankey remove_dups 0 ["a"; "b"] None [sample_categories; sample_flows])
    !! 1%nat
  = Some sample_flows.
Proof. apply make_sankey_other_objects; [lia | reflexivity]. Defined.

(** X6. A thickness column the frame lacks makes the call raise [KeyError] for
    it before anything is written: every object is as it was. *)
Theorem make_sankey_missing_vals_column (set_order : list value -> list value)
    (σ : list frame) (df : nat) (caller_df : frame) (cols : list string)
    (c : string) :
  σ !! df = Some caller_df -> (2 <= length cols)%nat ->
  c <> "" -> (c ∉ columns caller_df) ->
  make_sankey set_order df cols (Some c) σ = (σ, Err (KeyError c)).
Proof.
  intros Hdf Hk Hc Hmiss. unfold make_sankey.
  unfold mbind at 1. unfold action_bind.
  rewrite bool_decide_true by done. simpl.
  unfold mbind at 1. unfold action_bind, deref at 1. rewrite Hdf.
  unfold mbind at 1. unfold action_bind, lift at 1.
  unfold link_thickness. rewrite decide_False by done.
  unfold get_column. by rewrite decide_False by done.
Qed.

Lemma make_sankey_missing_vals_column_witness :
  make_sankey remove_dups 0 ["a"; "b"] (Some "Score") [sample_categories]
  = ([sample_categories], Err (KeyError "Score")).
Proof.
  apply (make_sankey_missing_vals_column remove_dups [sample_categories] 0
           sample_categories).
  - reflexivity.
  - simpl. lia.
  - discriminate.
  - simpl. not_in_list.
Defined.

(** X7. A listed column the frame lacks makes the call raise [KeyError] for a
    lacking column of the list, after the [value] column has been written: the
    caller's frame is changed although the call fails, and no other object is
    created. *)
Theorem make_sankey_missing_column (set_order : list value -> list value)
    (σ : list frame) (df : nat) (caller_df : frame) (cols : list string)
    (vals : option string) :
  σ !! df = Some caller_df -> wf_frame caller_df -> (2 <= length cols)%nat ->
  vals_in_frame vals caller_df ->
  (exists c, c ∈ cols /\ c <> "value" /\ c ∉ columns caller_df) ->
  exists c,
    make_sankey set_order df cols vals σ
    = (<[df := sankey_written vals caller_df]> σ, Err (KeyError c))
    /\ c ∈ cols /\ (c ∉ columns caller_df).
Proof.
  intros Hdf Hwf Hk Hvals (c0 & Hc0 & Hc0v & Hmiss).
  destruct (wf_frame_new_column "value" (thickness_cell vals) caller_df Hwf)
    as (Hwfw & _ & Hcolsw).
  fold (sankey_written vals caller_df) in Hwfw, Hcolsw.
  destruct (stack_columns_KeyError (sankey_written vals caller_df) cols Hwfw Hk)
    as (c & Hstack & Hc & Hwhich).
  { exists c0. split; [by left|]. intros [?| ->]%Hcolsw; done. }
  assert (Hcv : c <> "value").
  { intros ->. apply Hc, Hcolsw. by right. }
  exists c. split; [|split].
  - assert (Hlt : (df < length σ)%nat) by (by eapply lookup_lt_Some).
    unfold make_sankey.
    unfold mbind at 1. unfold action_bind.
    rewrite bool_decide_true by done. simpl.
    unfold mbind at 1. unfold action_bind, deref at 1. rewrite Hdf.
    unfold mbind at 1. unfold action_bind, lift at 1.
    rewrite link_thickness_wf by done.
    unfold mbind at 1. unfold action_bind, assign at 1.
    fold (sankey_written vals caller_df).
    unfold mbind at 1. unfold action_bind, deref at 1.
    rewrite list_lookup_insert_eq by done.
    unfold mbind at 1. unfold action_bind, lift at 1.
    by rewrite Hstack.
  - by destruct Hwhich.
  - intros Hin. apply Hc, Hcolsw. by left.
Qed.

Lemma make_sankey_missing_column_witness :
  exists c,
    make_sankey remove_dups 0 ["a"; "z"] None [sample_categories]
    = (<[0%nat := sankey_written None sample_categories]> [sample_categories],
       Err (KeyError c))
    /\ c ∈ ["a"; "z"] /\ (c ∉ columns sample_categories).
Proof.
  apply make_sankey_missing_column.
  - reflexivity.
  - exact sample_categories_wf.
  - simpl. lia.
  - intros c Hc. discriminate.
  - exists "z". split; [set_solver|]. split; [discriminate|]. simpl. not_in_list.
Defined.
(** ** [build_esg_risk_hierarchy] *)

(** A level column is written and filtered on in one step. *)
Lemma filter_levels_rows (levels : list string) (dst : string)
    (lvl : gmap string value -> value) (df : frame) :
  filter_levels levels (lvl <$> rows df) (set_column dst (lvl <$> rows df) df)
  = {| columns := columns (set_column dst (lvl <$> rows df) df);
       rows := (fun r => <[dst := lvl r]> r)
               <$> filter (fun r => passes levels (lvl r)) (rows df) |}.
Proof.
  unfold filter_levels, passes. destruct levels as [|b bs].
  - unfold set_column. cbn [rows columns]. rewrite zip_with_fmap_same.
    f_equal. f_equal. induction (rows df) as [|r l IH]; [done|].
    rewrite filter_cons_True by done. by rewrite <- IH.
  - unfold boolean_index, set_column. cbn [rows columns].
    rewrite zip_with_fmap_same, <- list_fmap_compose. f_equal.
    by rewrite zip_fmap_filter.
Qed.

Lemma build_esg_risk_hierarchy_loop (self : api)
    (company_names esg_levels biz_risks : list string) :
  breakdown_ready self company_names esg_levels ->
  build_esg_risk_hierarchy self company_names esg_levels biz_risks
  = (esg_risk_breakdown ←
       mapM (fun row => mapM (breakdown_entry row) dimensions)
            (with_levels <$> filter (kept_hierarchy company_names esg_levels biz_risks)
                                    (rows (esg self)));
     Ok (breakdown_frame (concat esg_risk_breakdown))).
Proof.
  intros (Hwf & Hname & Htot & Hrisk & Hnum & Hnumr).
  unfold build_esg_risk_hierarchy.
  rewrite (get_column_wf _ "Full Name") by done. cbn [mbind result_bind].
  rewrite <- list_fmap_compose.
  rewrite (boolean_index_rows (isin company_names ∘ cell_or_nan "Full Name")).
  set (rows1 := filter _ (rows (esg self))).
  set (fltr1 := {| columns := columns (esg self); rows := rows1 |}).
  assert (Hwf1 : wf_frame fltr1) by (by apply wf_frame_filter).
  rewrite (get_column_wf fltr1 "totalEsg") by done. cbn [mbind result_bind].
  rewrite (mapM_Ok_fmap_compose _ _ esg_level_cell).
  2:{ apply Forall_forall. intros e [Hsel He]%list_elem_of_filter.
      destruct (Hnum e He Hsel) as [n Hn].
      unfold esg_level_cell, cell_or_nan. by rewrite Hn. }
  cbn [mbind result_bind].
  change (esg_level_cell <$> rows1) with (esg_level_cell <$> rows fltr1).
  rewrite (filter_levels_rows esg_levels "ESG Level" esg_level_cell fltr1).
  destruct (wf_frame_new_column "ESG Level" esg_level_cell fltr1 Hwf1)
    as (Hwf2 & _ & Hcols2).
  set (cols2 := columns (set_column "ESG Level" (esg_level_cell <$> rows fltr1) fltr1))
    in *.
  set (rows3 := filter (fun r => passes esg_levels (esg_level_cell r)) (rows fltr1)).
  set (fltr3 := {| columns := cols2;
                   rows := (fun r => <["ESG Level" := esg_level_cell r]> r) <$> rows3 |}).
  assert (Hwf3 : wf_frame fltr3).
  { intros r' Hr' c'. cbn [rows columns fltr3] in *.
    apply list_elem_of_fmap in Hr' as (e & -> & [_ He]%list_elem_of_filter).
    apply (Hwf2 (<["ESG Level" := esg_level_cell e]> e)).
    cbn [rows set_column]. rewrite zip_with_fmap_same.
    apply list_elem_of_fmap. by exists e. }
  assert (Hrisk3 : "overallRisk" ∈ columns fltr3).
  { apply Hcols2. by left. }
  rewrite (get_column_wf fltr3 "overallRisk") by done. cbn [mbind result_bind].
  rewrite (mapM_Ok_fmap_compose _ _ level_cell).
  2:{ apply Forall_forall. intros r' Hr'. cbn [rows fltr3] in Hr'.
      apply list_elem_of_fmap in Hr' as (e & -> & [Hpass He]%list_elem_of_filter).
      apply list_elem_of_filter in He as [Hsel He]. simpl in Hsel.
      destruct (Hnumr e He Hsel Hpass) as [n Hn].
      unfold level_cell, cell_or_nan. rewrite lookup_insert_ne by done.
      by rewrite Hn. }
  cbn [mbind result_bind].
  rewrite (filter_levels_rows biz_risks "Business Risk Level" level_cell fltr3).
  cbn [rows fltr3].
  assert (Hlevel : forall e, level_cell (<["ESG Level" := esg_level_cell e]> e)
                             = level_cell e).
  { intros e. unfold level_cell, cell_or_nan. by rewrite lookup_insert_ne. }
  assert (Hrows : (fun r => <["Business Risk Level" := level_cell r]> r)
                  <$> filter (fun r => passes biz_risks (level_cell r))
                        ((fun r => <["ESG Level" := esg_level_cell r]> r) <$> rows3)
                  = with_levels
                    <$> filter (kept_hierarchy company_names esg_levels biz_risks)
                          (rows (esg self))).
  { rewrite filter_fmap_list, <- list_fmap_compose.
    unfold rows3. cbn [rows fltr1]. unfold rows1. rewrite !list_filter_filter.
    rewrite (list_filter_iff _ (kept_hierarchy company_names esg_levels biz_risks)).
    2:{ intros e. rewrite Hlevel. unfold kept_hierarchy, name_cell. simpl. tauto. }
    apply list_fmap_ext. intros i e _. simpl. unfold with_levels. by rewrite Hlevel. }
  by rewrite Hrows.
Qed.
Lemma breakdown_entry_with_levels (e : gmap string value) (dim_col : string * string) :
  is_Some (e !! "Full Name") ->
  snd dim_col <> "ESG Level" -> snd dim_col <> "Business Risk Level" ->
  breakdown_entry (with_levels e) dim_col
  = match e !! snd dim_col with
    | Some _ => Ok (breakdown_record e dim_col)
    | None => Err (KeyError (snd dim_col))
    end.
Proof.
  intros [name Hname] Hne1 Hne2. unfold breakdown_entry, with_levels, cell.
  rewrite (lookup_insert_ne _ "Business Risk Level" "Full Name") by done.
  rewrite (lookup_insert_ne _ "ESG Level" "Full Name") by done.
  rewrite Hname. cbn [mbind result_bind].
  rewrite (lookup_insert_ne _ "Business Risk Level" "ESG Level") by done.
  rewrite lookup_insert_eq. cbn [mbind result_bind].
  rewrite lookup_insert_eq. cbn [mbind result_bind].
  rewrite (lookup_insert_ne _ "Business Risk Level" (snd dim_col)) by done.
  rewrite (lookup_insert_ne _ "ESG Level" (snd dim_col)) by done.
  unfold breakdown_record, name_cell, cell_or_nan. rewrite Hname.
  destruct (e !! snd dim_col) as [score|]; reflexivity.
Qed.

Lemma dimensions_columns (dim_col : string * string) :
  dim_col ∈ dimensions ->
  snd dim_col <> "ESG Level" /\ snd dim_col <> "Business Risk Level".
Proof.
  intros H. unfold dimensions in H.
  repeat (apply elem_of_cons in H as [->|H]; [split; discriminate|]).
  by apply elem_of_nil in H.
Qed.

Lemma build_esg_risk_hierarchy_Ok (self : api)
    (company_names esg_levels biz_risks : list string) :
  breakdown_ready self company_names esg_levels ->
  (forall dim_col, dim_col ∈ dimensions -> snd dim_col ∈ columns (esg self)) ->
  build_esg_risk_hierarchy self company_names esg_levels biz_risks
  = Ok (breakdown_frame
          (concat (breakdown_rows
                   <$> filter (kept_hierarchy company_names esg_levels biz_risks)
                         (rows (esg self))))).
Proof.
  intros Hready Hdims. rewrite build_esg_risk_hierarchy_loop by done.
  destruct Hready as (Hwf & Hname & _).
  rewrite (mapM_Ok_fmap_compose _ _ breakdown_rows); [done|].
  apply Forall_forall. intros e [_ He]%list_elem_of_filter.
  apply mapM_Ok_fmap, Forall_forall. intros dim_col Hdc.
  destruct (dimensions_columns dim_col Hdc) as [Hne1 Hne2].
  rewrite breakdown_entry_with_levels; [|by eapply wf_frame_cell|done..].
  by destruct (wf_frame_cell _ (snd dim_col) e Hwf He (Hdims dim_col Hdc)) as [v ->].
Qed.

(** X8. On a table that has the columns of the three scores, the breakdown has
    three records for every kept company, one per dimension in the order
    Environmental, Social, Governance, the companies in table order: record [3 i
    + d] carries the name, the two levels and the score of dimension [d] of the
    [i]-th kept company. *)
Theorem build_esg_risk_hierarchy_records (self : api)
    (company_names esg_levels biz_risks : list string) :
  breakdown_ready self company_names esg_levels ->
  (forall dim_col, dim_col ∈ dimensions -> snd dim_col ∈ columns (esg self)) ->
  exists out,
    build_esg_risk_hierarchy self company_names esg_levels biz_risks = Ok out
    /\ length (rows out)
       = (3 * length (filter (kept_hierarchy company_names esg_levels biz_risks)
                             (rows (esg self))))%nat
    /\ (forall i e,
          filter (kept_hierarchy company_names esg_levels biz_risks) (rows (esg self))
            !! i = Some e ->
          exists name total risk,
            e !! "Full Name" = Some (Str name) /\ name ∈ company_names
            /\ e !! "totalEsg" = Some (Num total)
            /\ e !! "overallRisk" = Some (Num risk)
            /\ forall d dim col,
                 dimensions !! d = Some (dim, col) ->
                 exists score,
                   e !! col = Some score
                   /\ rows out !! (i * 3 + d)%nat
                      = Some {[ "Company" := Str name; "ESG Dimension" := Str dim;
                                "ESG Level" := Str (classify_esg total);
                                "Business Risk Level" := Str (classify_biz_risk risk);
                                "Score" := score ]}).
Proof.
  intros Hready Hdims. eexists. split; [by apply build_esg_risk_hierarchy_Ok|].
  destruct Hready as (Hwf & Hname & Htot & Hrisk & Hnum & Hnumr).
  cbn [rows breakdown_frame].
  set (K := filter (kept_hierarchy company_names esg_levels biz_risks) (rows (esg self))).
  assert (Hblocks : Forall (fun b => length b = 3%nat) (breakdown_rows <$> K)).
  { apply Forall_fmap, Forall_forall. by intros e _. }
  split.
  - rewrite (length_concat_blocks _ 3 Hblocks). by rewrite length_fmap.
  - intros i e Hi.
    assert (HeK : e ∈ K) by (by eapply list_elem_of_lookup_2).
    apply list_elem_of_filter in HeK as [(Hsel & Hpass & _) He].
    destruct (wf_frame_cell _ "Full Name" e Hwf He Hname) as [nv Hnv].
    destruct (Hnum e He Hsel) as [total Htotal].
    destruct (Hnumr e He Hsel Hpass) as [risk Hrisk'].
    pose proof Hsel as Hsel'. unfold name_cell, cell_or_nan in Hsel'.
    rewrite Hnv in Hsel'. simpl in Hsel'.
    destruct nv as [n|name]; [discriminate|].
    apply bool_decide_eq_true in Hsel'.
    exists name, total, risk. repeat split; try done.
    intros d dim col Hd.
    assert (Hdc : (dim, col) ∈ dimensions) by (by eapply list_elem_of_lookup_2).
    destruct (wf_frame_cell _ col e Hwf He (Hdims (dim, col) Hdc)) as [score Hscore].
    exists score. split; [done|].
    rewrite (lookup_concat_blocks _ 3 i d (breakdown_rows e) Hblocks).
    + unfold breakdown_rows. rewrite list_lookup_fmap, Hd. simpl.
      unfold breakdown_record, name_cell, esg_level_cell, level_cell, cell_or_nan.
      simpl. by rewrite Hnv, Htotal, Hrisk', Hscore.
    + by rewrite list_lookup_fmap, Hi.
    + apply lookup_lt_Some in Hd. exact Hd.
Qed.

(** X9. When no company is kept the breakdown is the frame without columns and
    rows, whether or not the table has the score columns. *)
Theorem build_esg_risk_hierarchy_nothing_kept (self : api)
    (company_names esg_levels biz_risks : list string) :
  breakdown_ready self company_names esg_levels ->
  (forall e, e ∈ rows (esg self) ->
             ~ kept_hierarchy company_names esg_levels biz_risks e) ->
  build_esg_risk_hierarchy self company_names esg_levels biz_risks
  = Ok {| columns := []; rows := [] |}.
Proof.
  intros Hready Hnone. rewrite build_esg_risk_hierarchy_loop by done.
  assert (Hnil : filter (kept_hierarchy company_names esg_levels biz_risks)
                        (rows (esg self)) = []).
  { destruct (filter _ _) as [|e l] eqn:Hf; [done|].
    assert (He : e ∈ filter (kept_hierarchy company_names esg_levels biz_risks)
                       (rows (esg self))) by (rewrite Hf; by left).
    apply list_elem_of_filter in He as [Hk He]. by destruct (Hnone e He). }
  by rewrite Hnil.
Qed.

(** X10. A score column the table lacks is only missed when a company is kept:
    the call then raises [KeyError] for a lacking score column. *)
Theorem build_esg_risk_hierarchy_missing_score (self : api)
    (company_names esg_levels biz_risks : list string) (e : gmap string value) :
  breakdown_ready self company_names esg_levels ->
  (exists dim_col, dim_col ∈ dimensions /\ snd dim_col ∉ columns (esg self)) ->
  e ∈ rows (esg self) -> kept_hierarchy company_names esg_levels biz_risks e ->
  exists dim_col,
    build_esg_risk_hierarchy self company_names esg_levels biz_risks
    = Err (KeyError (snd dim_col))
    /\ dim_col ∈ dimensions /\ (snd dim_col ∉ columns (esg self)).
Proof.
  intros Hready (dc0 & Hdc0 & Hmiss) He Hkept.
  rewrite build_esg_risk_hierarchy_loop by done.
  destruct Hready as (Hwf & Hname & _).
  set (K := filter (kept_hierarchy company_names esg_levels biz_risks) (rows (esg self))).
  assert (Hentry : forall e' dc, e' ∈ K -> dc ∈ dimensions ->
            breakdown_entry (with_levels e') dc
            = match e' !! snd dc with
              | Some _ => Ok (breakdown_record e' dc)
              | None => Err (KeyError (snd dc))
              end).
  { intros e' dc [_ He']%list_elem_of_filter Hdc.
    destruct (dimensions_columns dc Hdc) as [Hne1 Hne2].
    apply breakdown_entry_with_levels; [by eapply wf_frame_cell|done..]. }
  destruct (mapM (fun row => mapM (breakdown_entry row) dimensions) (with_levels <$> K))
    as [records|err] eqn:Hm.
  - exfalso. apply mapM_Ok_Forall2 in Hm.
    assert (HeK : with_levels e ∈ with_levels <$> K).
    { apply list_elem_of_fmap_2, list_elem_of_filter. by split. }
    apply list_elem_of_lookup in HeK as [i Hi].
    destruct (Forall2_lookup_l _ _ _ _ _ Hm Hi) as (recs & _ & Hrecs).
    apply mapM_Ok_Forall2 in Hrecs.
    apply list_elem_of_lookup in Hdc0 as [d Hd].
    destruct (Forall2_lookup_l _ _ _ _ _ Hrecs Hd) as (rec & _ & Hrec).
    rewrite Hentry in Hrec; [| |by eapply list_elem_of_lookup_2].
    2:{ apply list_elem_of_filter. by split. }
    destruct (e !! snd dc0) as [v|] eqn:Hv; [|discriminate].
    apply Hmiss, (Hwf e He). by exists v.
  - cbn [mbind result_bind].
    apply mapM_Err_exists in Hm as (row & Hrow & Hm).
    apply list_elem_of_fmap in Hrow as (e' & -> & He').
    apply mapM_Err_exists in Hm as (dc & Hdc & Hm).
    rewrite Hentry in Hm by done.
    destruct (e' !! snd dc) as [v|] eqn:Hv; [discriminate|].
    injection Hm as <-. exists dc. split; [done|]. split; [done|].
    intros Hin. apply list_elem_of_filter in He' as [_ He'].
    destruct (wf_frame_cell _ (snd dc) e' Hwf He' Hin) as [v' Hv']. congruence.
Qed.
Lemma sample_scored_esg_wf : wf_frame sample_scored_esg.
Proof. apply wf_frame_dom. repeat constructor; by vm_compute. Qed.

Lemma sample_scored_api_ready (company_names esg_levels : list string) :
  breakdown_ready sample_scored_api company_names esg_levels.
Proof.
  unfold breakdown_ready. cbn [esg sample_scored_api].
  split; [exact sample_scored_esg_wf|].
  split; [simpl; set_solver|]. split; [simpl; set_solver|].
  split; [simpl; set_solver|]. split.
  - intros e He _. simpl in He.
    repeat (apply elem_of_cons in He as [->|He]; [eexists; by vm_compute|]).
    by apply elem_of_nil in He.
  - intros e He _ _. simpl in He.
    repeat (apply elem_of_cons in He as [->|He]; [eexists; by vm_compute|]).
    by apply elem_of_nil in He.
Qed.

Lemma sample_scored_api_scores (dim_col : string * string) :
  dim_col ∈ dimensions -> snd dim_col ∈ columns (esg sample_scored_api).
Proof.
  intros H. unfold dimensions in H.
  repeat (apply elem_of_cons in H as [->|H]; [simpl; set_solver|]).
  by apply elem_of_nil in H.
Qed.

Lemma sample_api_breakdown_ready (company_names esg_levels : list string) :
  breakdown_ready sample_api company_names esg_levels.
Proof.
  unfold breakdown_ready. rewrite sample_api_esg.
  split; [exact sample_esg_wf|].
  split; [simpl; set_solver|]. split; [simpl; set_solver|].
  split; [simpl; set_solver|]. split.
  - intros e He _. simpl in He.
    repeat (apply elem_of_cons in He as [->|He]; [eexists; by vm_compute|]).
    by apply elem_of_nil in He.
  - intros e He _ _. simpl in He.
    repeat (apply elem_of_cons in He as [->|He]; [eexists; by vm_compute|]).
    by apply elem_of_nil in He.
Qed.

Lemma build_esg_risk_hierarchy_records_witness :
  exists out,
    build_esg_risk_hierarchy sample_scored_api ["Beta"] ["High ESG"] [] = Ok out
    /\ length (rows out)
       = (3 * length (filter (kept_hierarchy ["Beta"] ["High ESG"] [])
                             (rows (esg sample_scored_api))))%nat.
Proof.
  destruct (build_esg_risk_hierarchy_records sample_scored_api ["Beta"] ["High ESG"] [])
    as (out & Hout & Hlen & _).
  - apply sample_scored_api_ready.
  - apply sample_scored_api_scores.
  - exists out. split; [exact Hout | exact Hlen].
Defined.

Lemma build_esg_risk_hierarchy_nothing_kept_witness :
  build_esg_risk_hierarchy sample_api ["Alpha"] ["High ESG"] []
  = Ok {| columns := []; rows := [] |}.
Proof.
  apply build_esg_risk_hierarchy_nothing_kept.
  - apply sample_api_breakdown_ready.
  - intros e He (Hsel & Hpass & _). rewrite sample_api_esg in He. simpl in He.
    repeat (apply elem_of_cons in He as [->|He];
            [vm_compute in Hsel; vm_compute in Hpass; congruence|]).
    by apply elem_of_nil in He.
Defined.

Lemma build_esg_risk_hierarchy_missing_score_witness :
  exists dim_col,
    build_esg_risk_hierarchy sample_api ["Alpha"] [] [] = Err (KeyError (snd dim_col))
    /\ dim_col ∈ dimensions /\ (snd dim_col ∉ columns (esg sample_api)).
Proof.
  apply (build_esg_risk_hierarchy_missing_score sample_api ["Alpha"] [] []
           {[ "Symbol" := Str "A"; "Full Name" := Str "Alpha";
              "totalEsg" := Num (Float 25); "overallRisk" := Num (Int 3) ]}).
  - apply sample_api_breakdown_ready.
  - exists ("Environmental", "environmentScore"). split; [by left|].
    rewrite sample_api_esg. simpl. not_in_list.
  - rewrite sample_api_esg. by left.
  - split; [by vm_compute|]. split; exact I.
Defined.

(** ** [make_sankey]: the node labels *)

Lemma elem_of_sankey_stacked_rows (vals : option string) (caller_df : frame)
    (cols : list string) (row : gmap string value) :
  row ∈ sankey_stacked_rows vals caller_df cols
  <-> exists p r, p ∈ zip cols (tail cols) /\ r ∈ rows caller_df
                  /\ row = triple (fst p) (snd p) (<["value" := thickness_cell vals r]> r).
Proof.
  unfold sankey_stacked_rows. rewrite sankey_written_rows. split.
  - intros H. apply list_elem_of_In, in_concat in H
      as (b & Hb%list_elem_of_In & Hrow%list_elem_of_In).
    apply list_elem_of_fmap in Hb as (p & -> & Hp).
    apply list_elem_of_fmap in Hrow as (w & -> & Hw).
    apply list_elem_of_fmap in Hw as (r & -> & Hr).
    by exists p, r.
  - intros (p & r & Hp & Hr & ->). apply list_elem_of_In, in_concat.
    exists (triple (fst p) (snd p)
            <$> ((fun r => <["value" := thickness_cell vals r]> r) <$> rows caller_df)).
    split; apply list_elem_of_In.
    + apply list_elem_of_fmap. by exists p.
    + apply list_elem_of_fmap. eexists. split; [reflexivity|].
      apply list_elem_of_fmap. by exists r.
Qed.

Lemma triple_src (col1 col2 : string) (r : gmap string value) :
  cell_or_nan "src" (triple col1 col2 r) = cell_or_nan col1 r.
Proof. unfold triple, cell_or_nan at 1. by rewrite lookup_insert_eq. Qed.

Lemma triple_targ (col1 col2 : string) (r : gmap string value) :
  cell_or_nan "targ" (triple col1 col2 r) = cell_or_nan col2 r.
Proof.
  unfold triple, cell_or_nan at 1. rewrite lookup_insert_ne by done.
  by rewrite lookup_insert_eq.
Qed.

Lemma triple_value (col1 col2 : string) (r : gmap string value) :
  cell_or_nan "value" (triple col1 col2 r) = cell_or_nan "value" r.
Proof.
  unfold triple, cell_or_nan at 1. rewrite !(lookup_insert_ne _ _ "value") by done.
  by rewrite lookup_singleton_eq.
Qed.

Lemma elem_of_sankey_labels (set_order : list value -> list value)
    (vals : option string) (caller_df : frame) (cols : list string) (l : value) :
  set_iteration set_order ->
  l ∈ sankey_labels set_order vals caller_df cols
  <-> exists p r, p ∈ zip cols (tail cols) /\ r ∈ rows caller_df
        /\ (l = cell_or_nan (fst p) (<["value" := thickness_cell vals r]> r)
            \/ l = cell_or_nan (snd p) (<["value" := thickness_cell vals r]> r)).
Proof.
  intros Hset. unfold sankey_labels.
  rewrite (proj2 (Hset _) l), elem_of_app, !list_elem_of_fmap. split.
  - intros [(row & -> & Hrow)|(row & -> & Hrow)];
      apply elem_of_sankey_stacked_rows in Hrow as (p & r & Hp & Hr & ->);
      exists p, r; (split; [done|]); (split; [done|]).
    + left. apply triple_src.
    + right. apply triple_targ.
  - intros (p & r & Hp & Hr & [-> | ->]); [left|right];
      exists (triple (fst p) (snd p) (<["value" := thickness_cell vals r]> r));
      (split; [by rewrite ?triple_src, ?triple_targ|]);
      apply elem_of_sankey_stacked_rows; by exists p, r.
Qed.

(** X11. The node labels of a run on a frame that has the listed columns, none
    of them [value], with categorical cells, are exactly the cells of these
    columns. *)
Theorem make_sankey_labels_are_cells (set_order : list value -> list value)
    (σ : list frame) (df : nat) (caller_df : frame) (cols : list string)
    (vals : option string) :
  set_iteration set_order ->
  σ !! df = Some caller_df -> wf_frame caller_df -> (2 <= length cols)%nat ->
  (forall c, c ∈ cols -> c ∈ columns caller_df) -> ("value" ∉ cols) ->
  (forall c r v, c ∈ cols -> r ∈ rows caller_df -> r !! c = Some v -> categorical v) ->
  vals_in_frame vals caller_df ->
  exists fig,
    snd (make_sankey set_order df cols vals σ) = Ok fig
    /\ forall l, l ∈ node_label fig
                 <-> exists c r, c ∈ cols /\ r ∈ rows caller_df /\ r !! c = Some l.
Proof.
  intros Hset Hdf Hwf Hk Hcols Hval _ Hvals.
  rewrite (make_sankey_run set_order σ df caller_df cols vals) by done.
  eexists. split; [reflexivity|]. cbn [node_label]. intros l.
  rewrite elem_of_sankey_labels by done.
  assert (Hcell : forall c r, c ∈ cols -> r ∈ rows caller_df ->
            exists v, r !! c = Some v
              /\ cell_or_nan c (<["value" := thickness_cell vals r]> r) = v).
  { intros c r Hc Hr.
    destruct (wf_frame_cell caller_df c r Hwf Hr (Hcols c Hc)) as [v Hv].
    exists v. split; [done|]. unfold cell_or_nan.
    rewrite lookup_insert_ne by (intros <-; done). by rewrite Hv. }
  split.
  - intros (p & r & [Hp1 Hp2]%elem_of_zip_tail & Hr & [-> | ->]).
    + destruct (Hcell (fst p) r Hp1 Hr) as (v & Hv & ->). by exists (fst p), r.
    + destruct (Hcell (snd p) r Hp2 Hr) as (v & Hv & ->). by exists (snd p), r.
  - intros (c & r & Hc & Hr & Hl).
    destruct (elem_of_zip_tail_cover cols c Hk Hc) as (p & Hp & Hpc).
    destruct (Hcell c r Hc Hr) as (v & Hv & Hcv).
    assert (v = l) as -> by congruence.
    exists p, r. split; [done|]. split; [done|].
    destruct Hpc as [-> | ->]; [left|right]; by rewrite Hcv.
Qed.

Lemma make_sankey_labels_are_cells_witness :
  exists fig,
    snd (make_sankey remove_dups 0 ["a"; "b"; "c"] (Some "value") [sample_flows]) = Ok fig
    /\ forall l, l ∈ node_label fig
                 <-> exists c r, c ∈ ["a"; "b"; "c"] /\ r ∈ rows sample_flows
                                 /\ r !! c = Some l.
Proof.
  apply (make_sankey_labels_are_cells remove_dups [sample_flows] 0 sample_flows
           ["a"; "b"; "c"] (Some "value")).
  - exact remove_dups_set_iteration.
  - reflexivity.
  - exact sample_flows_wf.
  - simpl. lia.
  - intros c Hc. simpl.
    repeat (apply elem_of_cons in Hc as [->|Hc]; [set_solver|]).
    by apply elem_of_nil in Hc.
  - not_in_list.
  - exact sample_flows_categorical.
  - intros c [= <-] _. simpl. set_solver.
Defined.
(** ** [get_sankey_diagram] *)

Lemma elem_of_breakdown_rows (K : list (gmap string value)) (row : gmap string value) :
  row ∈ concat (breakdown_rows <$> K)
  <-> exists e dim_col, e ∈ K /\ dim_col ∈ dimensions /\ row = breakdown_record e dim_col.
Proof.
  split.
  - intros H. apply list_elem_of_In, in_concat in H
      as (b & Hb%list_elem_of_In & Hrow%list_elem_of_In).
    apply list_elem_of_fmap in Hb as (e & -> & He).
    apply list_elem_of_fmap in Hrow as (dc & -> & Hdc). by exists e, dc.
  - intros (e & dc & He & Hdc & ->). apply list_elem_of_In, in_concat.
    exists (breakdown_rows e). split; apply list_elem_of_In.
    + by apply list_elem_of_fmap_2.
    + apply list_elem_of_fmap. by exists dc.
Qed.

Lemma breakdown_frame_wf (K : list (gmap string value)) :
  wf_frame (breakdown_frame (concat (breakdown_rows <$> K))).
Proof.
  apply wf_frame_dom. cbn [rows columns breakdown_frame].
  apply Forall_forall. intros row Hrow.
  destruct (concat (breakdown_rows <$> K)) as [|row0 l] eqn:Hc.
  { by apply elem_of_nil in Hrow. }
  rewrite <- Hc in Hrow. apply elem_of_breakdown_rows in Hrow as (e & dc & _ & _ & ->).
  unfold breakdown_record. rewrite !dom_insert_L, dom_singleton_L.
  cbn [list_to_set foldr]. set_solver.
Qed.

Lemma breakdown_frame_columns (e : gmap string value) (K : list (gmap string value)) :
  columns (breakdown_frame (concat (breakdown_rows <$> e :: K)))
  = ["Company"; "ESG Dimension"; "ESG Level"; "Business Risk Level"; "Score"].
Proof. reflexivity. Qed.

Lemma breakdown_record_cells (v : value) (e : gmap string value)
    (dim_col : string * string) :
  cell_or_nan "Company" (<["value" := v]> (breakdown_record e dim_col)) = name_cell e
  /\ cell_or_nan "ESG Dimension" (<["value" := v]> (breakdown_record e dim_col))
     = Str (fst dim_col)
  /\ cell_or_nan "ESG Level" (<["value" := v]> (breakdown_record e dim_col))
     = esg_level_cell e
  /\ cell_or_nan "Business Risk Level" (<["value" := v]> (breakdown_record e dim_col))
     = level_cell e
  /\ cell_or_nan "Score" (breakdown_record e dim_col) = cell_or_nan (snd dim_col) e.
Proof. unfold cell_or_nan at 1 2 3 4 5, breakdown_record. by simplify_map_eq. Qed.

(** X12. The callback shows no figure when no company is kept, and creates no
    object. Otherwise it creates two objects, changes no other and draws a
    figure: nine links for each kept company, every thickness a score of a kept
    company, and as node labels, each once, the names of the kept companies, the
    three dimensions and the levels of the kept companies. *)
Theorem get_sankey_diagram_view (set_order : list value -> list value)
    (σ : list frame) (self : api) (company_names esg_levels biz_risks : list string) :
  set_iteration set_order ->
  breakdown_ready self company_names esg_levels ->
  (forall dim_col, dim_col ∈ dimensions -> snd dim_col ∈ columns (esg self)) ->
  (filter (kept_hierarchy company_names esg_levels biz_risks) (rows (esg self)) = [] ->
   get_sankey_diagram set_order self company_names esg_levels biz_risks σ
   = (σ, Ok NoVisualization))
  /\ (filter (kept_hierarchy company_names esg_levels biz_risks) (rows (esg self)) <> [] ->
      exists fig breakdown coded,
        get_sankey_diagram set_order self company_names esg_levels biz_risks σ
        = (σ ++ [breakdown; coded], Ok (Figure fig))
        /\ length (link_source fig)
           = (9 * length (filter (kept_hierarchy company_names esg_levels biz_risks)
                                 (rows (esg self))))%nat
        /\ length (link_target fig) = length (link_source fig)
        /\ length (link_value fig) = length (link_source fig)
        /\ NoDup (node_label fig)
        /\ (forall v, v ∈ link_value fig ->
              exists e dim_col,
                e ∈ rows (esg self)
                /\ kept_hierarchy company_names esg_levels biz_risks e
                /\ dim_col ∈ dimensions /\ e !! snd dim_col = Some v)
        /\ (forall l, l ∈ node_label fig
              <-> l ∈ [Str "Environmental"; Str "Social"; Str "Governance"]
                  \/ exists e,
                       e ∈ rows (esg self)
                       /\ kept_hierarchy company_names esg_levels biz_risks e
                       /\ (l = name_cell e \/ l = esg_level_cell e \/ l = level_cell e))).
Proof.
  intros Hset Hready Hdims.
  set (K := filter (kept_hierarchy company_names esg_levels biz_risks) (rows (esg self))).
  assert (Hbuild := build_esg_risk_hierarchy_Ok self company_names esg_levels biz_risks
                      Hready Hdims).
  fold K in Hbuild.
  set (cols := ["Company"; "ESG Dimension"; "ESG Level"; "Business Risk Level"]).
  split.
  - intros HK. unfold get_sankey_diagram.
    unfold mbind at 1. unfold action_bind, lift at 1. rewrite Hbuild, HK. reflexivity.
  - intros HK. destruct K as [|e0 K0] eqn:HKeq; [done|]. rewrite <- HKeq in *.
    set (bf := breakdown_frame (concat (breakdown_rows <$> K))) in *.
    assert (Hwf : wf_frame bf) by apply breakdown_frame_wf.
    assert (Hcolsbf : columns bf
                      = ["Company"; "ESG Dimension"; "ESG Level";
                         "Business Risk Level"; "Score"]).
    { unfold bf. rewrite HKeq. reflexivity. }
    assert (Hnonempty : frame_empty bf = false).
    { unfold frame_empty. rewrite Hcolsbf. unfold bf. rewrite HKeq. reflexivity. }
    assert (Hrowsbf : length (rows bf) = (3 * length K)%nat).
    { unfold bf. cbn [rows breakdown_frame].
      rewrite (length_concat_blocks _ 3); [by rewrite length_fmap|].
      apply Forall_fmap, Forall_forall. by intros e _. }
    assert (Hlook : (σ ++ [bf]) !! length σ = Some bf) by (by apply list_lookup_middle).
    assert (Hk4 : (2 <= length cols)%nat) by (simpl; lia).
    assert (Hcols4 : forall c, c ∈ cols -> c ∈ columns bf).
    { intros c Hc. rewrite Hcolsbf. unfold cols in Hc.
      repeat (apply elem_of_cons in Hc as [->|Hc]; [set_solver|]).
      by apply elem_of_nil in Hc. }
    assert (Hscore : vals_in_frame (Some "Score") bf).
    { intros c [= <-] _. rewrite Hcolsbf. set_solver. }
    pose proof (make_sankey_run set_order (σ ++ [bf]) (length σ) bf cols (Some "Score")
                  Hset Hlook Hwf Hk4 Hcols4 Hscore) as Hrun.
    assert (Hstore : <[length σ := sankey_written (Some "Score") bf]> (σ ++ [bf])
                       ++ [sankey_coded set_order (Some "Score") bf cols]
                     = σ ++ [sankey_written (Some "Score") bf;
                             sankey_coded set_order (Some "Score") bf cols]).
    { rewrite insert_app_r_alt by done. rewrite Nat.sub_diag. cbn [insert list_insert].
      by rewrite <- app_assoc. }
    rewrite Hstore in Hrun. clear Hstore.
    eexists _, (sankey_written (Some "Score") bf),
      (sankey_coded set_order (Some "Score") bf cols).
    split.
    { unfold get_sankey_diagram.
      unfold mbind at 1. unfold action_bind, lift at 1. rewrite Hbuild.
      fold bf. rewrite Hnonempty.
      unfold mbind at 1. unfold action_bind, new_object at 1.
      unfold mbind at 1. unfold action_bind. fold cols. rewrite Hrun.
      reflexivity. }
    cbn [link_source link_target link_value node_label].
    rewrite !length_fmap, length_sankey_stacked_rows, Hrowsbf.
    split; [simpl; lia|]. split; [done|]. split; [done|].
    split; [apply Hset|].
    assert (Hbf : forall r, r ∈ rows bf
              <-> exists e dc, e ∈ rows (esg self)
                    /\ kept_hierarchy company_names esg_levels biz_risks e
                    /\ dc ∈ dimensions /\ r = breakdown_record e dc).
    { intros r. unfold bf. cbn [rows breakdown_frame].
      rewrite elem_of_breakdown_rows. split.
      - intros (e & dc & [Hk He]%list_elem_of_filter & Hdc & ->). by exists e, dc.
      - intros (e & dc & He & Hk & Hdc & ->). exists e, dc.
        split; [|done]. apply list_elem_of_filter. by split. }
    destruct Hready as (Hwfe & _).
    split.
    + intros v (row & -> & Hrow)%list_elem_of_fmap.
      apply elem_of_sankey_stacked_rows in Hrow as (p & r & _ & Hr & ->).
      apply Hbf in Hr as (e & dc & He & Hk & Hdc & ->).
      exists e, dc. split; [done|]. split; [done|]. split; [done|].
      rewrite triple_value. unfold cell_or_nan at 1. rewrite lookup_insert_eq.
      cbn [default thickness_cell]. rewrite decide_False by done.
      destruct (breakdown_record_cells (Num (Int 0)) e dc) as (_ & _ & _ & _ & ->).
      destruct (wf_frame_cell _ (snd dc) e Hwfe He (Hdims dc Hdc)) as [v Hv].
      unfold cell_or_nan. by rewrite Hv.
    + intros l. rewrite elem_of_sankey_labels by done. split.
      * intros (p & r & Hp & Hr & Hl).
        apply Hbf in Hr as (e & dc & He & Hk & Hdc & ->).
        destruct (breakdown_record_cells
                    (thickness_cell (Some "Score") (breakdown_record e dc)) e dc)
          as (Hc1 & Hc2 & Hc3 & Hc4 & _).
        assert (Hdim : Str (fst dc) ∈ [Str "Environmental"; Str "Social"; Str "Governance"]).
        { unfold dimensions in Hdc.
          repeat (apply elem_of_cons in Hdc as [->|Hdc]; [set_solver|]).
          by apply elem_of_nil in Hdc. }
        unfold cols in Hp. cbn [zip zip_with tail] in Hp.
        repeat (apply elem_of_cons in Hp as [->|Hp];
                [cbn [fst snd] in Hl; rewrite ?Hc1, ?Hc2, ?Hc3, ?Hc4 in Hl;
                 destruct Hl as [-> | ->]; (by left) || (right; exists e; by auto)|]).
        by apply elem_of_nil in Hp.
      * assert (He0 : e0 ∈ K) by (rewrite HKeq; by left).
        apply list_elem_of_filter in He0 as [Hk0 He0].
        intros [Hl|(e & He & Hk & Hl)].
        -- assert (Hdc : exists dc, dc ∈ dimensions /\ l = Str (fst dc)).
           { apply elem_of_cons in Hl as [->|Hl].
             { exists ("Environmental", "environmentScore"). split; [by left|done]. }
             apply elem_of_cons in Hl as [->|Hl].
             { exists ("Social", "socialScore"). split; [by right; left|done]. }
             apply elem_of_cons in Hl as [->|Hl].
             { exists ("Governance", "governanceScore").
               split; [by right; right; left|done]. }
             by apply elem_of_nil in Hl. }
           destruct Hdc as (dc & Hdc & ->).
           exists ("Company", "ESG Dimension"), (breakdown_record e0 dc).
           split; [unfold cols; cbn [zip zip_with tail]; by left|].
           split; [apply Hbf; by exists e0, dc|].
           destruct (breakdown_record_cells
                       (thickness_cell (Some "Score") (breakdown_record e0 dc)) e0 dc)
             as (_ & Hc2 & _).
           right. cbn [fst snd]. by rewrite Hc2.
        -- set (dc := ("Environmental", "environmentScore")).
           assert (Hdc : dc ∈ dimensions) by (by left).
           destruct (breakdown_record_cells
                       (thickness_cell (Some "Score") (breakdown_record e dc)) e dc)
             as (Hc1 & Hc2 & Hc3 & Hc4 & _).
           destruct Hl as [-> | [-> | ->]].
           ++ exists ("Company", "ESG Dimension"), (breakdown_record e dc).
              split; [unfold cols; cbn [zip zip_with tail]; by left|].
              split; [apply Hbf; by exists e, dc|]. left. cbn [fst snd]. by rewrite Hc1.
           ++ exists ("ESG Dimension", "ESG Level"), (breakdown_record e dc).
              split; [unfold cols; cbn [zip zip_with tail]; set_solver|].
              split; [apply Hbf; by exists e, dc|]. right. cbn [fst snd]. by rewrite Hc3.
           ++ exists ("ESG Level", "Business Risk Level"), (breakdown_record e dc).
              split; [unfold cols; cbn [zip zip_with tail]; set_solver|].
              split; [apply Hbf; by exists e, dc|]. right. cbn [fst snd]. by rewrite Hc4.
Qed.

Lemma get_sankey_diagram_view_witness :
  exists fig breakdown coded,
    get_sankey_diagram remove_dups sample_scored_api ["Alpha"] [] [] []
    = ([breakdown; coded], Ok (Figure fig))
    /\ length (link_source fig) = 9%nat
    /\ NoDup (node_label fig).
Proof.
  destruct (get_sankey_diagram_view remove_dups [] sample_scored_api ["Alpha"] [] [])
    as [_ Hfig].
  - exact remove_dups_set_iteration.
  - apply sample_scored_api_ready.
  - apply sample_scored_api_scores.
  - destruct Hfig as (fig & breakdown & coded & Hrun & Hlen & _ & _ & Hnd & _).
    + vm_compute. discriminate.
    + exists fig, breakdown, coded. split; [exact Hrun|]. split; [exact Hlen | exact Hnd].
Defined.
(** ** [get_company_names] *)

Lemma string_leb_trans (a b c : string) :
  String.leb a b = true -> String.leb b c = true -> String.leb a c = true.
Proof.
  unfold String.leb.
  destruct (String.compare a b) eqn:Hab; [| |discriminate]; intros _.
  - apply String.compare_eq_iff in Hab. by rewrite Hab.
  - destruct (String.compare b c) eqn:Hbc; [| |discriminate]; intros _.
    + apply String.compare_eq_iff in Hbc. by rewrite <- Hbc, Hab.
    + by rewrite (string_compare_Lt_trans _ _ _ Hab Hbc).
Qed.

Lemma py_sorted_strings (sort_numbers : list num -> list num) (names : list string) :
  py_sorted sort_numbers (Str <$> names) = Ok (Str <$> sort_by String.leb names).
Proof.
  unfold py_sorted. by rewrite (mapM_fmap_Some as_string Str names).
Qed.

Lemma py_sorted_mixed (sort_numbers : list num -> list num) (l : list value)
    (s : string) (n : num) :
  Str s ∈ l -> Num n ∈ l -> py_sorted sort_numbers l = Err TypeError.
Proof.
  intros Hs Hn. unfold py_sorted.
  assert (H1 : mapM as_string l = None).
  { apply mapM_None, Exists_exists. by exists (Num n). }
  assert (H2 : mapM as_number l = None).
  { apply mapM_None, Exists_exists. by exists (Str s). }
  by rewrite H1, H2.
Qed.

(** X13. When every company has a name, the list of names is the [Full Name]
    column in ascending order: each name as often as rows carry it. *)
Theorem get_company_names_sorted (sort_numbers : list num -> list num) (self : api) :
  wf_frame (esg self) -> "Full Name" ∈ columns (esg self) ->
  (forall e, e ∈ rows (esg self) -> exists s, e !! "Full Name" = Some (Str s)) ->
  exists sorted,
    get_company_names sort_numbers self = Ok (Str <$> sorted)
    /\ Str <$> sorted ≡ₚ name_cell <$> rows (esg self)
    /\ (forall i j a b, (i < j)%nat -> sorted !! i = Some a -> sorted !! j = Some b ->
          String.compare a b <> Gt).
Proof.
  intros Hwf Hcol Hstr.
  set (names := (fun e => match name_cell e with Str s => s | Num _ => "" end)
                <$> rows (esg self)).
  assert (Hnames : name_cell <$> rows (esg self) = Str <$> names).
  { unfold names. rewrite <- list_fmap_compose. apply list_fmap_ext.
    intros i e He%list_elem_of_lookup_2. simpl.
    destruct (Hstr e He) as [s Hs]. unfold name_cell, cell_or_nan. by rewrite Hs. }
  exists (sort_by String.leb names). split; [|split].
  - unfold get_company_names. rewrite get_column_wf by done. cbn [mbind result_bind].
    change (cell_or_nan "Full Name" <$> rows (esg self))
      with (name_cell <$> rows (esg self)).
    rewrite Hnames. apply py_sorted_strings.
  - rewrite Hnames. apply fmap_Permutation, sort_by_Permutation.
  - intros i j a b Hij Ha Hb.
    pose proof (StronglySorted_lookup _ _ i j a b
                  (sort_by_sorted String.leb String.leb_total string_leb_trans names)
                  Hij Ha Hb) as Hle.
    simpl in Hle. unfold String.leb in Hle. intros Hgt. by rewrite Hgt in Hle.
Qed.

Lemma get_company_names_sorted_witness :
  exists sorted,
    get_company_names id sample_api = Ok (Str <$> sorted)
    /\ Str <$> sorted ≡ₚ name_cell <$> rows (esg sample_api).
Proof.
  destruct (get_company_names_sorted id sample_api) as (sorted & Hok & Hperm & _).
  - rewrite sample_api_esg. exact sample_esg_wf.
  - rewrite sample_api_esg. simpl. set_solver.
  - intros e He. rewrite sample_api_esg in He. simpl in He.
    repeat (apply elem_of_cons in He as [->|He]; [eexists; by vm_compute|]).
    by apply elem_of_nil in He.
  - exists sorted. split; [exact Hok | exact Hperm].
Defined.

(** X14. A table in which one company has a name and another has none, its cell
    holding a number as a missing cell does, has no list of names: sorting
    raises [TypeError]. *)
Theorem get_company_names_missing_name (sort_numbers : list num -> list num)
    (self : api) (e1 e2 : gmap string value) (s : string) (n : num) :
  wf_frame (esg self) -> "Full Name" ∈ columns (esg self) ->
  e1 ∈ rows (esg self) -> e1 !! "Full Name" = Some (Str s) ->
  e2 ∈ rows (esg self) -> e2 !! "Full Name" = Some (Num n) ->
  get_company_names sort_numbers self = Err TypeError.
Proof.
  intros Hwf Hcol He1 Hs He2 Hn.
  unfold get_company_names. rewrite get_column_wf by done. cbn [mbind result_bind].
  apply (py_sorted_mixed sort_numbers _ s n); apply list_elem_of_fmap.
  - exists e1. split; [|done]. unfold cell_or_nan. by rewrite Hs.
  - exists e2. split; [|done]. unfold cell_or_nan. by rewrite Hn.
Qed.

Lemma sample_esg_unnamed_wf : wf_frame sample_esg_unnamed.
Proof. apply wf_frame_dom. repeat constructor; by vm_compute. Qed.

Lemma get_company_names_missing_name_witness :
  get_company_names id {| esg := sample_esg_unnamed; stocks := [] |} = Err TypeError.
Proof.
  apply (get_company_names_missing_name id {| esg := sample_esg_unnamed; stocks := [] |}
           {[ "Symbol" := Str "A"; "Full Name" := Str "Alpha";
              "totalEsg" := Num (Float 25); "overallRisk" := Num (Int 3) ]}
           {[ "Symbol" := Str "C"; "Full Name" := Num (Float nan);
              "totalEsg" := Num (Float 18); "overallRisk" := Num (Int 5) ]}
           "Alpha" (Float nan)).
  - exact sample_esg_unnamed_wf.
  - simpl. set_solver.
  - simpl. set_solver.
  - by vm_compute.
  - simpl. set_solver.
  - by vm_compute.
Defined.
(** ** Dictionaries built from two columns *)

Lemma dict_get_set (k k' v : value) (d : dict) :
  dict_get k (dict_set k' v d) = if decide (k = k') then Some v else dict_get k d.
Proof.
  induction d as [|[k0 v0] d IH]; simpl.
  - by destruct (decide (k = k')).
  - destruct (decide (k' = k0)) as [->|Hne]; simpl.
    + by destruct (decide (k = k0)).
    + destruct (decide (k = k0)) as [->|Hne'].
      * by rewrite decide_False by done.
      * exact IH.
Qed.

Lemma dict_get_foldl_last (kvs : list (value * value)) (d : dict) (i : nat)
    (k v : value) :
  kvs !! i = Some (k, v) ->
  (forall j v', (i < j)%nat -> kvs !! j <> Some (k, v')) ->
  dict_get k (foldl (fun d kv => dict_set (fst kv) (snd kv) d) d kvs) = Some v.
Proof.
  revert i. induction kvs as [|[k' v'] kvs IH] using rev_ind; intros i Hi Hlast.
  { done. }
  rewrite foldl_app. simpl. rewrite dict_get_set.
  destruct (decide (i = length kvs)) as [->|Hne].
  - rewrite list_lookup_middle in Hi by done. injection Hi as -> ->.
    by rewrite decide_True.
  - assert (Hlt : (i < length kvs)%nat).
    { apply lookup_lt_Some in Hi. rewrite length_app in Hi. simpl in Hi. lia. }
    rewrite lookup_app_l in Hi by done.
    rewrite decide_False.
    + apply (IH i Hi). intros j w Hj Hjw. apply (Hlast j w Hj).
      rewrite lookup_app_l; [done|]. by eapply lookup_lt_Some.
    + intros ->. apply (Hlast (length kvs) v' Hlt).
      by rewrite list_lookup_middle.
Qed.

Lemma last_occurrence (k : value) (ks : list value) :
  k ∈ ks ->
  exists i, ks !! i = Some k /\ forall j, (i < j)%nat -> ks !! j <> Some k.
Proof.
  induction ks as [|k0 ks IH]; intros Hk; [by apply elem_of_nil in Hk|].
  destruct (decide (k ∈ ks)) as [Hin|Hout].
  - destruct (IH Hin) as (i & Hi & Hlast). exists (S i). split; [done|].
    intros j Hj. destruct j as [|j]; [lia|]. simpl. apply Hlast. lia.
  - apply elem_of_cons in Hk as [->|Hk]; [|done].
    exists 0%nat. split; [done|]. intros j Hj Hkj.
    destruct j as [|j]; [lia|]. simpl in Hkj.
    by apply Hout, (list_elem_of_lookup_2 _ j).
Qed.

Lemma dict_get_of_zip_last (ks vs : list value) (i : nat) (k : value) :
  length ks = length vs -> ks !! i = Some k ->
  (forall j, (i < j)%nat -> ks !! j <> Some k) ->
  exists v, vs !! i = Some v /\ dict_get k (dict_of_zip ks vs) = Some v.
Proof.
  intros Hlen Hi Hlast.
  destruct (lookup_lt_is_Some_2 vs i) as [v Hv].
  { rewrite <- Hlen. by eapply lookup_lt_Some. }
  exists v. split; [done|]. unfold dict_of_zip.
  apply (dict_get_foldl_last _ _ i).
  - apply lookup_zip_with_Some. by exists k, v.
  - intros j v' Hj Hjv. apply lookup_zip_with_Some in Hjv as (k' & w & [= <- <-] & Hk' & _).
    by apply (Hlast j Hj).
Qed.

(** ** What [read_data] stores *)

Section LoadedState.

Variable parse_number : string -> option num.
Variable to_datetime : list string -> result (list Z).

Lemma read_data_esg_rows (esg_csv : frame) (stocks_csv : wide_table) (a : api) :
  read_data parse_number to_datetime esg_csv stocks_csv = Ok a ->
  columns (esg a) = columns esg_csv
  /\ length (rows (esg a)) = length (rows esg_csv)
  /\ forall i e0, rows esg_csv !! i = Some e0 ->
       exists e n,
         rows (esg a) !! i = Some e
         /\ e !! "totalEsg" = Some (Num n)
         /\ (e0 !! "totalEsg" = Some (Num n)
             \/ exists s, e0 !! "totalEsg" = Some (Str s) /\ parse_number s = Some n)
         /\ forall c, c <> "totalEsg" -> e !! c = e0 !! c.
Proof.
  intros Ha. apply read_data_Ok in Ha
    as (cells & total & symbols & names & ds & dates
        & Hcells & Htotal & Hesg & _).
  apply get_column_Ok in Hcells as [Hcol Hcells].
  apply mapM_Ok_Forall2 in Htotal.
  assert (Hlen1 : length (rows esg_csv) = length cells) by (by eapply Forall2_length).
  assert (Hlen2 : length cells = length total) by (by eapply Forall2_length).
  rewrite Hesg. cbn [columns rows set_column]. rewrite decide_True by done.
  split; [done|]. split.
  - rewrite length_zip_with, length_fmap. lia.
  - intros i e0 He0.
    destruct (Forall2_lookup_l _ _ _ _ _ Hcells He0) as (v & Hv & Hcell).
    destruct (Forall2_lookup_l _ _ _ _ _ Htotal Hv) as (n & Hn & Hnum).
    exists (<["totalEsg" := Num n]> e0), n. split; [|split; [|split]].
    + apply lookup_zip_with_Some. exists e0, (Num n).
      split; [done|]. split; [done|]. by rewrite list_lookup_fmap, Hn.
    + by rewrite lookup_insert_eq.
    + unfold to_numeric in Hnum. destruct v as [n'|s].
      * injection Hnum as ->. by left.
      * right. exists s. split; [done|].
        destruct (parse_number s) as [n'|]; [|discriminate]. by injection Hnum as ->.
    + intros c Hc. by rewrite lookup_insert_ne.
Qed.

(** X15. A successful load changes the ESG table in its [totalEsg] column only:
    the columns and the number of rows are the file's, every [totalEsg] cell is
    a number, the file's or the one read from its text, and every other cell is
    the file's. *)
Theorem read_data_esg_table (esg_csv : frame) (stocks_csv : wide_table) (a : api) :
  read_data parse_number to_datetime esg_csv stocks_csv = Ok a ->
  columns (esg a) = columns esg_csv
  /\ length (rows (esg a)) = length (rows esg_csv)
  /\ forall i e0, rows esg_csv !! i = Some e0 ->
       exists e n,
         rows (esg a) !! i = Some e
         /\ e !! "totalEsg" = Some (Num n)
         /\ (e0 !! "totalEsg" = Some (Num n)
             \/ exists s, e0 !! "totalEsg" = Some (Str s) /\ parse_number s = Some n)
         /\ forall c, c <> "totalEsg" -> e !! c = e0 !! c.
Proof. exact (read_data_esg_rows esg_csv stocks_csv a). Qed.

Lemma read_data_stock_name (esg_csv : frame) (stocks_csv : wide_table)
    (a : api) (r : stock_row) :
  read_data parse_number to_datetime esg_csv stocks_csv = Ok a -> r ∈ stocks a ->
  exists i e,
    rows (esg a) !! i = Some e
    /\ e !! "Symbol" = Some (Str (Symbol r))
    /\ e !! "Full Name" = Some (Full_Name r)
    /\ forall j e', (i < j)%nat -> rows (esg a) !! j = Some e' ->
                    e' !! "Symbol" <> Some (Str (Symbol r)).
Proof.
  intros Ha Hr. apply read_data_Ok in Ha
    as (cells & total & symbols & names & ds & dates
        & _ & _ & _ & Hsymbols & Hnames & _ & _ & _ & Hstocks).
  rewrite Hstocks in Hr. apply list_elem_of_fmap in Hr as (m & -> & Hm).
  apply list_elem_of_filter in Hm as [Hkey _]. cbn [Symbol Full_Name].
  set (sym := snd (fst m)) in *.
  apply get_column_Ok in Hsymbols as [_ Hsymbols].
  apply get_column_Ok in Hnames as [_ Hnames].
  assert (Hlen : length symbols = length names).
  { rewrite <- (Forall2_length _ _ _ Hsymbols). by eapply Forall2_length. }
  apply dict_get_key, dict_of_zip_keys, last_occurrence in Hkey as (i & Hi & Hlast).
  destruct (dict_get_of_zip_last symbols names i (Str sym) Hlen Hi Hlast)
    as (v & Hv & Hget).
  destruct (Forall2_lookup_r _ _ _ _ _ Hsymbols Hi) as (e & He & Hsym).
  destruct (Forall2_lookup_l _ _ _ _ _ Hnames He) as (v' & Hv' & Hname).
  assert (v' = v) as -> by congruence.
  exists i, e. split; [done|]. split; [done|]. split.
  - unfold map_dict. by rewrite Hget.
  - intros j e' Hj He' Hsym'.
    destruct (Forall2_lookup_l _ _ _ _ _ Hsymbols He') as (k & Hk & Hcell).
    apply (Hlast j Hj). congruence.
Qed.

(** X16. After a successful load, the name a stock row carries is the [Full
    Name] cell of the last row of the ESG table that has the row's symbol. *)
Theorem read_data_last_name_wins (esg_csv : frame) (stocks_csv : wide_table)
    (a : api) (r : stock_row) :
  read_data parse_number to_datetime esg_csv stocks_csv = Ok a -> r ∈ stocks a ->
  exists i e,
    rows (esg a) !! i = Some e
    /\ e !! "Symbol" = Some (Str (Symbol r))
    /\ e !! "Full Name" = Some (Full_Name r)
    /\ forall j e', (i < j)%nat -> rows (esg a) !! j = Some e' ->
                    e' !! "Symbol" <> Some (Str (Symbol r)).
Proof. exact (read_data_stock_name esg_csv stocks_csv a r). Qed.

End LoadedState.

Lemma read_data_esg_table_witness :
  columns (esg sample_api) = columns sample_esg
  /\ length (rows (esg sample_api)) = length (rows sample_esg).
Proof.
  destruct (read_data_esg_table sample_parse_number sample_to_datetime
              sample_esg sample_prices sample_api sample_api_loaded)
    as (Hcols & Hlen & _).
  split; [exact Hcols | exact Hlen].
Defined.

Lemma read_data_last_name_wins_witness :
  exists i e,
    rows (esg sample_api) !! i = Some e
    /\ e !! "Symbol" = Some (Str "A")
    /\ e !! "Full Name" = Some (Str "Alpha").
Proof.
  destruct (read_data_last_name_wins sample_parse_number sample_to_datetime
              sample_esg sample_prices sample_api
              {| Date := day 19360; Symbol := "A"; Price := 100;
                 Full_Name := Str "Alpha" |} sample_api_loaded)
    as (i & e & He & Hsym & Hname & _).
  - apply list_elem_of_In. vm_compute. left. reflexivity.
  - exists i, e. split; [exact He|]. split; [exact Hsym | exact Hname].
Defined.

(** ** A company, by its symbol *)

Lemma filter_iff_elem_of {A} (P1 P2 : A -> Prop)
    `{!forall x, Decision (P1 x), !forall x, Decision (P2 x)} (l : list A) :
  (forall x, x ∈ l -> P1 x <-> P2 x) -> filter P1 l = filter P2 l.
Proof.
  induction l as [|a l IH]; intros Hiff; [done|].
  rewrite !(filter_cons _ a), IH.
  2:{ intros x Hx. apply Hiff. by right. }
  destruct (decide (P1 a)) as [H1|H1].
  - rewrite decide_True; [done|]. apply Hiff; [by left|done].
  - rewrite decide_False; [done|]. intros H2. apply H1, Hiff; [by left|done].
Qed.

(** In a list in ascending order the head is below, and the last element
    above, every element. *)
Lemma StronglySorted_head {A} (R : A -> A -> Prop) (l : list A) (h x : A) :
  StronglySorted R l -> head l = Some h -> x ∈ l -> x = h \/ R h x.
Proof.
  intros Hs Hh Hx. destruct l as [|y l]; [done|]. injection Hh as ->.
  apply StronglySorted_inv in Hs as [_ Hall].
  apply elem_of_cons in Hx as [->|Hx]; [by left|].
  right. rewrite Forall_forall in Hall. by apply Hall.
Qed.

Lemma StronglySorted_last {A} (R : A -> A -> Prop) (l : list A) (h x : A) :
  StronglySorted R l -> last l = Some h -> x ∈ l -> x = h \/ R x h.
Proof.
  induction 1 as [|y l Hl IH Hy]; [done|].
  intros Hh Hx. destruct l as [|z l].
  - injection Hh as <-. left. by apply list_elem_of_singleton in Hx.
  - rewrite last_cons_cons in Hh. apply elem_of_cons in Hx as [->|Hx].
    + right. rewrite Forall_forall in Hy. apply Hy. by apply last_Some_elem_of.
    + by apply IH.
Qed.

Lemma StronglySorted_filter {A} (R : A -> A -> Prop) (P : A -> Prop)
    `{!forall x, Decision (P x)} (l : list A) :
  StronglySorted R l -> StronglySorted R (filter P l).
Proof.
  induction 1 as [|x l Hl IH Hx]; [constructor|].
  rewrite (filter_cons _ x). destruct (decide (P x)); [|done].
  constructor; [done|].
  apply Forall_forall. intros y [_ Hy]%list_elem_of_filter.
  rewrite Forall_forall in Hx. by apply Hx.
Qed.

Lemma date_le_total (a b : trend_row) : date_le a b = true \/ date_le b a = true.
Proof.
  unfold date_le. destruct (Z.leb_spec (trend_date a) (trend_date b)); [by left|].
  right. apply Z.leb_le. lia.
Qed.

Lemma date_le_trans (a b c : trend_row) :
  date_le a b = true -> date_le b c = true -> date_le a c = true.
Proof. unfold date_le. rewrite !Z.leb_le. lia. Qed.

(** The valid prices of a series in chronological order are the prices of
    its priced rows in chronological order. *)
Lemma valid_prices_sorted (l : list trend_row) :
  valid_prices (trend_price <$> sort_by date_le l)
  = trend_price <$> filter (fun t => is_nan (trend_price t) = false)
                           (sort_by date_le l).
Proof. unfold valid_prices. by rewrite filter_fmap_list. Qed.

Lemma head_fmap_list {A B} (f : A -> B) (l : list A) : head (f <$> l) = f <$> head l.
Proof. by destruct l. Qed.

(** The first valid price of a series is the price of its earliest priced
    row, and the last valid price the price of its latest priced row. *)
Lemma first_valid_earliest (l : list trend_row) (t : trend_row) :
  t ∈ l -> is_nan (trend_price t) = false ->
  (forall t', t' ∈ l -> is_nan (trend_price t') = false ->
              trend_price t' = trend_price t \/ trend_date t < trend_date t') ->
  first_valid (trend_price <$> sort_by date_le l) = trend_price t.
Proof.
  intros Ht Hp Hfirst. unfold first_valid. rewrite valid_prices_sorted, head_fmap_list.
  set (V := filter (fun t => is_nan (trend_price t) = false) (sort_by date_le l)).
  assert (HtV : t ∈ V).
  { apply list_elem_of_filter. split; [done|]. by apply elem_of_sort_by. }
  assert (Hs : StronglySorted (fun a b => date_le a b = true) V).
  { apply StronglySorted_filter, sort_by_sorted;
      [exact date_le_total|exact date_le_trans]. }
  destruct (head V) as [h|] eqn:Hh.
  2:{ apply head_None in Hh. rewrite Hh in HtV. by apply elem_of_nil in HtV. }
  simpl.
  assert (HhV : h ∈ V) by (by apply head_Some_elem_of).
  apply list_elem_of_filter in HhV as [Hhp Hhl]. apply elem_of_sort_by in Hhl.
  destruct (Hfirst h Hhl Hhp) as [Heq|Hlt]; [done|].
  destruct (StronglySorted_head _ V h t Hs Hh HtV) as [->|Hle]; [done|].
  unfold date_le in Hle. apply Z.leb_le in Hle. lia.
Qed.

Lemma last_valid_latest (l : list trend_row) (t : trend_row) :
  t ∈ l -> is_nan (trend_price t) = false ->
  (forall t', t' ∈ l -> is_nan (trend_price t') = false ->
              trend_price t' = trend_price t \/ trend_date t' < trend_date t) ->
  last_valid (trend_price <$> sort_by date_le l) = trend_price t.
Proof.
  intros Ht Hp Hlast. unfold last_valid. rewrite valid_prices_sorted, fmap_last.
  set (V := filter (fun t => is_nan (trend_price t) = false) (sort_by date_le l)).
  assert (HtV : t ∈ V).
  { apply list_elem_of_filter. split; [done|]. by apply elem_of_sort_by. }
  assert (Hs : StronglySorted (fun a b => date_le a b = true) V).
  { apply StronglySorted_filter, sort_by_sorted;
      [exact date_le_total|exact date_le_trans]. }
  destruct (last V) as [h|] eqn:Hh.
  2:{ apply last_None in Hh. rewrite Hh in HtV. by apply elem_of_nil in HtV. }
  simpl.
  assert (HhV : h ∈ V) by (by apply last_Some_elem_of).
  apply list_elem_of_filter in HhV as [Hhp Hhl]. apply elem_of_sort_by in Hhl.
  destruct (Hlast h Hhl Hhp) as [Heq|Hlt]; [done|].
  destruct (StronglySorted_last _ V h t Hs Hh HtV) as [->|Hle]; [done|].
  unfold date_le in Hle. apply Z.leb_le in Hle. lia.
Qed.

Section Companies.

Variable parse_number : string -> option num.
Variable to_datetime : list string -> result (list Z).

(** After a load the stock rows of a name that belongs to one symbol are rows
    of that symbol, and the rows of a symbol that has one name carry it. *)
Lemma loaded_name_rows (esg_csv : frame) (stocks_csv : wide_table) (self : api)
    (sym name : string) (r : stock_row) :
  read_data parse_number to_datetime esg_csv stocks_csv = Ok self ->
  name_of_one_symbol self sym name ->
  r ∈ stocks self -> Full_Name r = Str name -> Symbol r = sym.
Proof.
  intros Hload Hone Hr Hname.
  destruct (read_data_stock_name parse_number to_datetime esg_csv stocks_csv self r
              Hload Hr) as (i & e & Hi & Hsym & Hfull & _).
  rewrite Hname in Hfull.
  pose proof (Hone e (list_elem_of_lookup_2 _ _ _ Hi) Hfull) as Hsym'.
  congruence.
Qed.

Lemma loaded_symbol_rows (esg_csv : frame) (stocks_csv : wide_table) (self : api)
    (sym name : string) (r : stock_row) :
  read_data parse_number to_datetime esg_csv stocks_csv = Ok self ->
  symbol_of_one_name self sym name ->
  r ∈ stocks self -> Symbol r = sym -> Full_Name r = Str name.
Proof.
  intros Hload Hone Hr Hsym.
  destruct (read_data_stock_name parse_number to_datetime esg_csv stocks_csv self r
              Hload Hr) as (i & e & Hi & Hsym' & Hfull & _).
  rewrite Hsym in Hsym'.
  pose proof (Hone e (list_elem_of_lookup_2 _ _ _ Hi) Hsym') as Hfull'.
  congruence.
Qed.

Lemma price_rows_of_company (esg_csv : frame) (stocks_csv : wide_table) (self : api)
    (sym name : string) (start_date end_date : option Z) :
  read_data parse_number to_datetime esg_csv stocks_csv = Ok self ->
  name_of_one_symbol self sym name -> symbol_of_one_name self sym name ->
  price_rows self name start_date end_date = symbol_rows self sym start_date end_date.
Proof.
  intros Hload Hname Hsym. unfold price_rows, symbol_rows.
  apply filter_iff_elem_of. intros r Hr. split; intros [H1 H2]; (split; [|done]).
  - by eapply loaded_name_rows.
  - by eapply loaded_symbol_rows.
Qed.

(** The return of the series of a company's rows that has a priced row. *)
Lemma reported_return_of_rows (self : api) (sym name : string)
    (start_date end_date : option Z) (first_row last_row : stock_row) :
  price_rows self name start_date end_date = symbol_rows self sym start_date end_date ->
  first_row ∈ symbol_rows self sym start_date end_date ->
  is_nan (Price first_row) = false ->
  last_row ∈ symbol_rows self sym start_date end_date ->
  is_nan (Price last_row) = false ->
  (forall r, r ∈ symbol_rows self sym start_date end_date ->
             is_nan (Price r) = false ->
             (r = first_row \/ Date first_row < Date r)
             /\ (r = last_row \/ Date r < Date last_row)) ->
  reported_return self name start_date end_date
  = ((Price last_row - Price first_row) / Price first_row * 100)%float.
Proof.
  intros Hrows Hfirst Hfp Hlast Hlp Hext.
  assert (Hcols : forall r, r ∈ symbol_rows self sym start_date end_date ->
            trend_columns r = Some {| trend_date := Date r; trend_name := name;
                                      trend_price := Price r |}).
  { intros r Hr. rewrite <- Hrows in Hr.
    apply list_elem_of_filter in Hr as [[Hn _] _].
    unfold trend_columns. by rewrite Hn. }
  assert (Hin : forall r, r ∈ symbol_rows self sym start_date end_date ->
            {| trend_date := Date r; trend_name := name; trend_price := Price r |}
            ∈ omap trend_columns (symbol_rows self sym start_date end_date)).
  { intros r Hr. apply list_elem_of_omap. exists r. split; [done|]. by apply Hcols. }
  assert (Hout : forall t,
            t ∈ omap trend_columns (symbol_rows self sym start_date end_date) ->
            exists r, r ∈ symbol_rows self sym start_date end_date
                      /\ trend_date t = Date r /\ trend_price t = Price r).
  { intros t (r & Hr & Ht)%list_elem_of_omap. exists r. split; [done|].
    rewrite (Hcols r Hr) in Ht. by injection Ht as <-. }
  unfold reported_return, series_prices, company_series. rewrite Hrows.
  rewrite (first_valid_earliest _ _ (Hin first_row Hfirst) Hfp).
  2:{ intros t (r & Hr & Hd & Hp)%Hout Hnan. rewrite Hd, Hp. rewrite Hp in Hnan.
      destruct (Hext r Hr Hnan) as [[->|Hlt] _]; [by left|by right]. }
  rewrite (last_valid_latest _ _ (Hin last_row Hlast) Hlp).
  2:{ intros t (r & Hr & Hd & Hp)%Hout Hnan. rewrite Hd, Hp. rewrite Hp in Hnan.
      destruct (Hext r Hr Hnan) as [_ [->|Hlt]]; [by left|by right]. }
  reflexivity.
Qed.

(** C1, amended. Take a company of a loaded state: a record of the ESG
    table whose name belongs to its symbol only and whose symbol has this
    name only.  When the company is selected and passes the risk filter, and
    its price rows within the inclusive date range hold a price, the result
    has a row of its name, and the [Stock Return] of each such row is
    (last - first) / first * 100 in [float64] arithmetic, where first and last
    are the prices of the earliest and of the latest row of the company within
    the range that hold a price (rows without a price are passed over). *)
Theorem stock_return_first_last_valid (esg_csv : frame) (stocks_csv : wide_table)
    (self : api) (company_names : list string) (start_date end_date : option Z)
    (biz_risks : list string) (entry : gmap string value) (sym name : string)
    (first_row last_row : stock_row) :
  read_data parse_number to_datetime esg_csv stocks_csv = Ok self ->
  analysable self company_names ->
  entry ∈ rows (esg self) ->
  entry !! "Symbol" = Some (Str sym) ->
  entry !! "Full Name" = Some (Str name) ->
  name_of_one_symbol self sym name ->
  symbol_of_one_name self sym name ->
  kept company_names biz_risks entry ->
  first_row ∈ symbol_rows self sym start_date end_date ->
  is_nan (Price first_row) = false ->
  last_row ∈ symbol_rows self sym start_date end_date ->
  is_nan (Price last_row) = false ->
  (forall r, r ∈ symbol_rows self sym start_date end_date ->
             is_nan (Price r) = false ->
             (r = first_row \/ Date first_row < Date r)
             /\ (r = last_row \/ Date r < Date last_row)) ->
  exists out,
    analyze_esg_vs_stock_returns self company_names start_date end_date biz_risks
    = Ok out
    /\ (exists row, row ∈ out /\ analysis_name row = Str name)
    /\ forall row, row ∈ out -> analysis_name row = Str name ->
         Stock_Return row
         = ((Price last_row - Price first_row) / Price first_row * 100)%float.
Proof.
  intros Hload Han He _ Hname Hone Hone' Hkept Hfirst Hfp Hlast Hlp Hext.
  pose proof (price_rows_of_company esg_csv stocks_csv self sym name
                start_date end_date Hload Hone Hone') as Hrows.
  eexists. split; [by apply analyze_output|].
  assert (Hne : price_rows self name start_date end_date <> []).
  { rewrite Hrows. intros Hnil. rewrite Hnil in Hfirst. by apply elem_of_nil in Hfirst. }
  destruct (analyze_rows_of_name self company_names start_date end_date biz_risks
              entry name He Hname Hkept Hne) as [Hex Hret].
  split; [exact Hex|].
  intros row Hrow Hrn. rewrite (Hret row Hrow Hrn).
  by apply (reported_return_of_rows self sym name start_date end_date
              first_row last_row).
Qed.


End Companies.

(** Each of the two companies of the sample has its name under its symbol
    only, and its symbol under its name only. *)
Lemma sample_company (sym name : string) :
  (sym, name) = ("A", "Alpha") \/ (sym, name) = ("B", "Beta") ->
  name_of_one_symbol sample_api sym name /\ symbol_of_one_name sample_api sym name.
Proof.
  unfold name_of_one_symbol, symbol_of_one_name. rewrite sample_api_esg.
  intros Hpair.
  assert (Hrows : forall e, e ∈ rows sample_esg ->
            (e !! "Symbol" = Some (Str "A") /\ e !! "Full Name" = Some (Str "Alpha"))
            \/ (e !! "Symbol" = Some (Str "B") /\ e !! "Full Name" = Some (Str "Beta"))).
  { intros e He. simpl in He.
    apply elem_of_cons in He as [->|He]; [left; by vm_compute|].
    apply elem_of_cons in He as [->|He]; [right; by vm_compute|].
    by apply elem_of_nil in He. }
  split; intros e He Hcell; destruct (Hrows e He) as [[Hs Hn]|[Hs Hn]];
    destruct Hpair as [Hpair|Hpair]; injection Hpair as -> ->; congruence.
Qed.

Lemma sample_api_shared_name_loaded :
  read_data sample_parse_number sample_to_datetime sample_esg_shared_name sample_prices
  = Ok sample_api_shared_name.
Proof. by vm_compute. Qed.


Lemma stock_return_first_last_valid_witness :
  (exists out,
     analyze_esg_vs_stock_returns sample_api ["Alpha"] None None [] = Ok out
     /\ (exists row, row ∈ out /\ analysis_name row = Str "Alpha")
     /\ forall row, row ∈ out -> analysis_name row = Str "Alpha" ->
          Stock_Return row = 21%float)
  /\ (exists out,
        analyze_esg_vs_stock_returns sample_api ["Alpha"; "Beta"]
          (Some (day 19361)) None ["Low Business Risk"] = Ok out
        /\ (exists row, row ∈ out /\ analysis_name row = Str "Alpha")
        /\ forall row, row ∈ out -> analysis_name row = Str "Alpha" ->
             Stock_Return row = ((121 - 110) / 110 * 100)%float).
Proof.
  split.
  - apply (stock_return_first_last_valid sample_parse_number sample_to_datetime
             sample_esg sample_prices sample_api ["Alpha"] None None []
             {[ "Symbol" := Str "A"; "Full Name" := Str "Alpha";
                "totalEsg" := Num (Float 25); "overallRisk" := Num (Int 3) ]}
             "A" "Alpha"
             {| Date := day 19360; Symbol := "A"; Price := 100;
                Full_Name := Str "Alpha" |}
             {| Date := day 19362; Symbol := "A"; Price := 121;
                Full_Name := Str "Alpha" |}).
    + exact sample_api_loaded.
    + apply sample_api_analysable.
    + rewrite sample_api_esg. by left.
    + reflexivity.
    + reflexivity.
    + apply sample_company. by left.
    + apply sample_company. by left.
    + by vm_compute.
    + apply list_elem_of_In. vm_compute. by left.
    + reflexivity.
    + apply list_elem_of_In. vm_compute. right. right. by left.
    + reflexivity.
    + intros r Hr _. apply list_elem_of_In in Hr. vm_compute in Hr.
      destruct Hr as [<-|[<-|[<-|[]]]]; cbn [Date]; unfold day; split;
        first [by left | right; lia].
  - apply (stock_return_first_last_valid sample_parse_number sample_to_datetime
             sample_esg sample_prices sample_api ["Alpha"; "Beta"]
             (Some (day 19361)) None ["Low Business Risk"]
             {[ "Symbol" := Str "A"; "Full Name" := Str "Alpha";
                "totalEsg" := Num (Float 25); "overallRisk" := Num (Int 3) ]}
             "A" "Alpha"
             {| Date := day 19361; Symbol := "A"; Price := 110;
                Full_Name := Str "Alpha" |}
             {| Date := day 19362; Symbol := "A"; Price := 121;
                Full_Name := Str "Alpha" |}).
    + exact sample_api_loaded.
    + apply sample_api_analysable.
    + rewrite sample_api_esg. by left.
    + reflexivity.
    + reflexivity.
    + apply sample_company. by left.
    + apply sample_company. by left.
    + by vm_compute.
    + apply list_elem_of_In. vm_compute. by left.
    + reflexivity.
    + apply list_elem_of_In. vm_compute. right. by left.
    + reflexivity.
    + intros r Hr _. apply list_elem_of_In in Hr. vm_compute in Hr.
      destruct Hr as [<-|[<-|[]]]; cbn [Date]; unfold day; split;
        first [by left | right; lia].
Defined.

(** Over the last two days of the sample the first company goes from 110 to
    121: a return of 10 percent. *)
Example sample_return_from_second_day :
  analyze_esg_vs_stock_returns sample_api ["Alpha"] (Some (day 19361)) None []
  = Ok [ {| analysis_name := Str "Alpha"; analysis_totalEsg := Num (Float 25);
            Stock_Return := 10; Business_Risk_Level := Str "Low Business Risk" |} ].
Proof. by vm_compute. Qed.





(** The third company of this sample has no price row, and the result holds
    the first company only. *)
Example sample_unpriced_returns :
  symbol_rows sample_api_unpriced "E" None None = []
  /\ analyze_esg_vs_stock_returns sample_api_unpriced ["Alpha"; "Epsilon"] None None []
     = Ok [ {| analysis_name := Str "Alpha"; analysis_totalEsg := Num (Float 25);
               Stock_Return := 21; Business_Risk_Level := Str "Low Business Risk" |} ].
Proof. split; by vm_compute. Qed.

(** ** The long price table *)

Lemma elem_of_melt (dates : list Z) (tickers : list (string * list float))
    (m : melted_row) :
  m ∈ melt_rows dates tickers
  <-> exists col i t p,
        col ∈ tickers /\ dates !! i = Some t /\ snd col !! i = Some p
        /\ m = (t, fst col, p).
Proof.
  unfold melt_rows. rewrite list_elem_of_In, in_flat_map. split.
  - intros (col & Hcol%list_elem_of_In & Hm%list_elem_of_In).
    apply list_elem_of_lookup in Hm as [i Hi].
    apply lookup_zip_with_Some in Hi as (t & p & -> & Ht & Hp).
    by exists col, i, t, p.
  - intros (col & i & t & p & Hcol & Ht & Hp & ->).
    exists col. split; [by apply list_elem_of_In|].
    apply list_elem_of_In, (list_elem_of_lookup_2 _ i).
    apply lookup_zip_with_Some. by exists t, p.
Qed.

Section LoadedStocks.

Variable parse_number : string -> option num.
Variable to_datetime : list string -> result (list Z).

(** X17. After a successful load the stock table holds the cells of the price
    file under the tickers of the ESG file, and nothing else: every row is a
    date of the file (the timestamp the conversion of the [Date] column gives
    at a position), a ticker that is a symbol of the ESG file and the price in
    that column at that position, unchanged; and every such cell has its
    row. *)
Theorem read_data_stock_rows (esg_csv : frame) (stocks_csv : wide_table) (a : api) :
  read_data parse_number to_datetime esg_csv stocks_csv = Ok a ->
  (forall r, r ∈ stocks a ->
     exists ds dates col i e,
       date_column stocks_csv = Some ds /\ to_datetime ds = Ok dates
       /\ col ∈ ticker_columns stocks_csv
       /\ dates !! i = Some (Date r)
       /\ Symbol r = fst col /\ snd col !! i = Some (Price r)
       /\ e ∈ rows esg_csv /\ e !! "Symbol" = Some (Str (fst col)))
  /\ (forall ds dates col i t p e,
        date_column stocks_csv = Some ds -> to_datetime ds = Ok dates ->
        col ∈ ticker_columns stocks_csv ->
        dates !! i = Some t -> snd col !! i = Some p ->
        e ∈ rows esg_csv -> e !! "Symbol" = Some (Str (fst col)) ->
        exists r, r ∈ stocks a /\ Date r = t /\ Symbol r = fst col /\ Price r = p).
Proof.
  intros Ha.
  destruct (read_data_esg_rows parse_number to_datetime esg_csv stocks_csv a Ha)
    as (_ & Hlenrows & Hrows).
  apply read_data_Ok in Ha
    as (cells & total & symbols & names & ds & dates
        & _ & _ & _ & Hsymbols & Hnames & Hds & Hdates & _ & Hstocks).
  apply get_column_Ok in Hsymbols as [_ Hsymbols].
  apply get_column_Ok in Hnames as [_ Hnames].
  assert (Hlen : length symbols = length names).
  { rewrite <- (Forall2_length _ _ _ Hsymbols). by eapply Forall2_length. }
  split.
  - intros r Hr. rewrite Hstocks in Hr.
    apply list_elem_of_fmap in Hr as (m & -> & Hm).
    apply list_elem_of_filter in Hm as [Hkey Hm]. cbn [Date Symbol Price].
    apply elem_of_melt in Hm as (col & i & t & p & Hcol & Ht & Hp & ->).
    cbn [fst snd] in *.
    apply dict_get_key, dict_of_zip_keys in Hkey.
    apply list_elem_of_lookup in Hkey as [j Hj].
    destruct (Forall2_lookup_r _ _ _ _ _ Hsymbols Hj) as (e' & He' & Hsym).
    destruct (lookup_lt_is_Some_2 (rows esg_csv) j) as [e He].
    { rewrite <- Hlenrows. by eapply lookup_lt_Some. }
    exists ds, dates, col, i, e. repeat split; try done.
    + by eapply list_elem_of_lookup_2.
    + destruct (Hrows j e He) as (e'' & n & He'' & _ & _ & Hother).
      assert (e'' = e') as -> by congruence.
      rewrite <- Hother by done. exact Hsym.
  - intros ds' dates' col i t p e Hds' Hdates' Hcol Ht' Hp He Hsym.
    assert (ds' = ds) as -> by congruence.
    assert (dates' = dates) as -> by congruence.
    apply list_elem_of_lookup in He as [j Hj].
    destruct (Hrows j e Hj) as (e' & n & He' & _ & _ & Hother).
    destruct (Forall2_lookup_l _ _ _ _ _ Hsymbols He') as (k & Hk & Hcell).
    rewrite Hother in Hcell by done.
    assert (k = Str (fst col)) as -> by congruence.
    apply list_elem_of_lookup_2, last_occurrence in Hk as (j' & Hj' & Hlast).
    destruct (dict_get_of_zip_last symbols names j' _ Hlen Hj' Hlast) as (v & _ & Hget).
    eexists. split.
    + rewrite Hstocks. apply list_elem_of_fmap. exists (t, fst col, p).
      split; [reflexivity|]. apply list_elem_of_filter. split.
      * cbn [fst snd]. by rewrite Hget.
      * apply elem_of_melt. by exists col, i, t, p.
    + done.
Qed.

End LoadedStocks.

Lemma read_data_stock_rows_witness :
  exists r, r ∈ stocks sample_api /\ Date r = day 19361 /\ Symbol r = "B"
            /\ Price r = 100%float.
Proof.
  destruct (read_data_stock_rows sample_parse_number sample_to_datetime
              sample_esg sample_prices sample_api sample_api_loaded) as [_ Hcell].
  apply (Hcell ["2023-01-03"; "2023-01-04"; "2023-01-05"]
           [day 19360; day 19361; day 19362]
           ("B", [nan; 100; 110]%float) 1%nat (day 19361) 100%float
           {[ "Symbol" := Str "B"; "Full Name" := Str "Beta";
              "totalEsg" := Num (Float 31); "overallRisk" := Num (Int 7) ]}).
  - reflexivity.
  - by vm_compute.
  - simpl. set_solver.
  - reflexivity.
  - reflexivity.
  - simpl. set_solver.
  - by vm_compute.
Defined.
(** ** Price trends: narrowing a selection *)

Lemma filter_omap {A B} (f : A -> option B) (P : B -> Prop) (Q : A -> Prop)
    `{!forall y, Decision (P y)} `{!forall x, Decision (Q x)} (l : list A) :
  (forall x y, f x = Some y -> (P y <-> Q x)) ->
  filter P (omap f l) = omap f (filter Q l).
Proof.
  intros HPQ. induction l as [|x l IH]; [done|].
  rewrite (filter_cons Q x). cbn [omap list_omap].
  destruct (f x) as [y|] eqn:Hx.
  - rewrite (filter_cons P y).
    destruct (decide (P y)) as [Hy|Hy], (decide (Q x)) as [Hq|Hq].
    + cbn [omap list_omap]. by rewrite Hx, IH.
    + by destruct Hq; apply (HPQ x y).
    + by destruct Hy; apply (HPQ x y).
    + exact IH.
  - destruct (decide (Q x)); [|exact IH].
    cbn [omap list_omap]. by rewrite Hx.
Qed.

Lemma trend_columns_selected (names : list string) (start_date end_date : option Z)
    (r : stock_row) (t : trend_row) :
  trend_columns r = Some t ->
  (trend_name t ∈ names /\ in_range start_date end_date (trend_date t))
  <-> selected names start_date end_date r.
Proof.
  unfold trend_columns, selected. destruct (Full_Name r) as [n|s]; [discriminate|].
  intros [= <-]. simpl. by rewrite bool_decide_eq_true.
Qed.

(** X18. Asking for fewer companies or for a date range gives the rows of the
    wider, unbounded result that have one of the names and a date in range, in
    the order they have there. *)
Theorem extract_stock_price_trends_narrowing (self : api)
    (company_names wider_names : list string) (start_date end_date : option Z) :
  (forall n, n ∈ company_names -> n ∈ wider_names) ->
  extract_stock_price_trends self company_names start_date end_date
  = filter (fun t => trend_name t ∈ company_names
                     /\ in_range start_date end_date (trend_date t))
      (extract_stock_price_trends self wider_names None None).
Proof.
  intros Hsub. rewrite !extract_stock_price_trends_sorted_selection.
  rewrite (filter_sort_by name_date_le name_date_le_total name_date_le_trans
             _ name_date_le) by done.
  f_equal.
  rewrite (filter_omap trend_columns _ (selected company_names start_date end_date))
    by (intros r t; apply trend_columns_selected).
  f_equal. rewrite list_filter_filter. apply list_filter_iff. intros r.
  split; [|by intros [? _]]. intros Hsel. split; [done|].
  destruct Hsel as [Hin _]. split; [|done].
  unfold isin in *. destruct (Full_Name r) as [n|s]; [done|].
  apply bool_decide_eq_true in Hin. apply bool_decide_eq_true. by apply Hsub.
Qed.

Lemma extract_stock_price_trends_narrowing_witness :
  extract_stock_price_trends sample_api ["Beta"] (Some (day 19361)) None
  = filter (fun t => trend_name t ∈ ["Beta"]
                     /\ in_range (Some (day 19361)) None (trend_date t))
      (extract_stock_price_trends sample_api ["Alpha"; "Beta"] None None).
Proof. apply extract_stock_price_trends_narrowing. intros n Hn. set_solver. Defined.

(** ** [get_line_plot] *)

(** X19. The line plot is replaced by the note exactly when no price row of a
    selected company has its date in the range, which is so for every range that
    ends before it starts; a figure is drawn from the price trends. *)
Theorem get_line_plot_view (self : api) (company_names : list string)
    (date_range : Z * Z) :
  (get_line_plot self company_names date_range = NoVisualization
   <-> forall r, r ∈ stocks self ->
         ~ selected company_names (Some (fst date_range)) (Some (snd date_range)) r)
  /\ (forall df, get_line_plot self company_names date_range = Figure df ->
        df = extract_stock_price_trends self company_names
               (Some (fst date_range)) (Some (snd date_range)))
  /\ (snd date_range < fst date_range ->
      get_line_plot self company_names date_range = NoVisualization).
Proof.
  assert (Hnone : get_line_plot self company_names date_range = NoVisualization
            <-> forall r, r ∈ stocks self ->
                  ~ selected company_names (Some (fst date_range))
                      (Some (snd date_range)) r).
  { unfold get_line_plot. rewrite extract_stock_price_trends_sorted_selection.
    set (sel := filter _ (stocks self)). split.
    - intros Hview r Hr Hsel.
      assert (Hin : r ∈ sel) by (apply list_elem_of_filter; by split).
      destruct Hsel as [Hname _]. unfold isin in Hname.
      destruct (Full_Name r) as [n|s] eqn:Hfull; [discriminate|].
      assert (Ht : {| trend_date := Date r; trend_name := s; trend_price := Price r |}
                   ∈ sort_by name_date_le (omap trend_columns sel)).
      { apply elem_of_sort_by, list_elem_of_omap. exists r. split; [done|].
        unfold trend_columns. by rewrite Hfull. }
      destruct (sort_by name_date_le (omap trend_columns sel)); [|discriminate].
      by apply elem_of_nil in Ht.
    - intros Hno. destruct (sort_by name_date_le (omap trend_columns sel))
        as [|t l] eqn:Hdf; [done|]. exfalso.
      assert (Ht : t ∈ sort_by name_date_le (omap trend_columns sel))
        by (rewrite Hdf; by left).
      apply elem_of_sort_by, list_elem_of_omap in Ht as (r & Hr & _).
      apply list_elem_of_filter in Hr as [Hsel Hr]. by apply (Hno r). }
  split; [exact Hnone|]. split.
  - intros df. unfold get_line_plot.
    destruct (extract_stock_price_trends self company_names _ _); [discriminate|].
    by intros [= <-].
  - intros Hrange. apply Hnone. intros r _ [_ [Hs He]]. lia.
Qed.

Lemma get_line_plot_view_witness :
  get_line_plot sample_api ["Alpha"] (day 19362, day 19360) = NoVisualization.
Proof.
  apply (get_line_plot_view sample_api ["Alpha"] (day 19362, day 19360)).
  by vm_compute.
Defined.
(** ** [analyze_esg_vs_stock_returns]: the calls that raise *)

Lemma get_column_missing (c : string) (df : frame) :
  c ∉ columns df -> get_column c df = Err (KeyError c).
Proof. intros Hc. unfold get_column. by rewrite decide_False. Qed.

(** X20. Without an [overallRisk] column every call raises [KeyError], whatever
    is selected. *)
Theorem analyze_missing_risk_column (self : api) (company_names : list string)
    (start_date end_date : option Z) (biz_risks : list string) :
  wf_frame (esg self) -> "Full Name" ∈ columns (esg self) ->
  ("overallRisk" ∉ columns (esg self)) ->
  analyze_esg_vs_stock_returns self company_names start_date end_date biz_risks
  = Err (KeyError "overallRisk").
Proof.
  intros Hwf Hname Hrisk. unfold analyze_esg_vs_stock_returns.
  rewrite (get_column_wf _ "Full Name") by done. cbn [mbind result_bind].
  by rewrite get_column_missing.
Qed.

Lemma analyze_missing_risk_column_witness :
  analyze_esg_vs_stock_returns {| esg := sample_esg_without_risk; stocks := [] |}
    [] None None []
  = Err (KeyError "overallRisk").
Proof.
  apply analyze_missing_risk_column.
  - apply wf_frame_dom. repeat constructor; by vm_compute.
  - simpl. set_solver.
  - simpl. not_in_list.
Defined.

(** X21. A selected company whose risk score is a text makes the call raise
    [TypeError], whatever the filter on the risk levels. *)
Theorem analyze_text_risk (self : api) (company_names : list string)
    (start_date end_date : option Z) (biz_risks : list string)
    (entry : gmap string value) (s : string) :
  wf_frame (esg self) -> "Full Name" ∈ columns (esg self) ->
  "overallRisk" ∈ columns (esg self) ->
  entry ∈ rows (esg self) -> isin company_names (name_cell entry) = true ->
  entry !! "overallRisk" = Some (Str s) ->
  analyze_esg_vs_stock_returns self company_names start_date end_date biz_risks
  = Err TypeError.
Proof.
  intros Hwf Hname Hrisk He Hsel Hs. unfold analyze_esg_vs_stock_returns.
  rewrite (get_column_wf _ "Full Name") by done. cbn [mbind result_bind].
  rewrite <- list_fmap_compose.
  rewrite (boolean_index_rows (isin company_names ∘ cell_or_nan "Full Name")).
  set (fltr1 := {| columns := columns (esg self); rows := filter _ (rows (esg self)) |}).
  assert (Hwf1 : wf_frame fltr1) by (by apply wf_frame_filter).
  rewrite (get_column_wf fltr1 "overallRisk") by done. cbn [mbind result_bind].
  destruct (mapM (classify_cell classify_biz_risk) (cell_or_nan "overallRisk" <$> rows fltr1))
    as [levels|err] eqn:Hm.
  - exfalso. apply mapM_Ok_Forall2 in Hm.
    assert (Hin : Str s ∈ cell_or_nan "overallRisk" <$> rows fltr1).
    { apply list_elem_of_fmap. exists entry. split.
      - unfold cell_or_nan. by rewrite Hs.
      - cbn [rows fltr1]. apply list_elem_of_filter. by split. }
    apply list_elem_of_lookup in Hin as [i Hi].
    by destruct (Forall2_lookup_l _ _ _ _ _ Hm Hi) as (l & _ & Hl).
  - cbn [mbind result_bind]. apply mapM_Err_exists in Hm as (v & _ & Hv).
    destruct v; [discriminate|]. by injection Hv as <-.
Qed.

Lemma analyze_text_risk_witness :
  analyze_esg_vs_stock_returns {| esg := sample_esg_text_risk; stocks := [] |}
    ["Alpha"; "Beta"] None None ["Low Business Risk"]
  = Err TypeError.
Proof.
  apply (analyze_text_risk {| esg := sample_esg_text_risk; stocks := [] |}
           ["Alpha"; "Beta"] None None ["Low Business Risk"]
           {[ "Symbol" := Str "B"; "Full Name" := Str "Beta";
              "totalEsg" := Num (Float 31); "overallRisk" := Str "high" ]} "high").
  - apply wf_frame_dom. repeat constructor; by vm_compute.
  - simpl. set_solver.
  - simpl. set_solver.
  - simpl. set_solver.
  - by vm_compute.
  - by vm_compute.
Defined.

(** ** [analyze_esg_vs_stock_returns]: the rows returned *)

(** X22. Every row of the result is a selected company of the ESG table with its
    ESG score and the level of its risk score, a level of the filter when there
    is one; a company has at most one row for each of its rows in the ESG table. *)
Theorem analyze_rows_pass_filters (self : api) (company_names : list string)
    (start_date end_date : option Z) (biz_risks : list string) :
  analysable self company_names ->
  exists out,
    analyze_esg_vs_stock_returns self company_names start_date end_date biz_risks
    = Ok out
    /\ (length out
        <= length (filter (kept company_names biz_risks) (rows (esg self))))%nat
    /\ forall row, row ∈ out ->
         exists entry name risk,
           entry ∈ rows (esg self)
           /\ entry !! "Full Name" = Some (Str name) /\ name ∈ company_names
           /\ entry !! "overallRisk" = Some (Num risk)
           /\ entry !! "totalEsg" = Some (analysis_totalEsg row)
           /\ analysis_name row = Str name
           /\ Business_Risk_Level row = Str (classify_biz_risk risk)
           /\ (biz_risks <> [] -> classify_biz_risk risk ∈ biz_risks).
Proof.
  intros Han. eexists. split; [by apply analyze_output|].
  destruct Han as (Hwf & Hname & Hrisk & Htot & _ & Hnum).
  split.
  - induction (filter (kept company_names biz_risks) (rows (esg self))) as [|e K IH];
      [done|].
    rewrite fmap_cons. cbn [concat]. rewrite length_app. cbn [length].
    assert (length (analysis_rows_of self start_date end_date e) <= 1)%nat; [|lia].
    unfold analysis_rows_of. destruct (name_cell e); [simpl; lia|].
    destruct (decide _); simpl; lia.
  - intros row (e & name & He & Hn & _ & ->)%elem_of_analysis_rows.
    apply list_elem_of_filter in He as [[Hsel Hlevel] He].
    destruct (wf_frame_cell _ "Full Name" e Hwf He Hname) as [nv Hnv].
    destruct (wf_frame_cell _ "totalEsg" e Hwf He Htot) as [tv Htv].
    destruct (Hnum e He Hsel) as [risk Hr].
    assert (nv = Str name) as ->.
    { unfold name_cell, cell_or_nan in Hn. by rewrite Hnv in Hn. }
    assert (Hlc : level_cell e = Str (classify_biz_risk risk)).
    { unfold level_cell, cell_or_nan. by rewrite Hr. }
    exists e, name, risk. cbn [analysis_name analysis_totalEsg Business_Risk_Level].
    split; [done|]. split; [done|]. split.
    { rewrite Hn in Hsel. by apply bool_decide_eq_true in Hsel. }
    split; [done|]. split.
    { unfold cell_or_nan. by rewrite Htv. }
    split; [done|]. split; [done|].
    intros Hne. destruct biz_risks as [|b bs]; [done|].
    rewrite Hlc in Hlevel. by apply bool_decide_eq_true in Hlevel.
Qed.

Lemma analyze_rows_pass_filters_witness :
  exists out,
    analyze_esg_vs_stock_returns sample_api ["Alpha"; "Beta"] None None
      ["High Business Risk"] = Ok out
    /\ (length out
        <= length (filter (kept ["Alpha"; "Beta"] ["High Business Risk"])
                          (rows (esg sample_api))))%nat.
Proof.
  destruct (analyze_rows_pass_filters sample_api ["Alpha"; "Beta"] None None
              ["High Business Risk"]) as (out & Hout & Hlen & _).
  - apply sample_api_analysable.
  - exists out. split; [exact Hout | exact Hlen].
Defined.

(** ** [get_scatter_plot] *)

(** X23. On a table the analysis runs on, the scatter plot is replaced by the
    note exactly when no kept company has a price row in the range of the
    slider; the callback raises nothing. *)
Theorem get_scatter_plot_view (self : api) (company_names : list string)
    (date_range : Z * Z) (biz_risks : list string) :
  analysable self company_names ->
  exists view,
    get_scatter_plot self company_names date_range biz_risks = Ok view
    /\ (view = NoVisualization
        <-> forall e n, e ∈ rows (esg self) -> kept company_names biz_risks e ->
              e !! "Full Name" = Some (Str n) ->
              price_rows self n (Some (fst date_range)) (Some (snd date_range)) = [])
    /\ (forall df, view = Figure df ->
          analyze_esg_vs_stock_returns self company_names
            (Some (fst date_range)) (Some (snd date_range)) biz_risks = Ok df).
Proof.
  intros Han. unfold get_scatter_plot. rewrite analyze_output by done.
  cbn [mbind result_bind].
  set (out := concat _).
  assert (Hnil : out = []
            <-> forall e n, e ∈ rows (esg self) -> kept company_names biz_risks e ->
                  e !! "Full Name" = Some (Str n) ->
                  price_rows self n (Some (fst date_range)) (Some (snd date_range)) = []).
  { split.
    - intros Hout e n He Hk Hn. apply company_series_nil.
      destruct (decide (company_series self n (Some (fst date_range))
                          (Some (snd date_range)) = [])) as [|Hne]; [done|].
      exfalso.
      assert (Hrow : {| analysis_name := Str n;
                        analysis_totalEsg := cell_or_nan "totalEsg" e;
                        Stock_Return := reported_return self n (Some (fst date_range))
                                          (Some (snd date_range));
                        Business_Risk_Level := level_cell e |} ∈ out).
      { unfold out. apply list_elem_of_In, in_concat. eexists. split.
        - apply list_elem_of_In, list_elem_of_fmap_2, list_elem_of_filter. by split.
        - unfold analysis_rows_of, name_cell, cell_or_nan. rewrite Hn. simpl.
          rewrite decide_False by done. by left. }
      rewrite Hout in Hrow. by apply elem_of_nil in Hrow.
    - intros Hall. destruct out as [|row l] eqn:Hout; [done|]. exfalso.
      assert (Hrow : row ∈ out) by (rewrite Hout; by left).
      apply elem_of_analysis_rows in Hrow as (e & n & He & Hn & Hseries & _).
      apply list_elem_of_filter in He as [Hk He].
      apply Hseries, company_series_nil, (Hall e n He Hk).
      destruct Han as (Hwf & Hcol & _).
      destruct (wf_frame_cell _ "Full Name" e Hwf He Hcol) as [v Hv].
      unfold name_cell, cell_or_nan in Hn. rewrite Hv in Hn. simpl in Hn. by subst. }
  destruct out as [|row l] eqn:Hout.
  - eexists. split; [reflexivity|]. split; [|discriminate].
    split; [intros _; by apply Hnil | done].
  - eexists. split; [reflexivity|]. split.
    + split; [discriminate|]. intros Hall. by apply Hnil in Hall.
    + by intros df [= <-].
Qed.

Lemma get_scatter_plot_view_witness :
  exists view,
    get_scatter_plot sample_api ["Alpha"] (day 19370, day 19380) [] = Ok view
    /\ (view = NoVisualization
        <-> forall e n, e ∈ rows (esg sample_api) -> kept ["Alpha"] [] e ->
              e !! "Full Name" = Some (Str n) ->
              price_rows sample_api n (Some (day 19370)) (Some (day 19380)) = []).
Proof.
  destruct (get_scatter_plot_view sample_api ["Alpha"] (day 19370, day 19380) [])
    as (view & Hview & Hiff & _).
  - apply sample_api_analysable.
  - exists view. split; [exact Hview | exact Hiff].
Defined.
(** ** A company without a valid price *)

Lemma valid_prices_all_nan (prices : list float) :
  Forall (fun p => is_nan p = true) prices -> valid_prices prices = [].
Proof.
  unfold valid_prices. induction 1 as [|p l Hp _ IH]; [done|].
  rewrite filter_cons_False; [done|]. by rewrite Hp.
Qed.

(** X24. A kept company that has price rows in the range, all of them without a
    price, is not dropped: its row is reported with NaN as return. *)
Theorem analyze_all_prices_missing (self : api) (company_names : list string)
    (start_date end_date : option Z) (biz_risks : list string)
    (entry : gmap string value) (name : string) :
  analysable self company_names ->
  entry ∈ rows (esg self) -> entry !! "Full Name" = Some (Str name) ->
  kept company_names biz_risks entry ->
  price_rows self name start_date end_date <> [] ->
  (forall r, r ∈ price_rows self name start_date end_date -> is_nan (Price r) = true) ->
  exists out,
    analyze_esg_vs_stock_returns self company_names start_date end_date biz_risks
    = Ok out
    /\ (exists row, row ∈ out /\ analysis_name row = Str name)
    /\ (forall row, row ∈ out -> analysis_name row = Str name ->
          is_nan (Stock_Return row) = true).
Proof.
  intros Han He Hname Hkept Hrows Hnan. eexists. split; [by apply analyze_output|].
  assert (Hseries : company_series self name start_date end_date <> [])
    by (by rewrite company_series_nil).
  assert (Hvalid : valid_prices (series_prices self name start_date end_date) = []).
  { apply valid_prices_all_nan, Forall_forall. intros p Hp.
    unfold series_prices, company_series in Hp.
    apply list_elem_of_fmap in Hp as (t & -> & Ht).
    apply elem_of_sort_by, list_elem_of_omap in Ht as (r & Hr & Ht).
    unfold trend_columns in Ht. destruct (Full_Name r); [discriminate|].
    injection Ht as <-. simpl. by apply Hnan. }
  split.
  - exists {| analysis_name := Str name;
               analysis_totalEsg := cell_or_nan "totalEsg" entry;
               Stock_Return := reported_return self name start_date end_date;
               Business_Risk_Level := level_cell entry |}.
    split; [|reflexivity].
    apply list_elem_of_In, in_concat. eexists. split.
    + apply list_elem_of_In, list_elem_of_fmap_2, list_elem_of_filter. by split.
    + unfold analysis_rows_of, name_cell, cell_or_nan. rewrite Hname. simpl.
      rewrite decide_False by done. by left.
  - intros row (e' & name' & _ & _ & _ & ->)%elem_of_analysis_rows [= ->].
    cbn [Stock_Return]. unfold reported_return, first_valid, last_valid.
    rewrite Hvalid. by vm_compute.
Qed.

Lemma sample_api_no_prices_analysable (company_names : list string) :
  analysable sample_api_no_prices company_names.
Proof. exact (sample_api_analysable company_names). Qed.

Lemma analyze_all_prices_missing_witness :
  exists out,
    analyze_esg_vs_stock_returns sample_api_no_prices ["Alpha"] None None [] = Ok out
    /\ (exists row, row ∈ out /\ analysis_name row = Str "Alpha")
    /\ (forall row, row ∈ out -> analysis_name row = Str "Alpha" ->
          is_nan (Stock_Return row) = true).
Proof.
  apply (analyze_all_prices_missing sample_api_no_prices ["Alpha"] None None []
           {[ "Symbol" := Str "A"; "Full Name" := Str "Alpha";
              "totalEsg" := Num (Float 25); "overallRisk" := Num (Int 3) ]}
           "Alpha").
  - apply sample_api_no_prices_analysable.
  - cbn [esg sample_api_no_prices]. rewrite sample_api_esg. by left.
  - by vm_compute.
  - split; [by vm_compute | done].
  - by vm_compute.
  - intros r Hr. apply list_elem_of_In in Hr. vm_compute in Hr.
    repeat (destruct Hr as [<-|Hr]; [reflexivity|]). destruct Hr.
Defined.

(** ** [read_data]: which exception *)

Section LoadErrors.

Variable parse_number : string -> option num.
Variable to_datetime : list string -> result (list Z).

Lemma mapM_to_numeric_Err (cells : list value) (e : error) :
  mapM (to_numeric parse_number) cells = Err e -> e = ValueError.
Proof.
  intros (v & _ & Hv)%mapM_Err_exists. unfold to_numeric in Hv.
  destruct v as [n|s]; [discriminate|].
  destruct (parse_number s); [discriminate|]. by injection Hv as <-.
Qed.

(** The ESG part of a load whose [totalEsg] column is numeric. *)
Lemma read_data_esg_part (esg_csv : frame) :
  wf_frame esg_csv -> "totalEsg" ∈ columns esg_csv ->
  (forall r v, r ∈ rows esg_csv -> r !! "totalEsg" = Some v ->
               numeric_cell parse_number v) ->
  exists total,
    mapM (to_numeric parse_number) (cell_or_nan "totalEsg" <$> rows esg_csv) = Ok total
    /\ wf_frame (set_column "totalEsg" (Num <$> total) esg_csv)
    /\ columns (set_column "totalEsg" (Num <$> total) esg_csv) = columns esg_csv.
Proof.
  intros Hwf Htot Hnum.
  destruct (proj2 (mapM_is_Ok (to_numeric parse_number)
                     (cell_or_nan "totalEsg" <$> rows esg_csv))) as [total Htotal].
  { apply Forall_fmap, Forall_forall. intros r Hr. simpl.
    apply to_numeric_is_Ok.
    destruct (wf_frame_cell esg_csv "totalEsg" r Hwf Hr Htot) as [v Hv].
    unfold cell_or_nan. rewrite Hv. simpl. by eapply Hnum. }
  exists total. split; [done|]. split.
  - apply wf_frame_set_column; [done..|].
    rewrite length_fmap, (mapM_Ok_length _ _ _ Htotal). by rewrite length_fmap.
  - simpl. by rewrite decide_True.
Qed.

(** X25. The checks of a load are made in one order, and the first that fails
    decides the exception: the [totalEsg] column ([KeyError]), its cells
    ([ValueError]), the [Symbol] and [Full Name] columns ([KeyError]), and only
    then the price file: its [Date] column ([KeyError]), the conversion of
    that column, whose exception is the one raised, and last the reshaping,
    which refuses a column named [Price] ([ValueError]). *)
Theorem read_data_first_error (esg_csv : frame) (stocks_csv : wide_table) :
  wf_frame esg_csv ->
  (("totalEsg" ∉ columns esg_csv) ->
   read_data parse_number to_datetime esg_csv stocks_csv = Err (KeyError "totalEsg"))
  /\ ("totalEsg" ∈ columns esg_csv ->
      (exists r v, r ∈ rows esg_csv /\ r !! "totalEsg" = Some v
                   /\ ~ numeric_cell parse_number v) ->
      read_data parse_number to_datetime esg_csv stocks_csv = Err ValueError)
  /\ ("totalEsg" ∈ columns esg_csv ->
      (forall r v, r ∈ rows esg_csv -> r !! "totalEsg" = Some v ->
                   numeric_cell parse_number v) ->
      (("Symbol" ∉ columns esg_csv) ->
       read_data parse_number to_datetime esg_csv stocks_csv = Err (KeyError "Symbol"))
      /\ ("Symbol" ∈ columns esg_csv -> ("Full Name" ∉ columns esg_csv) ->
          read_data parse_number to_datetime esg_csv stocks_csv
          = Err (KeyError "Full Name"))
      /\ ("Symbol" ∈ columns esg_csv -> "Full Name" ∈ columns esg_csv ->
          (date_column stocks_csv = None ->
           read_data parse_number to_datetime esg_csv stocks_csv = Err (KeyError "Date"))
          /\ (forall ds e, date_column stocks_csv = Some ds ->
                to_datetime ds = Err e ->
                read_data parse_number to_datetime esg_csv stocks_csv = Err e)
          /\ (forall ds dates, date_column stocks_csv = Some ds ->
                to_datetime ds = Ok dates ->
                "Price" ∈ fst <$> ticker_columns stocks_csv ->
                read_data parse_number to_datetime esg_csv stocks_csv
                = Err ValueError))).
Proof.
  intros Hwf. split; [|split].
  - intros Htot. unfold read_data. by rewrite get_column_missing.
  - intros Htot (r & v & Hr & Hv & Hnot). unfold read_data.
    rewrite (get_column_wf esg_csv "totalEsg") by done. cbn [mbind result_bind].
    destruct (mapM (to_numeric parse_number) (cell_or_nan "totalEsg" <$> rows esg_csv))
      as [total|e] eqn:Hm.
    + exfalso. apply Hnot, to_numeric_is_Ok.
      assert (Hall : Forall (fun x => is_Ok (to_numeric parse_number x))
                       (cell_or_nan "totalEsg" <$> rows esg_csv))
        by (apply mapM_is_Ok; by exists total).
      rewrite Forall_forall in Hall. apply Hall, list_elem_of_fmap.
      exists r. split; [|done]. unfold cell_or_nan. by rewrite Hv.
    + cbn [mbind result_bind]. by rewrite (mapM_to_numeric_Err _ _ Hm).
  - intros Htot Hnum.
    destruct (read_data_esg_part esg_csv Hwf Htot Hnum) as (total & Htotal & Hwf' & Hcols).
    unfold read_data.
    rewrite (get_column_wf esg_csv "totalEsg") by done. cbn [mbind result_bind].
    rewrite Htotal. cbn [mbind result_bind].
    split; [|split].
    + intros Hsym. by rewrite (get_column_missing "Symbol") by (by rewrite Hcols).
    + intros Hsym Hname.
      rewrite (get_column_wf _ "Symbol") by (by rewrite ?Hcols).
      cbn [mbind result_bind].
      by rewrite (get_column_missing "Full Name") by (by rewrite Hcols).
    + intros Hsym Hname.
      rewrite (get_column_wf _ "Symbol") by (by rewrite ?Hcols).
      cbn [mbind result_bind].
      rewrite (get_column_wf _ "Full Name") by (by rewrite ?Hcols).
      cbn [mbind result_bind]. split; [|split].
      * intros ->. reflexivity.
      * intros ds e -> Hd. cbn [mbind result_bind]. by rewrite Hd.
      * intros ds dates -> Hd Hprice. cbn [mbind result_bind]. rewrite Hd.
        cbn [mbind result_bind]. unfold melt. by rewrite decide_True.
Qed.

End LoadErrors.

Lemma read_data_first_error_witness :
  read_data sample_parse_number sample_to_datetime sample_esg
    {| date_column := None; ticker_columns := [] |}
  = Err (KeyError "Date").
Proof.
  destruct (read_data_first_error sample_parse_number sample_to_datetime sample_esg
              {| date_column := None; ticker_columns := [] |} sample_esg_wf)
    as (_ & _ & Hesg).
  destruct Hesg as (_ & _ & Hprices).
  - simpl. set_solver.
  - intros r v Hr Hv. simpl in Hr.
    repeat (apply elem_of_cons in Hr as [->|Hr];
            [vm_compute in Hv; injection Hv as <-; exact I|]).
    by apply elem_of_nil in Hr.
  - destruct Hprices as [Hdate _].
    + simpl. set_solver.
    + simpl. set_solver.
    + apply Hdate. reflexivity.
Defined.

(** ** [make_sankey] called again *)

Lemma thickness_cell_written (vals : option string) (r : gmap string value) :
  thickness_cell vals (<["value" := thickness_cell vals r]> r) = thickness_cell vals r.
Proof.
  unfold thickness_cell. destruct vals as [c|]; [|done].
  destruct (decide (c = "")); [done|]. unfold cell_or_nan.
  destruct (decide (c = "value")) as [->|Hne].
  - by rewrite lookup_insert_eq.
  - by rewrite lookup_insert_ne.
Qed.

Lemma sankey_written_again (vals : option string) (caller_df : frame) :
  sankey_written vals (sankey_written vals caller_df) = sankey_written vals caller_df.
Proof.
  unfold sankey_written at 1. unfold set_column at 1.
  rewrite sankey_written_rows, zip_with_fmap_same, <- list_fmap_compose.
  assert (Hv : "value" ∈ columns (sankey_written vals caller_df)).
  { cbn [columns sankey_written set_column].
    destruct (decide ("value" ∈ columns caller_df)); [done|].
    apply elem_of_app. right. by left. }
  rewrite decide_True by done.
  unfold sankey_written at 2. unfold set_column. rewrite zip_with_fmap_same.
  f_equal. apply list_fmap_ext. intros i r _. simpl.
  by rewrite thickness_cell_written, insert_insert_eq.
Qed.

(** X26. On a frame that has the listed columns, none of them [value], with
    categorical cells, a second call with the same arguments gives the figure
    data of the first and leaves the caller's frame as the first call left
    it: the [value] column the first call wrote does not change what is
    drawn. *)
Theorem make_sankey_again (set_order : list value -> list value)
    (σ : list frame) (df : nat) (caller_df : frame) (cols : list string)
    (vals : option string) :
  set_iteration set_order ->
  σ !! df = Some caller_df -> wf_frame caller_df -> (2 <= length cols)%nat ->
  (forall c, c ∈ cols -> c ∈ columns caller_df) -> ("value" ∉ cols) ->
  (forall c r v, c ∈ cols -> r ∈ rows caller_df -> r !! c = Some v -> categorical v) ->
  vals_in_frame vals caller_df ->
  exists fig,
    snd (make_sankey set_order df cols vals σ) = Ok fig
    /\ snd (make_sankey set_order df cols vals
              (fst (make_sankey set_order df cols vals σ))) = Ok fig
    /\ fst (make_sankey set_order df cols vals
              (fst (make_sankey set_order df cols vals σ))) !! df
       = fst (make_sankey set_order df cols vals σ) !! df.
Proof.
  intros Hset Hdf Hwf Hk Hcols _ _ Hvals.
  set (written := sankey_written vals caller_df).
  destruct (wf_frame_new_column "value" (thickness_cell vals) caller_df Hwf)
    as (Hwfw & _ & Hcolsw).
  fold (sankey_written vals caller_df) in Hwfw, Hcolsw. fold written in Hwfw, Hcolsw.
  assert (Hlt : (df < length σ)%nat) by (by eapply lookup_lt_Some).
  rewrite (make_sankey_run set_order σ df caller_df cols vals) by done.
  cbn [fst snd]. fold written.
  set (σ1 := <[df := written]> σ ++ [sankey_coded set_order vals caller_df cols]).
  assert (Hdf1 : σ1 !! df = Some written).
  { unfold σ1. rewrite lookup_app_l by (by rewrite length_insert).
    by apply list_lookup_insert_eq. }
  rewrite (make_sankey_run set_order σ1 df written cols vals); try done.
  2:{ intros c Hc. apply Hcolsw. left. by apply Hcols. }
  2:{ intros c Hc Hne. apply Hcolsw. left. by apply (Hvals c). }
  cbn [fst snd].
  assert (Hstacked : sankey_stacked_rows vals written cols
                     = sankey_stacked_rows vals caller_df cols).
  { unfold sankey_stacked_rows, written. by rewrite sankey_written_again. }
  assert (Hlabels : sankey_labels set_order vals written cols
                    = sankey_labels set_order vals caller_df cols).
  { unfold sankey_labels. by rewrite Hstacked. }
  eexists. split; [reflexivity|]. split.
  - unfold sankey_code. by rewrite Hstacked, Hlabels.
  - unfold written at 1. rewrite sankey_written_again. fold written.
    rewrite lookup_app_l.
    + rewrite list_lookup_insert_eq; [done|]. unfold σ1.
      rewrite length_app, length_insert. lia.
    + rewrite length_insert. by eapply lookup_lt_Some.
Qed.

Lemma sample_categories_categorical (c : string) (r : gmap string value) (v : value) :
  c ∈ ["a"; "b"] -> r ∈ rows sample_categories -> r !! c = Some v -> categorical v.
Proof.
  intros Hc Hr Hv. simpl in Hr.
  repeat (apply elem_of_cons in Hr as [->|Hr];
          [repeat (apply elem_of_cons in Hc as [->|Hc];
                   [vm_compute in Hv; injection Hv as <-; exact I|]);
           by apply elem_of_nil in Hc|]).
  by apply elem_of_nil in Hr.
Qed.

Lemma make_sankey_again_witness :
  exists fig,
    snd (make_sankey remove_dups 0 ["a"; "b"] None [sample_categories]) = Ok fig
    /\ snd (make_sankey remove_dups 0 ["a"; "b"] None
              (fst (make_sankey remove_dups 0 ["a"; "b"] None [sample_categories])))
       = Ok fig.
Proof.
  destruct (make_sankey_again remove_dups [sample_categories] 0 sample_categories
              ["a"; "b"] None) as (fig & H1 & H2 & _).
  - exact remove_dups_set_iteration.
  - reflexivity.
  - exact sample_categories_wf.
  - simpl. lia.
  - intros c Hc. simpl.
    repeat (apply elem_of_cons in Hc as [->|Hc]; [set_solver|]).
    by apply elem_of_nil in Hc.
  - not_in_list.
  - exact sample_categories_categorical.
  - intros c Hc. discriminate.
  - exists fig. split; [exact H1 | exact H2].
Defined.
